(** * agent_builder: the evaluation pipeline of [example.py]

    A shallow embedding of the script: decoded JSON documents with Python's
    dynamic subscripting, a process state (files, directories, standard
    output, spawned commands), the five pipeline steps, and the properties of
    the parser, the metadata merge, the bootstrapper and the command runner. *)

From Stdlib Require Import ZArith SpecFloat Ascii String.
From stdpp Require Import base option list gmap strings pretty.

Local Open Scope string_scope.
Local Open Scope list_scope.
Local Open Scope Z_scope.

(** ** Decoded JSON values

    What [json.loads] builds: [None], [bool], [int], [float], [str], [list]
    and [dict] with string keys.  A dict keeps insertion order, so it is an
    association list read through its first binding of a key; a float is a
    binary floating-point datum.  A [str] is a sequence of characters. *)

#[warnings="-register-all"]
Inductive json : Type :=
| JNull
| JBool (b : bool)
| JInt (n : Z)
| JFloat (x : spec_float)
| JStr (s : string)
| JArr (items : list json)
| JObj (fields : list (string * json)).

Abbreviation dict := (list (string * json)).

(** [d.get(k)] on a dict. *)
Fixpoint dict_get {V} (d : list (string * V)) (k : string) : option V :=
  match d with
  | [] => None
  | (k', v) :: rest => if String.eqb k' k then Some v else dict_get rest k
  end.

(** [d[k] = v]: overwrite in place, or append a new key. *)
Fixpoint dict_set {V} (d : list (string * V)) (k : string) (v : V) : list (string * V) :=
  match d with
  | [] => [(k, v)]
  | (k', v') :: rest =>
      if String.eqb k' k then (k', v) :: rest else (k', v') :: dict_set rest k v
  end.

(** [k in d]. *)
Definition dict_has {V} (d : list (string * V)) (k : string) : bool :=
  match dict_get d k with Some _ => true | None => false end.

(** Python truthiness, as tested by [not x]. *)
Definition truthy (v : json) : bool :=
  match v with
  | JNull => false
  | JBool b => b
  | JInt n => negb (n =? 0)
  | JFloat x => match x with S754_zero _ => false | _ => true end
  | JStr s => negb (String.eqb s "")
  | JArr items => match items with [] => false | _ => true end
  | JObj fields => match fields with [] => false | _ => true end
  end.

(** ** Exceptions and results *)

Inductive subscript : Type :=
| SKey (k : string)
| SIdx (i : Z).

Inductive exn : Type :=
| KeyError (k : subscript)
| IndexError
| TypeError
| AttributeError
| FileNotFoundError (path : string)
| IsADirectoryError (path : string)
| FileExistsError (path : string)
| NotADirectoryError (path : string)
| JSONDecodeError (msg : string)
| RecursionError
| ValueError (msg : string)
| NameError (name : string)
| LibraryError (kind : string)   (* an exception class of a library, by name *)
| SystemExit (code : Z).

Inductive outcome (A : Type) : Type :=
| Ok (a : A)
| Raise (e : exn).
Arguments Ok {A} a.
Arguments Raise {A} e.

(** ** Strings: [find], [rfind], slices, [in] *)

Fixpoint find_from (c : ascii) (s : string) (i : Z) : Z :=
  match s with
  | EmptyString => -1
  | String a rest => if Ascii.eqb a c then i else find_from c rest (i + 1)
  end.

(** [s.find(c)] for a one-character needle: first position, or [-1]. *)
Definition find (c : ascii) (s : string) : Z := find_from c s 0.

Fixpoint rfind_from (c : ascii) (s : string) (i last : Z) : Z :=
  match s with
  | EmptyString => last
  | String a rest => rfind_from c rest (i + 1) (if Ascii.eqb a c then i else last)
  end.

(** [s.rfind(c)] for a one-character needle: last position, or [-1]. *)
Definition rfind (c : ascii) (s : string) : Z := rfind_from c s 0 (-1).

Definition str_len (s : string) : Z := Z.of_nat (String.length s).

(** A slice bound as Python clamps it: negative bounds count from the end. *)
Definition clamp (len i : Z) : Z :=
  if i <? 0 then Z.max 0 (i + len) else Z.min i len.

(** [s[a:b]]. *)
Definition slice (s : string) (a b : Z) : string :=
  let lo := clamp (str_len s) a in
  let hi := clamp (str_len s) b in
  String.substring (Z.to_nat lo) (Z.to_nat (hi - lo)) s.

Fixpoint starts_with (p s : string) : bool :=
  match p, s with
  | EmptyString, _ => true
  | String a p', String b s' => Ascii.eqb a b && starts_with p' s'
  | String _ _, EmptyString => false
  end.

(** [p in s] on two strings: [p] occurs somewhere in [s]. *)
Fixpoint occurs_in (p s : string) : bool :=
  starts_with p s ||
  match s with
  | EmptyString => false
  | String _ rest => occurs_in p rest
  end.

(** The character [c] occurs in [s]. *)
Fixpoint has_char (c : ascii) (s : string) : bool :=
  match s with
  | EmptyString => false
  | String a rest => Ascii.eqb a c || has_char c rest
  end.

Definition chars (s : string) : list json :=
  (λ c, JStr (String c EmptyString)) <$> list_ascii_of_string s.

(** ** Python's dynamic operations on decoded values *)

(** [l[i]] on a list or a string: a negative index counts from the end. *)
Definition seq_index {A} (l : list A) (i : Z) : option A :=
  let n := Z.of_nat (length l) in
  if i <? 0 then (if i + n <? 0 then None else l !! Z.to_nat (i + n))
  else l !! Z.to_nat i.

(** [o[k]]. *)
Definition getitem (o : json) (k : subscript) : outcome json :=
  match o, k with
  | JObj d, SKey s =>
      match dict_get d s with Some v => Ok v | None => Raise (KeyError k) end
  | JObj _, SIdx _ => Raise (KeyError k)
  | JArr l, SIdx i =>
      match seq_index l i with Some v => Ok v | None => Raise IndexError end
  | JStr s, SIdx i =>
      match seq_index (chars s) i with Some v => Ok v | None => Raise IndexError end
  | _, _ => Raise TypeError
  end.

(** [o[k] = v] for a string key, the only form the script writes. *)
Definition setitem (o : json) (k : string) (v : json) : outcome json :=
  match o with
  | JObj d => Ok (JObj (dict_set d k v))
  | _ => Raise TypeError
  end.

(** [k in o] for a string [k]. *)
Definition contains (k : string) (o : json) : outcome bool :=
  match o with
  | JObj d => Ok (dict_has d k)
  | JArr l =>
      Ok (existsb (λ x, match x with JStr t => String.eqb t k | _ => false end) l)
  | JStr t => Ok (occurs_in k t)
  | _ => Raise TypeError
  end.

(** The items a [for] loop visits. *)
Definition iterate (o : json) : outcome (list json) :=
  match o with
  | JArr l => Ok l
  | JObj d => Ok ((λ kv, JStr kv.1) <$> d)
  | JStr s => Ok (chars s)
  | _ => Raise TypeError
  end.

(** The container [o] after the object it holds under [k] was mutated into
    [v]: decoded documents are trees, so the mutation shows in [o] only. *)
Definition put_back (o : json) (k : subscript) (v : json) : json :=
  match o, k with
  | JObj d, SKey s => JObj (dict_set d s v)
  | JArr l, SIdx i =>
      JArr (if i <? 0 then <[Z.to_nat (i + Z.of_nat (length l)) := v]> l
            else <[Z.to_nat i := v]> l)
  | _, _ => o
  end.

(** ** The process state and the monad of the script

    Files and directories are kept by the path the script names them with:
    the state describes paths made of plain components, where one path
    names one file.  Permissions, quotas and other processes are not part
    of it. *)

Record world : Type := World {
  files : gmap string string;   (* regular files, by literal path *)
  dirs : gset string;           (* directories, by literal path *)
  stdout : list string;         (* lines printed so far *)
  spawned : list string;        (* shell commands run so far *)
  nonce : nat                   (* random identifiers drawn so far *)
}.

Definition M (A : Type) : Type := world → outcome A * world.

Class Bind (m : Type → Type) : Type :=
  bind : ∀ {A B : Type}, m A → (A → m B) → m B.

#[export] Instance outcome_bind : Bind outcome := λ A B c k,
  match c with
  | Ok a => k a
  | Raise e => Raise e
  end.

#[export] Instance M_bind : Bind M := λ A B c k w,
  match c w with
  | (Ok a, w') => k a w'
  | (Raise e, w') => (Raise e, w')
  end.

Declare Scope prog_scope.
Delimit Scope prog_scope with prog.
Notation "x <- c ;; k" := (bind c (λ x, k))
  (at level 100, c at next level, right associativity) : prog_scope.
Notation "c ;; k" := (bind c (λ _, k))
  (at level 100, right associativity) : prog_scope.
Local Open Scope prog_scope.

Definition ret {A} (a : A) : M A := λ w, (Ok a, w).
Definition raise {A} (e : exn) : M A := λ w, (Raise e, w).
Definition lift {A} (c : outcome A) : M A := λ w, (c, w).

Definition print (line : string) : M unit := λ w,
  (Ok tt, World (files w) (dirs w) (stdout w ++ [line]) (spawned w) (nonce w)).

Definition sys_exit {A} (code : Z) : M A := raise (SystemExit code).

(** [for x in l: body x]. *)
Fixpoint for_each {A} (l : list A) (body : A → M unit) : M unit :=
  match l with
  | [] => ret tt
  | x :: rest => body x ;; for_each rest body
  end.

(** [os.path.exists]. *)
Definition os_path_exists (p : string) : M bool := λ w,
  (Ok (bool_decide (is_Some (files w !! p)) || bool_decide (p ∈ dirs w)), w).

Fixpoint ends_with_sep (s : string) : bool :=
  match s with
  | EmptyString => false
  | String c EmptyString => Ascii.eqb c "/"
  | String _ rest => ends_with_sep rest
  end.

(** [os.path.join] on two components (POSIX). *)
Definition os_path_join (a b : string) : string :=
  if starts_with "/" b then b
  else if String.eqb a "" || ends_with_sep a then a +:+ b
  else a +:+ "/" +:+ b.

(** [open(p, "r").read()]. *)
Definition read_text (p : string) : M string := λ w,
  match files w !! p with
  | Some text => (Ok text, w)
  | None =>
      if bool_decide (p ∈ dirs w) then (Raise (IsADirectoryError p), w)
      else (Raise (FileNotFoundError p), w)
  end.

(** [open(p, "w").write(text)]: the file is created or replaced. *)
Definition write_text (p text : string) : M unit := λ w,
  if bool_decide (p ∈ dirs w) then (Raise (IsADirectoryError p), w)
  else (Ok tt, World (<[p := text]> (files w)) (dirs w) (stdout w) (spawned w) (nonce w)).

(** The directories above [p]: its proper prefixes that end before a
    separator, outermost first. *)
Fixpoint ancestors_from (seen rest : string) : list string :=
  match rest with
  | EmptyString => []
  | String c rest' =>
      let above := ancestors_from (seen +:+ String c EmptyString) rest' in
      if Ascii.eqb c "/" && negb (String.eqb seen "") && negb (ends_with_sep seen)
      then seen :: above else above
  end.

Definition ancestors (p : string) : list string := ancestors_from "" p.

(** From the innermost ancestor outwards: the ancestors that do not exist,
    and the first one that does. *)
Fixpoint innermost (present : string → bool) (up : list string)
    : list string * option string :=
  match up with
  | [] => ([], None)
  | a :: rest =>
      if present a then ([], Some a)
      else let '(missing, found) := innermost present rest in (a :: missing, found)
  end.

(** [os.makedirs(p, exist_ok=True)].  On a directory it does nothing, and a
    regular file at [p] is an error.  Otherwise it looks outwards for the
    innermost ancestor that exists and makes the missing directories below
    it, then [p]; when that ancestor is a regular file the first [mkdir]
    fails and nothing is made. *)
Definition os_makedirs (p : string) : M unit := λ w,
  let is_file q := bool_decide (is_Some (files w !! q)) in
  let is_dir q := bool_decide (q ∈ dirs w) in
  if is_dir p then (Ok tt, w)
  else if is_file p then (Raise (FileExistsError p), w)
  else
    let '(missing, found) :=
      innermost (λ q, is_file q || is_dir q) (reverse (ancestors p)) in
    let made :=
      World (files w) (list_to_set (p :: missing) ∪ dirs w) (stdout w)
        (spawned w) (nonce w) in
    match found with
    | Some a =>
        if is_dir a then (Ok tt, made)
        else (Raise (NotADirectoryError (List.last missing p)), w)
    | None => (Ok tt, made)
    end.

(** A path component that names an entry of its directory: not empty, not
    [.] or [..], without separator or null character, of 255 bytes at
    most. *)
Definition plain_name (s : string) : bool :=
  negb (String.eqb s "") && negb (String.eqb s ".") && negb (String.eqb s "..")
  && negb (has_char "/" s) && negb (has_char "000" s)
  && (String.length s <=? 255)%nat.

(** [shutil.copyfile(src, dst)]. *)
Definition shutil_copyfile (src dst : string) : M unit :=
  text <- read_text src ;; write_text dst text.

(** ** What the script takes from its platform

    The JSON codec of the standard library, string formatting, the shell,
    the random source and the hosted model are not code of the script. *)

Inductive decoded : Type :=
| Decoded (v : json)
| Malformed (msg : string)    (* [json.JSONDecodeError], with its text *)
| TooDeep                     (* [RecursionError]: the text nests too deep *)
| TooLong (msg : string).     (* [ValueError]: an integer literal beyond the
                                 digit limit of [int] *)

Inductive message : Type :=
| SystemMessage (content : string)
| HumanMessage (content : string).

Class Platform : Type := {
  (* [json.loads] *)
  json_loads : string → decoded;
  (* [json.dumps(_, indent=4)] *)
  json_dumps : json → string;
  (* the text an f-string puts for a decoded value *)
  py_format : json → string;
  (* [subprocess.run(_, shell=True)]: return code, files and directories after *)
  subprocess_run :
    string → gmap string string * gset string → Z * (gmap string string * gset string);
  (* [str(uuid.uuid4())], by draw *)
  uuid4 : nat → string;
  (* [ChatOpenAI(model="gpt-4o-mini", temperature=0, api_key=_)]: the client
     is built, or the constructor raises *)
  chat_openai : outcome unit;
  (* [llm.invoke(messages).content], or the exception the call raises *)
  llm_invoke : list message → outcome string;
  (* the rubric text of [analyze_implementations], lines 44-138 *)
  system_message : string
}.

Definition nl : string := String "010" EmptyString.

Definition impl_to_diff : list (string * string) :=
  [("impl_1", "diff_1"); ("impl_2", "diff_2");
   ("impl_3", "diff_3"); ("impl_4", "diff_4")].

(** [impl_to_diff.get(name)]: a list or a dict cannot be hashed. *)
Definition impl_to_diff_get (name : json) : outcome (option string) :=
  match name with
  | JStr s => Ok (dict_get impl_to_diff s)
  | JArr _ | JObj _ => Raise TypeError
  | _ => Ok None
  end.

(** [o.get(k, default)]: only a dict has the method. *)
Definition get_method (o : json) (k : string) (default : json) : outcome json :=
  match o with
  | JObj d => Ok (match dict_get d k with Some v => v | None => default end)
  | _ => Raise AttributeError
  end.

(** [o[k][field] = v]. *)
Definition set_in (o : json) (k : subscript) (field : string) (v : json) : outcome json :=
  inner <- getitem o k ;;
  inner' <- setitem inner field v ;;
  Ok (put_back o k inner').

(** The response returned when the reply cannot be decoded (lines 184-216). *)
Definition fallback_entry (name : string) : json :=
  JObj [("name", JStr name); ("task_success", JInt 0);
        ("instruction_following", JInt 0);
        ("comment", JStr "Error parsing LLM response")].

Definition fallback : json :=
  JObj [("implementations",
         JArr [fallback_entry "impl_1"; fallback_entry "impl_2";
               fallback_entry "impl_3"; fallback_entry "impl_4"]);
        ("evaluation",
         JObj [("best_diff", JInt 0);
               ("preference_rationale", JStr "Error parsing LLM response");
               ("improved_diff", JStr "")])].

(** The text handed to [json.loads] (lines 173-180). *)
Definition json_text (content : string) : string :=
  let first_brace := find "{" content in
  let last_brace := rfind "}" content in
  if negb (first_brace =? -1) && negb (last_brace =? -1)
  then slice content first_brace (last_brace + 1)
  else content.

(** The inner loop of the merge (lines 246-253): the first slot that holds
    [diff_key] receives the three values, and the loop breaks. *)
Fixpoint update_matching (diff_key : string)
    (task_success instruction_following comment : json)
    (impls : list json) : outcome (list json) :=
  match impls with
  | [] => Ok []
  | impl :: rest =>
      found <- contains diff_key impl ;;
      if found : bool then
        impl1 <- setitem impl "task_success" task_success ;;
        impl2 <- setitem impl1 "instruction_following" instruction_following ;;
        impl3 <- setitem impl2 "comment" comment ;;
        Ok (impl3 :: rest)
      else
        rest' <- update_matching diff_key task_success instruction_following
                   comment rest ;;
        Ok (impl :: rest')
  end.

(** The inner loop over [metadata["implementations"]], whatever it is: the
    items of anything but a list are fresh strings. *)
Definition update_slots (diff_key : string)
    (task_success instruction_following comment : json)
    (container : json) : outcome json :=
  match container with
  | JArr impls =>
      impls' <- update_matching diff_key task_success instruction_following
                  comment impls ;;
      Ok (JArr impls')
  | _ =>
      items <- iterate container ;;
      _ <- update_matching diff_key task_success instruction_following
             comment items ;;
      Ok container
  end.

(** One turn of the outer loop (lines 235-253). *)
Definition merge_entry (metadata implementation : json) : outcome json :=
  impl_name <- getitem implementation (SKey "name") ;;
  task_success <- getitem implementation (SKey "task_success") ;;
  instruction_following <- getitem implementation (SKey "instruction_following") ;;
  comment <- getitem implementation (SKey "comment") ;;
  diff_key <- impl_to_diff_get impl_name ;;
  match diff_key with
  | None => Ok metadata
  | Some diff_key =>
      container <- getitem metadata (SKey "implementations") ;;
      container' <- update_slots diff_key task_success instruction_following
                      comment container ;;
      Ok (put_back metadata (SKey "implementations") container')
  end.

(** The outer loop (lines 234-253). *)
Fixpoint merge_implementations (metadata : json) (entries : list json) : outcome json :=
  match entries with
  | [] => Ok metadata
  | implementation :: rest =>
      metadata' <- merge_entry metadata implementation ;;
      merge_implementations metadata' rest
  end.

(** One guarded copy of the evaluation section (lines 257-268). *)
Definition merge_evaluation_key (key : string) (metadata analysis_results : json)
    : outcome json :=
  evaluation <- getitem analysis_results (SKey "evaluation") ;;
  present <- contains key evaluation ;;
  if present : bool then
    value <- getitem evaluation (SKey key) ;;
    set_in metadata (SKey "evaluation") key value
  else Ok metadata.

(** The evaluation section (lines 256-268). *)
Definition merge_evaluation (metadata analysis_results : json) : outcome json :=
  present <- contains "evaluation" analysis_results ;;
  if present : bool then
    metadata1 <- merge_evaluation_key "best_diff" metadata analysis_results ;;
    metadata2 <- merge_evaluation_key "preference_rationale" metadata1 analysis_results ;;
    merge_evaluation_key "improved_diff" metadata2 analysis_results
  else Ok metadata.

(** The merge between reading and writing the file (lines 226-268). *)
Definition merge_results (metadata analysis_results : json) : outcome json :=
  entries <- getitem analysis_results (SKey "implementations") ;;
  entries <- iterate entries ;;
  metadata' <- merge_implementations metadata entries ;;
  merge_evaluation metadata' analysis_results.

(** ** The five steps of the pipeline *)

Section Pipeline.
Context `{Platform}.

(** [subprocess.run(command, shell=True).returncode]. *)
Definition shell (command : string) : M Z := λ w,
  let '(returncode, (fs, ds)) := subprocess_run command (files w, dirs w) in
  (Ok returncode, World fs ds (stdout w) (spawned w ++ [command]) (nonce w)).

(** [str(uuid.uuid4())]. *)
Definition fresh_uuid : M string := λ w,
  (Ok (uuid4 (nonce w)),
   World (files w) (dirs w) (stdout w) (spawned w) (S (nonce w))).

(** [with open(p, "r") as f: json.load(f)]. *)
Definition json_load (p : string) : M json :=
  text <- read_text p ;;
  match json_loads text with
  | Decoded v => ret v
  | Malformed msg => raise (JSONDecodeError msg)
  | TooDeep => raise RecursionError
  | TooLong msg => raise (ValueError msg)
  end.

(** [with open(p, "w") as f: json.dump(v, f, indent=4)]. *)
Definition json_dump (v : json) (p : string) : M unit :=
  write_text p (json_dumps v).

Definition run_command (command : string) : M unit :=
  print ("Executing: " +:+ command) ;;
  returncode <- shell command ;;
  if negb (returncode =? 0) then
    (print ("Error: Command failed with exit code " +:+ pretty returncode) ;;
     sys_exit 1)
  else print "Command completed successfully.".

Definition load_task_data (task_data_path : string) : M json :=
  json_load task_data_path.

Fixpoint load_reports (analysis_dir : string) (indices : list Z)
    (reports : list (string * string)) : M (list (string * string)) :=
  match indices with
  | [] => ret reports
  | i :: rest =>
      let report_path :=
        os_path_join analysis_dir ("impl_" +:+ pretty i +:+ "_report.md") in
      text <- read_text report_path ;;
      load_reports analysis_dir rest (dict_set reports ("impl_" +:+ pretty i) text)
  end.

Definition load_implementation_reports (analysis_dir : string)
    : M (list (string * string)) :=
  load_reports analysis_dir [1; 2; 3; 4] [].

Definition report_of (reports : list (string * string)) (k : string) : outcome string :=
  match dict_get reports k with
  | Some text => Ok text
  | None => Raise (KeyError (SKey k))
  end.

Definition diff_of (implementations : list json) (i : Z) : outcome string :=
  match seq_index implementations i with
  | Some v => Ok (py_format v)
  | None => Raise IndexError
  end.

(** The user message (lines 140-162), its fields read in order. *)
Definition user_prompt (problem_description : json)
    (reports : list (string * string)) (implementations : list json)
    (include_improved_diff : bool) : outcome string :=
  r1 <- report_of reports "impl_1" ;; d1 <- diff_of implementations 0 ;;
  r2 <- report_of reports "impl_2" ;; d2 <- diff_of implementations 1 ;;
  r3 <- report_of reports "impl_3" ;; d3 <- diff_of implementations 2 ;;
  r4 <- report_of reports "impl_4" ;; d4 <- diff_of implementations 3 ;;
  Ok (nl +:+ "    TASK DESCRIPTION:" +:+ nl
      +:+ "    " +:+ py_format problem_description +:+ nl
      +:+ nl
      +:+ "    INCLUDE IMPROVED DIFF: "
      +:+ (if include_improved_diff then "True" else "False") +:+ nl
      +:+ nl
      +:+ "    IMPLEMENTATION DETAILS:" +:+ nl
      +:+ "    Implementation 1:" +:+ nl
      +:+ "    " +:+ r1 +:+ nl
      +:+ "    diff_1: " +:+ d1 +:+ nl
      +:+ nl
      +:+ "    Implementation 2:" +:+ nl
      +:+ "    " +:+ r2 +:+ nl
      +:+ "    diff_2: " +:+ d2 +:+ nl
      +:+ nl
      +:+ "    Implementation 3:" +:+ nl
      +:+ "    " +:+ r3 +:+ nl
      +:+ "    diff_3: " +:+ d3 +:+ nl
      +:+ nl
      +:+ "    Implementation 4:" +:+ nl
      +:+ "    " +:+ r4 +:+ nl
      +:+ "    diff_4: " +:+ d4 +:+ nl
      +:+ "    ").

(** The end of the [try] block: the decoded value is returned, and a
    [JSONDecodeError] is handled by lines 181-216; the handler names no
    other exception, so any other leaves the function. *)
Definition on_decode (content : string) (attempt : decoded) : M json :=
  match attempt with
  | Decoded v => ret v
  | Malformed e =>
      print ("Error decoding JSON: " +:+ e) ;;
      print ("Raw response content: " +:+ content) ;;
      ret fallback
  | TooDeep => raise RecursionError
  | TooLong msg => raise (ValueError msg)
  end.

(** The [try] block (lines 172-180) under its handler. *)
Definition parse_reply (content : string) : M json :=
  let first_brace := find "{" content in
  let last_brace := rfind "}" content in
  on_decode content
    (if negb (first_brace =? -1) && negb (last_brace =? -1)
     then json_loads (slice content first_brace (last_brace + 1))
     else json_loads content).

Definition analyze_implementations (problem_description : json)
    (reports : list (string * string)) (implementations : list json)
    (include_improved_diff : bool) : M json :=
  prompt <- lift (user_prompt problem_description reports implementations
                    include_improved_diff) ;;
  let messages := [SystemMessage system_message; HumanMessage prompt] in
  content <- lift (llm_invoke messages) ;;
  parse_reply content.

Definition update_metadata (task_folder : string) (analysis_results : json) : M unit :=
  let metadata_path := os_path_join task_folder "metadata.json" in
  metadata <- json_load metadata_path ;;
  metadata' <- lift (merge_results metadata analysis_results) ;;
  json_dump metadata' metadata_path.

(** [metadata["implementations"][i][key] = v]. *)
Definition set_slot_diff (metadata : json) (i : Z) (key : string) (v : json)
    : outcome json :=
  impls <- getitem metadata (SKey "implementations") ;;
  impls' <- set_in impls (SIdx i) key v ;;
  Ok (put_back metadata (SKey "implementations") impls').

(** The field updates of the bootstrapper (lines 310-322). *)
Definition populate (metadata task_data : json) (task_id : string) : outcome json :=
  m <- setitem metadata "task_id" (JStr task_id) ;;
  v <- get_method task_data "jira_id" (JStr "") ;;
  m <- setitem m "jira" v ;;
  v <- get_method task_data "repo_name" (JStr "") ;;
  m <- set_in m (SKey "task_details") "repo_name" v ;;
  v <- get_method task_data "before_sha" (JStr "") ;;
  m <- set_in m (SKey "task_details") "before_sha" v ;;
  v <- get_method task_data "after_sha" (JStr "") ;;
  m <- set_in m (SKey "task_details") "after_sha" v ;;
  v <- get_method task_data "pr_description" (JStr "") ;;
  m <- set_in m (SKey "task_details") "pr_description" v ;;
  v <- get_method task_data "reference_implementation_diff" (JStr "") ;;
  m <- set_in m (SKey "task_details") "reference_implementation_diff" v ;;
  v <- get_method task_data "diff_1" (JStr "") ;;
  m <- set_slot_diff m 0 "diff_1" v ;;
  v <- get_method task_data "diff_2" (JStr "") ;;
  m <- set_slot_diff m 1 "diff_2" v ;;
  v <- get_method task_data "diff_3" (JStr "") ;;
  m <- set_slot_diff m 2 "diff_3" v ;;
  v <- get_method task_data "diff_4" (JStr "") ;;
  set_slot_diff m 3 "diff_4" v.

(** [os.path.join("tasks", jira_id)]: the component must be a [str]. *)
Definition task_folder_of (jira_id : json) : outcome string :=
  match jira_id with
  | JStr s => Ok (os_path_join "tasks" s)
  | _ => Raise TypeError
  end.

Definition create_task_folder_and_metadata (task_data_path : string) : M string :=
  found <- os_path_exists task_data_path ;;
  (if negb found then
     (print ("Error: " +:+ task_data_path +:+ " not found.") ;; sys_exit 1)
   else ret tt) ;;
  task_data <- json_load task_data_path ;;
  jira_id <- lift (get_method task_data "jira_id" JNull) ;;
  (if negb (truthy jira_id) then
     (print "Error: jira_id not found in task_data.json" ;; sys_exit 1)
   else ret tt) ;;
  task_folder <- lift (task_folder_of jira_id) ;;
  os_makedirs task_folder ;;
  print ("Created folder: " +:+ task_folder) ;;
  shutil_copyfile "tasks/metadata_base.json" (os_path_join task_folder "metadata.json") ;;
  print ("Copied metadata_base.json to " +:+ task_folder) ;;
  let metadata_path := os_path_join task_folder "metadata.json" in
  metadata <- json_load metadata_path ;;
  task_id <- fresh_uuid ;;
  metadata' <- lift (populate metadata task_data task_id) ;;
  json_dump metadata' metadata_path ;;
  print ("Updated metadata.json in " +:+ task_folder +:+ " with task_id: " +:+ task_id) ;;
  ret task_folder.

Definition commands : list string :=
  ["python automation_tool/code_implementation_analysis.py automation_tool/task_data.json";
   "python automation_tool/compare_implementations.py --dir code-evaluation report impl_1 --output code-evaluation/analysis/impl_1_report.md";
   "python automation_tool/compare_implementations.py --dir code-evaluation report impl_2 --output code-evaluation/analysis/impl_2_report.md";
   "python automation_tool/compare_implementations.py --dir code-evaluation report impl_3 --output code-evaluation/analysis/impl_3_report.md";
   "python automation_tool/compare_implementations.py --dir code-evaluation report impl_4 --output code-evaluation/analysis/impl_4_report.md";
   "python automation_tool/compare_implementations.py --dir code-evaluation matrix --output code-evaluation/analysis/matrix.md"].

(** Steps 2 to 4 of [main] (lines 358-377). *)
Definition evaluate_task (task_data_path analysis_dir : string)
    (include_improved_diff : bool) : M unit :=
  task_folder <- create_task_folder_and_metadata task_data_path ;;
  task_data <- load_task_data task_data_path ;;
  problem_description <- lift (getitem task_data (SKey "pr_description")) ;;
  d1 <- lift (getitem task_data (SKey "diff_1")) ;;
  d2 <- lift (getitem task_data (SKey "diff_2")) ;;
  d3 <- lift (getitem task_data (SKey "diff_3")) ;;
  d4 <- lift (getitem task_data (SKey "diff_4")) ;;
  let implementations := [d1; d2; d3; d4] in
  reports <- load_implementation_reports analysis_dir ;;
  print "Analysis reports in progress!" ;;
  analysis_results <- analyze_implementations problem_description reports
                        implementations include_improved_diff ;;
  update_metadata task_folder analysis_results ;;
  print "Metadata updated successfully!".

(** The names bound at module level when [main] runs: the imports of
    lines 1-8 and the functions of lines 11-332.  No builtin is called
    [api_key] either. *)
Definition module_names : list string :=
  ["os"; "json"; "subprocess"; "shutil"; "sys"; "uuid"; "ChatOpenAI";
   "SystemMessage"; "HumanMessage"; "run_command"; "load_task_data";
   "load_implementation_reports"; "analyze_implementations"; "update_metadata";
   "create_task_folder_and_metadata"; "main"].

(** A name that is no local variable is read from the module. *)
Definition load_name (name : string) : M unit :=
  if existsb (String.eqb name) module_names then ret tt
  else raise (NameError name).

(** Steps 1 to 4 of [main] (lines 353-377), over the local variables they
    read: the command loop, then steps 2 to 4. *)
Definition run_steps (excecute_commands : bool) (commands : list string)
    (task_data_path analysis_dir : string) (include_improved_diff : bool) : M unit :=
  (if excecute_commands then for_each commands run_command else ret tt) ;;
  evaluate_task task_data_path analysis_dir include_improved_diff.

(** [main]: lines 334-337 set the local variables, line 340 reads
    [api_key], line 341 builds the client whose [invoke] is the platform's
    [llm_invoke], lines 344-351 list the commands, lines 353-377 are steps
    1 to 4. *)
Definition main : M unit :=
  let excecute_commands := true in
  let task_data_path := os_path_join "automation_tool" "task_data.json" in
  let analysis_dir := os_path_join "code-evaluation" "analysis" in
  let include_improved_diff := false in
  load_name "api_key" ;;
  lift chat_openai ;;
  run_steps excecute_commands commands task_data_path analysis_dir
    include_improved_diff.

End Pipeline.

(** ** The parser and the merge, in the words of the specification *)

(** The text decoded from a reply: the span from the first opening brace to
    the last closing brace, or the whole reply when it has no braces. *)
Inductive brace_span : string → string → Prop :=
| span_braces (pre m post : string) :
    has_char "{" pre = false → has_char "}" post = false →
    brace_span (pre +:+ "{" +:+ m +:+ "}" +:+ post) ("{" +:+ m +:+ "}")
| span_plain (s : string) :
    has_char "{" s = false → has_char "}" s = false →
    brace_span s s.

Definition score_keys : list string :=
  ["task_success"; "instruction_following"; "comment"].

Definition summary_keys : list string :=
  ["best_diff"; "preference_rationale"; "improved_diff"].

Definition diff_keys : list string := ["diff_1"; "diff_2"; "diff_3"; "diff_4"].

(** [o'] is [o] up to the fields [keys]: two dicts that agree on every
    other key, or the same value. *)
Definition agree_outside (keys : list string) (o o' : json) : Prop :=
  match o, o' with
  | JObj d, JObj d' => ∀ k, ¬ In k keys → dict_get d' k = dict_get d k
  | _, _ => o' = o
  end.

(** The implementations array up to the score fields of its slots. *)
Definition slots_frame (c c' : json) : Prop :=
  match c, c' with
  | JArr l, JArr l' => Forall2 (agree_outside score_keys) l l'
  | _, _ => c' = c
  end.

Definition field_frame (k : string) (v v' : json) : Prop :=
  if String.eqb k "implementations" then slots_frame v v'
  else if String.eqb k "evaluation" then agree_outside summary_keys v v'
  else v' = v.

(** The metadata record up to the score fields of its slots and the summary
    fields of its evaluation section: no top-level field appears or
    disappears, and every other field keeps its value. *)
Definition metadata_frame (m m' : json) : Prop :=
  match m, m' with
  | JObj d, JObj d' =>
      ∀ k, match dict_get d k, dict_get d' k with
           | Some v, Some v' => field_frame k v v'
           | None, None => True
           | _, _ => False
           end
  | _, _ => m' = m
  end.

(** [o[k]] when [o] is a dict that has the key. *)
Definition field (o : json) (k : string) : option json :=
  match o with
  | JObj d => dict_get d k
  | _ => None
  end.

(** [o["evaluation"][key]] when both are dicts that have the keys. *)
Definition summary_field (o : json) (key : string) : option json :=
  match field o "evaluation" with
  | Some evaluation => field evaluation key
  | None => None
  end.

Definition is_object (v : json) : Prop :=
  match v with
  | JObj _ => True
  | _ => False
  end.

Definition has_key (k : string) (slot : json) : bool :=
  match slot with
  | JObj d => dict_has d k
  | _ => false
  end.

(** The diff key an entry is meant for: its name, through [impl_to_diff]. *)
Definition entry_diff_key (entry : json) : option string :=
  match field entry "name" with
  | Some (JStr name) => dict_get impl_to_diff name
  | _ => None
  end.

(** A score entry with its name and its three values; the name can be
    looked up in [impl_to_diff]. *)
Definition complete (entry : json) : Prop :=
  match field entry "name" with
  | Some (JArr _) | Some (JObj _) | None => False
  | Some _ =>
      is_Some (field entry "task_success")
      ∧ is_Some (field entry "instruction_following")
      ∧ is_Some (field entry "comment")
  end.

Definition matches (entry slot : json) : bool :=
  match entry_diff_key entry with
  | Some k => has_key k slot
  | None => false
  end.

(** [slot] with its two scores and its comment overwritten. *)
Definition set_scores (task_success instruction_following comment slot : json) : json :=
  match slot with
  | JObj d =>
      JObj (dict_set
              (dict_set (dict_set d "task_success" task_success)
                 "instruction_following" instruction_following)
              "comment" comment)
  | _ => slot
  end.

(** [slot] with the two scores and the comment of [entry]. *)
Definition with_scores (entry slot : json) : json :=
  match field entry "task_success", field entry "instruction_following",
        field entry "comment" with
  | Some task_success, Some instruction_following, Some comment =>
      set_scores task_success instruction_following comment slot
  | _, _, _ => slot
  end.

(** [slot] after [entry] has been merged alone. *)
Definition apply_entry (entry slot : json) : json :=
  if matches entry slot then with_scores entry slot else slot.

(** The diff keys a slot holds. *)
Definition held (slot : json) : list string :=
  filter (λ k, has_key k slot) diff_keys.

(** Slots keyed by the diff keys, in any order: each slot is a dict that
    holds at most one diff key, and no diff key is held twice. *)
Definition keyed (slots : list json) : Prop :=
  Forall is_object slots
  ∧ Forall (λ slot, (length (held slot) ≤ 1)%nat) slots
  ∧ NoDup (mjoin (held <$> slots)).

(** What the merge is to make of a slot: the scores of the entry whose name
    maps to the diff key the slot holds, if there is one. *)
Definition place (entries : list json) (slot : json) : json :=
  match List.find (λ entry, matches entry slot) entries with
  | Some entry => with_scores entry slot
  | None => slot
  end.

(** ** A reference platform

    A concrete codec, shell, random source and model, on which the pipeline
    runs by computation.  The decoder reads JSON documents whose numbers are
    integers and whose string escapes stand for one character, and gives up
    on a text that nests deeper than [depth_limit]; the shell fails exactly
    on the listed commands and the model answers with a fixed reply, or
    fails with a fixed exception. *)

Module Reference.

Definition quote : ascii := "034".
Definition backslash : ascii := "092".

Definition is_space (c : ascii) : bool :=
  Ascii.eqb c " " || Ascii.eqb c "009" || Ascii.eqb c "010" || Ascii.eqb c "013".

Fixpoint skip_ws (s : string) : string :=
  match s with
  | String c rest => if is_space c then skip_ws rest else s
  | EmptyString => s
  end.

Fixpoint strip_prefix (p s : string) : option string :=
  match p, s with
  | EmptyString, _ => Some s
  | String a p', String b s' => if Ascii.eqb a b then strip_prefix p' s' else None
  | String _ _, EmptyString => None
  end.

Definition unescape (c : ascii) : option ascii :=
  if Ascii.eqb c quote then Some quote
  else if Ascii.eqb c backslash then Some backslash
  else if Ascii.eqb c "/" then Some "/"%char
  else if Ascii.eqb c "b" then Some "008"%char
  else if Ascii.eqb c "f" then Some "012"%char
  else if Ascii.eqb c "n" then Some "010"%char
  else if Ascii.eqb c "r" then Some "013"%char
  else if Ascii.eqb c "t" then Some "009"%char
  else None.

(** The characters of a string literal, after its opening quote. *)
Fixpoint parse_string (s : string) : option (string * string) :=
  match s with
  | EmptyString => None
  | String c rest =>
      if Ascii.eqb c quote then Some (EmptyString, rest)
      else if Ascii.eqb c backslash then
        match rest with
        | String e rest' =>
            match unescape e, parse_string rest' with
            | Some ch, Some (t, r) => Some (String ch t, r)
            | _, _ => None
            end
        | EmptyString => None
        end
      else if (nat_of_ascii c <? 32)%nat then None
      else
        match parse_string rest with
        | Some (t, r) => Some (String c t, r)
        | None => None
        end
  end.

Definition digit_of (c : ascii) : option Z :=
  let n := nat_of_ascii c in
  if (48 <=? n)%nat && (n <=? 57)%nat then Some (Z.of_nat n - 48) else None.

Fixpoint parse_digits (s : string) (acc : Z) : Z * string :=
  match s with
  | String c rest =>
      match digit_of c with
      | Some d => parse_digits rest (10 * acc + d)
      | None => (acc, s)
      end
  | EmptyString => (acc, s)
  end.

(** An unsigned integer; a leading zero stands alone. *)
Definition parse_natural (s : string) : option (Z * string) :=
  match s with
  | String c rest =>
      match digit_of c with
      | Some 0 => Some (0, rest)
      | Some d => Some (parse_digits rest d)
      | None => None
      end
  | EmptyString => None
  end.

Definition integral (r : Z * string) : option (json * string) :=
  match r.2 with
  | String c _ =>
      if Ascii.eqb c "." || Ascii.eqb c "e" || Ascii.eqb c "E" then None
      else Some (JInt r.1, r.2)
  | EmptyString => Some (JInt r.1, r.2)
  end.

Definition parse_number (s : string) : option (json * string) :=
  match s with
  | String c rest =>
      if Ascii.eqb c "-" then
        match parse_natural rest with
        | Some (n, r) => integral (- n, r)
        | None => None
        end
      else
        match parse_natural s with
        | Some r => integral r
        | None => None
        end
  | EmptyString => None
  end.

Definition parse_scalar (s : string) : option (json * string) :=
  match strip_prefix "true" s, strip_prefix "false" s, strip_prefix "null" s with
  | Some r, _, _ => Some (JBool true, r)
  | _, Some r, _ => Some (JBool false, r)
  | _, _, Some r => Some (JNull, r)
  | _, _, _ => parse_number s
  end.

Fixpoint parse_value (fuel : nat) (s : string) {struct fuel} : option (json * string) :=
  match fuel with
  | O => None
  | S fuel' =>
      match skip_ws s with
      | EmptyString => None
      | String c rest =>
          if Ascii.eqb c "{" then
            match skip_ws rest with
            | String c' r =>
                if Ascii.eqb c' "}" then Some (JObj [], r)
                else parse_members fuel' [] rest
            | EmptyString => None
            end
          else if Ascii.eqb c "[" then
            match skip_ws rest with
            | String c' r =>
                if Ascii.eqb c' "]" then Some (JArr [], r)
                else parse_elements fuel' [] rest
            | EmptyString => None
            end
          else if Ascii.eqb c quote then
            match parse_string rest with
            | Some (t, r) => Some (JStr t, r)
            | None => None
            end
          else parse_scalar (String c rest)
      end
  end
with parse_elements (fuel : nat) (acc : list json) (s : string) {struct fuel}
    : option (json * string) :=
  match fuel with
  | O => None
  | S fuel' =>
      match parse_value fuel' s with
      | Some (v, r) =>
          match skip_ws r with
          | String c r' =>
              if Ascii.eqb c "," then parse_elements fuel' (acc ++ [v]) r'
              else if Ascii.eqb c "]" then Some (JArr (acc ++ [v]), r')
              else None
          | EmptyString => None
          end
      | None => None
      end
  end
with parse_members (fuel : nat) (acc : dict) (s : string) {struct fuel}
    : option (json * string) :=
  match fuel with
  | O => None
  | S fuel' =>
      match skip_ws s with
      | String q r0 =>
          if Ascii.eqb q quote then
            match parse_string r0 with
            | Some (k, r1) =>
                match skip_ws r1 with
                | String c r2 =>
                    if Ascii.eqb c ":" then
                      match parse_value fuel' r2 with
                      | Some (v, r3) =>
                          match skip_ws r3 with
                          | String c' r4 =>
                              if Ascii.eqb c' "," then
                                parse_members fuel' (dict_set acc k v) r4
                              else if Ascii.eqb c' "}" then
                                Some (JObj (dict_set acc k v), r4)
                              else None
                          | EmptyString => None
                          end
                      | None => None
                      end
                    else None
                | EmptyString => None
                end
            | None => None
            end
          else None
      | EmptyString => None
      end
  end.

Definition depth_limit : nat := 1000.

(** The deepest nesting of brackets the text opens, outside string
    literals. *)
Fixpoint nesting (s : string) (in_string escaped : bool) (depth deepest : nat) : nat :=
  match s with
  | EmptyString => deepest
  | String c rest =>
      if in_string then
        if escaped then nesting rest true false depth deepest
        else if Ascii.eqb c backslash then nesting rest true true depth deepest
        else if Ascii.eqb c quote then nesting rest false false depth deepest
        else nesting rest true false depth deepest
      else if Ascii.eqb c quote then nesting rest true false depth deepest
      else if Ascii.eqb c "{" || Ascii.eqb c "[" then
        nesting rest false false (S depth) (Nat.max (S depth) deepest)
      else if Ascii.eqb c "}" || Ascii.eqb c "]" then
        nesting rest false false (Nat.pred depth) deepest
      else nesting rest false false depth deepest
  end.

Definition loads (s : string) : decoded :=
  if (depth_limit <? nesting s false false 0 0)%nat then TooDeep
  else
    match parse_value (2 * String.length s + 2) s with
    | Some (v, r) =>
        match skip_ws r with
        | EmptyString => Decoded v
        | String _ _ => Malformed "Extra data"
        end
    | None => Malformed "Expecting value"
    end.

(** The letter that stands for a character after a backslash. *)
Definition escape_letter (c : ascii) : option ascii :=
  if Ascii.eqb c quote then Some quote
  else if Ascii.eqb c backslash then Some backslash
  else if Ascii.eqb c "008" then Some "b"%char
  else if Ascii.eqb c "012" then Some "f"%char
  else if Ascii.eqb c "010" then Some "n"%char
  else if Ascii.eqb c "013" then Some "r"%char
  else if Ascii.eqb c "009" then Some "t"%char
  else None.

Fixpoint escape (s : string) : string :=
  match s with
  | EmptyString => EmptyString
  | String c rest =>
      match escape_letter c with
      | Some letter => String backslash (String letter (escape rest))
      | None => String c (escape rest)
      end
  end.

Definition quoted (s : string) : string :=
  String quote (escape s) +:+ String quote EmptyString.

Definition join (sep : string) (parts : list string) : string :=
  match parts with
  | [] => ""
  | p :: ps => fold_left (λ acc x, acc +:+ sep +:+ x) ps p
  end.

Definition float_text (x : spec_float) : string :=
  match x with
  | S754_zero s => if s then "-0.0" else "0.0"
  | S754_infinity s => if s then "-Infinity" else "Infinity"
  | S754_nan => "NaN"
  | S754_finite s m e =>
      (if s then "-" else "") +:+ pretty (Z.pos m) +:+ "p" +:+ pretty e
  end.

Fixpoint dumps (v : json) : string :=
  match v with
  | JNull => "null"
  | JBool b => if b then "true" else "false"
  | JInt n => pretty n
  | JFloat x => float_text x
  | JStr s => quoted s
  | JArr items => "[" +:+ join ", " (map dumps items) +:+ "]"
  | JObj fields =>
      "{" +:+ join ", " (map (λ kv, quoted kv.1 +:+ ": " +:+ dumps kv.2) fields) +:+ "}"
  end.

Definition format (v : json) : string :=
  match v with
  | JStr s => s
  | _ => dumps v
  end.

Definition run (failing : list string) (command : string)
    (fs : gmap string string * gset string)
    : Z * (gmap string string * gset string) :=
  (if existsb (String.eqb command) failing then 2 else 0, fs).

Definition host (failing : list string) (reply : outcome string) : Platform := {|
  json_loads := loads;
  json_dumps := dumps;
  py_format := format;
  subprocess_run := run failing;
  uuid4 := λ n, "task-" +:+ pretty (Z.of_nat n);
  chat_openai := Ok tt;
  llm_invoke := λ _, reply;
  system_message := "You are a software engineer."
|}.

(** The platform whose model answers with [reply]. *)
Definition platform (failing : list string) (reply : string) : Platform :=
  host failing (Ok reply).

End Reference.


(** ** Sample data *)

Module Sample.

Definition q : string → string := Reference.quoted.

Definition start : world := World ∅ ∅ [] [] 0.

Definition reports : list (string * string) :=
  [("impl_1", "report 1"); ("impl_2", "report 2");
   ("impl_3", "report 3"); ("impl_4", "report 4")].

Definition implementations : list json :=
  [JStr "diff 1"; JStr "diff 2"; JStr "diff 3"; JStr "diff 4"].

Definition prose_reply : string :=
  "Here is the result: {" +:+ q "implementations" +:+ ": [], "
  +:+ q "evaluation" +:+ ": {}} Thanks.".

Definition refusal : string := "I cannot comply.".

Definition crossed_reply : string := q "} see {".

End Sample.

Module SampleReplies.

Definition embedded_body : string :=
  Sample.q "implementations" +:+ ": [], " +:+ Sample.q "evaluation" +:+ ": {}".

Definition embedded_value : json :=
  JObj [("implementations", JArr []); ("evaluation", JObj [])].

Definition user_message : string :=
  match user_prompt (H := Reference.platform [] "") (JStr "Fix the retry loop")
          Sample.reports Sample.implementations false with
  | Ok prompt => prompt
  | Raise _ => ""
  end.

End SampleReplies.

Module SampleRun.

Definition failing_command : string :=
  "python automation_tool/compare_implementations.py --dir code-evaluation report impl_3 --output code-evaluation/analysis/impl_3_report.md".

Definition host : Platform := Reference.platform [failing_command] "".

(** The state after the first three commands have succeeded. *)
Definition after_three : world :=
  (for_each (take 3 commands) (run_command (H := host)) Sample.start).2.

End SampleRun.

Module SampleTask.

Definition slot (key : string) : json :=
  JObj [(key, JStr ""); ("task_success", JInt 0);
        ("instruction_following", JInt 0); ("comment", JStr "")].

(** A metadata template: four slots keyed by their diff, empty evaluation. *)
Definition template : json :=
  JObj [("task_id", JStr ""); ("jira", JStr "");
        ("task_details",
         JObj [("repo_name", JStr ""); ("before_sha", JStr "");
               ("after_sha", JStr ""); ("pr_description", JStr "");
               ("reference_implementation_diff", JStr "")]);
        ("implementations",
         JArr [slot "diff_1"; slot "diff_2"; slot "diff_3"; slot "diff_4"]);
        ("evaluation",
         JObj [("best_diff", JInt 0); ("preference_rationale", JStr "");
               ("improved_diff", JStr "")])].

Definition task_fields : dict :=
  [("jira_id", JStr "PROJ-7"); ("repo_name", JStr "acme/api");
   ("before_sha", JStr "1f0c"); ("after_sha", JStr "9ab2");
   ("pr_description", JStr "Fix the retry loop");
   ("diff_1", JStr "diff 1"); ("diff_2", JStr "diff 2");
   ("diff_3", JStr "diff 3"); ("diff_4", JStr "diff 4")].

Definition task_data_path : string := "automation_tool/task_data.json".
Definition task_folder : string := "tasks/PROJ-7".
Definition metadata_path : string := "tasks/PROJ-7/metadata.json".

Definition scored_slot (key diff : string) (a b : Z) (note : string) : json :=
  JObj [(key, JStr diff); ("task_success", JInt a);
        ("instruction_following", JInt b); ("comment", JStr note)].

(** A metadata record of the sample task. *)
Definition record (task_id : string) (slots : list json) (evaluation : json) : json :=
  JObj [("task_id", JStr task_id); ("jira", JStr "PROJ-7");
        ("task_details",
         JObj [("repo_name", JStr "acme/api"); ("before_sha", JStr "1f0c");
               ("after_sha", JStr "9ab2");
               ("pr_description", JStr "Fix the retry loop");
               ("reference_implementation_diff", JStr "")]);
        ("implementations", JArr slots);
        ("evaluation", evaluation)].

Definition summary (best_diff : Z) (rationale : string) : json :=
  JObj [("best_diff", JInt best_diff); ("preference_rationale", JStr rationale);
        ("improved_diff", JStr "")].

(** The metadata a previous run left behind, scores and all. *)
Definition evaluated : json :=
  record "task-0"
    [scored_slot "diff_1" "diff 1" 4 5 "clean";
     scored_slot "diff_2" "diff 2" 2 3 "partial";
     scored_slot "diff_3" "diff 3" 5 5 "best";
     scored_slot "diff_4" "diff 4" 1 2 "broken"]
    (summary 3 "third wins").

(** A state in which the task was already bootstrapped and evaluated. *)
Definition rerun : world :=
  World (<[task_data_path := Reference.dumps (JObj task_fields)]>
           (<["tasks/metadata_base.json" := Reference.dumps template]>
              (<[metadata_path := Reference.dumps evaluated]> ∅)))
        {[ "tasks"; task_folder ]} [] [] 1.

(** The metadata of a task freshly seeded from the template. *)
Definition seeded (task_id : string) : json :=
  record task_id
    [scored_slot "diff_1" "diff 1" 0 0 "";
     scored_slot "diff_2" "diff 2" 0 0 "";
     scored_slot "diff_3" "diff 3" 0 0 "";
     scored_slot "diff_4" "diff 4" 0 0 ""]
    (summary 0 "").

(** A task-definition record whose ticket identifier is the empty string. *)
Definition unnamed_fields : dict :=
  [("jira_id", JStr ""); ("repo_name", JStr "acme/api")].

Definition unnamed : world :=
  World (<[task_data_path := Reference.dumps (JObj unnamed_fields)]> ∅)
        ∅ [] [] 0.

End SampleTask.

Module SampleMerge.

Definition entry (name : string) (a b : Z) (note : string) : json :=
  JObj [("name", JStr name); ("task_success", JInt a);
        ("instruction_following", JInt b); ("comment", JStr note)].

(** A full evaluation result. *)
Definition results : json :=
  JObj [("implementations",
         JArr [entry "impl_1" 4 5 "clean"; entry "impl_2" 2 3 "partial";
               entry "impl_3" 5 5 "best"; entry "impl_4" 1 2 "broken"]);
        ("evaluation",
         JObj [("best_diff", JInt 3); ("preference_rationale", JStr "third wins");
               ("improved_diff", JStr "")])].

(** An evaluation result whose summary has the best diff only. *)
Definition partial_results : json :=
  JObj [("implementations", JArr []);
        ("evaluation", JObj [("best_diff", JInt 2)])].

(** The seeded metadata with the best diff chosen and nothing else. *)
Definition chosen_second : json :=
  SampleTask.record "task-0"
    [SampleTask.scored_slot "diff_1" "diff 1" 0 0 "";
     SampleTask.scored_slot "diff_2" "diff 2" 0 0 "";
     SampleTask.scored_slot "diff_3" "diff 3" 0 0 "";
     SampleTask.scored_slot "diff_4" "diff 4" 0 0 ""]
    (SampleTask.summary 2 "").

(** An entry for the third implementation that has no comment. *)
Definition incomplete_entry : dict :=
  [("name", JStr "impl_3"); ("task_success", JInt 5);
   ("instruction_following", JInt 5)].

(** An evaluation result whose third entry has no comment. *)
Definition incomplete_fields : dict :=
  [("implementations",
    JArr ([entry "impl_1" 4 5 "clean"; entry "impl_2" 2 3 "partial"]
          ++ JObj incomplete_entry :: [entry "impl_4" 1 2 "broken"]));
   ("evaluation", JObj [])].

(** The seeded metadata after the first two entries of a result. *)
Definition half_scored : json :=
  SampleTask.record "task-0"
    [SampleTask.scored_slot "diff_1" "diff 1" 4 5 "clean";
     SampleTask.scored_slot "diff_2" "diff 2" 2 3 "partial";
     SampleTask.scored_slot "diff_3" "diff 3" 0 0 "";
     SampleTask.scored_slot "diff_4" "diff 4" 0 0 ""]
    (SampleTask.summary 0 "").

(** The state after the bootstrapper has seeded the task. *)
Definition bootstrapped : world :=
  World (<[SampleTask.metadata_path := Reference.dumps (SampleTask.seeded "task-0")]> ∅)
        {[ "tasks"; SampleTask.task_folder ]} [] [] 1.

(** The template slots in another order. *)
Definition shuffled : list json :=
  [SampleTask.slot "diff_3"; SampleTask.slot "diff_1";
   SampleTask.slot "diff_4"; SampleTask.slot "diff_2"].

End SampleMerge.

Module SampleSlots.

(** A metadata record whose slots stand in another order than the entries. *)
Definition metadata : dict :=
  [("task_id", JStr "task-0");
   ("implementations", JArr SampleMerge.shuffled);
   ("evaluation",
    JObj [("best_diff", JInt 0); ("preference_rationale", JStr "");
          ("improved_diff", JStr "")])].

Definition entries : list json :=
  [SampleMerge.entry "impl_1" 4 5 "clean"; SampleMerge.entry "impl_2" 2 3 "partial";
   SampleMerge.entry "impl_3" 5 5 "best"; SampleMerge.entry "impl_4" 1 2 "broken"].

Definition scored : list json :=
  [SampleTask.scored_slot "diff_3" "" 5 5 "best";
   SampleTask.scored_slot "diff_1" "" 4 5 "clean";
   SampleTask.scored_slot "diff_4" "" 1 2 "broken";
   SampleTask.scored_slot "diff_2" "" 2 3 "partial"].

End SampleSlots.

(** ** Observations used by the further properties *)

(** [o[k1][k2]] when both are dicts that have the keys. *)
Definition subfield (o : json) (k1 k2 : string) : option json :=
  match field o k1 with
  | Some inner => field inner k2
  | None => None
  end.

(** [o["implementations"][i][k]] for a list of dict slots. *)
Definition slot_field (o : json) (i : nat) (k : string) : option json :=
  match field o "implementations" with
  | Some (JArr slots) =>
      match slots !! i with
      | Some slot => field slot k
      | None => None
      end
  | _ => None
  end.

(** [task_data.get(k, "")] on the fields of the task-definition record. *)
Definition or_empty (task_data : dict) (k : string) : json :=
  match dict_get task_data k with
  | Some v => v
  | None => JStr ""
  end.

Definition detail_keys : list string :=
  ["repo_name"; "before_sha"; "after_sha"; "pr_description";
   "reference_implementation_diff"].

(** The path of the report of implementation [i] (line 31). *)
Definition report_path (analysis_dir : string) (i : Z) : string :=
  os_path_join analysis_dir ("impl_" +:+ pretty i +:+ "_report.md").

(** The files of [w'] are those of [w] except at the paths in [P]. *)
Definition files_outside (P : string → Prop) (w w' : world) : Prop :=
  ∀ p, ¬ P p → files w' !! p = files w !! p.


Module SampleReports.

Definition analysis_dir : string := "code-evaluation/analysis".

(** A state with the four reports. *)
Definition reported : world :=
  World (<["code-evaluation/analysis/impl_1_report.md" := "report 1"]>
           (<["code-evaluation/analysis/impl_2_report.md" := "report 2"]>
              (<["code-evaluation/analysis/impl_3_report.md" := "report 3"]>
                 (<["code-evaluation/analysis/impl_4_report.md" := "report 4"]> ∅))))
        {[ "code-evaluation"; "code-evaluation/analysis" ]} [] [] 0.


(** A reply with an opening brace and no closing one; it is a JSON string. *)
Definition one_sided_reply : string := Sample.q "{ pending".

End SampleReports.

Module SampleFirstRun.

(** The state before the task was ever bootstrapped. *)
Definition fresh : world :=
  World (<[SampleTask.task_data_path := Reference.dumps (JObj SampleTask.task_fields)]>
           (<["tasks/metadata_base.json" := Reference.dumps SampleTask.template]> ∅))
        {[ "tasks" ]} [] [] 0.

(** A template that has no [task_details] section. *)
Definition bare_template : json :=
  JObj [("task_id", JStr ""); ("jira", JStr "");
        ("implementations", JArr []);
        ("evaluation", SampleTask.summary 0 "")].

Definition bare : world :=
  World (<[SampleTask.task_data_path := Reference.dumps (JObj SampleTask.task_fields)]>
           (<["tasks/metadata_base.json" := Reference.dumps bare_template]> ∅))
        {[ "tasks" ]} [] [] 0.

(** A task-definition record whose ticket identifier is a number. *)
Definition numbered_fields : dict :=
  [("jira_id", JInt 7); ("repo_name", JStr "acme/api")].

Definition numbered : world :=
  World (<[SampleTask.task_data_path := Reference.dumps (JObj numbered_fields)]> ∅)
        {[ "tasks" ]} [] [] 0.

(** A task-definition record whose ticket identifier names a path under
    the template file. *)
Definition nested_fields : dict :=
  [("jira_id", JStr "metadata_base.json/x"); ("repo_name", JStr "acme/api")].

Definition nested : world :=
  World (<[SampleTask.task_data_path := Reference.dumps (JObj nested_fields)]>
           (<["tasks/metadata_base.json" := Reference.dumps SampleTask.template]> ∅))
        {[ "tasks" ]} [] [] 0.

(** A task-definition record whose ticket identifier is the name of the
    template file. *)
Definition shadowed_fields : dict :=
  [("jira_id", JStr "metadata_base.json"); ("repo_name", JStr "acme/api")].

Definition shadowed : world :=
  World (<[SampleTask.task_data_path := Reference.dumps (JObj shadowed_fields)]>
           (<["tasks/metadata_base.json" := Reference.dumps SampleTask.template]> ∅))
        {[ "tasks" ]} [] [] 0.

End SampleFirstRun.

(** The record has a list of implementations whose entry [i] is a dict. *)
Definition has_dict_slot (metadata : json) (i : nat) : Prop :=
  ∃ slots slot,
    field metadata "implementations" = Some (JArr slots)
    ∧ slots !! i = Some (JObj slot).

Definition has_details (metadata : json) : Prop :=
  ∃ details, field metadata "task_details" = Some (JObj details).

(** A metadata record the bootstrapper can fill in: a dict with a
    [task_details] dict and an [implementations] list that starts with
    four dicts. *)
Definition fillable (metadata : json) : Prop :=
  has_details metadata ∧ ∀ i, (i < 4)%nat → has_dict_slot metadata i.

Module SampleFirstMatch.

(** Two slots that both hold [diff_1]. *)
Definition twin_slots : list json :=
  [SampleTask.slot "diff_2"; SampleTask.slot "diff_1"; SampleTask.slot "diff_1"].

Definition metadata : dict :=
  [("implementations", JArr twin_slots)].

(** An evaluation result that has a summary and no implementation entries
    key. *)
Definition summary_only : dict :=
  [("evaluation", SampleTask.summary 3 "third wins")].

End SampleFirstMatch.

(** A step writes no file outside [P], spawns no command, and returns
    values in [Q]. *)
Definition respects {A} (P : string → Prop) (Q : A → Prop) (c : M A) : Prop :=
  ∀ w out w', c w = (out, w') →
    files_outside P w w' ∧ spawned w' = spawned w ∧ ∀ a, out = Ok a → Q a.

Definition anything {A} (_ : A) : Prop := True.


Module SampleEndToEnd.

(** A diff of three lines. *)
Definition diff (n : string) : string :=
  "--- a/retry.py" +:+ nl +:+ "+++ b/retry.py" +:+ nl +:+ "+attempt " +:+ n.

Definition task_fields : dict :=
  [("jira_id", JStr "PROJ-7"); ("repo_name", JStr "acme/api");
   ("before_sha", JStr "1f0c"); ("after_sha", JStr "9ab2");
   ("pr_description", JStr "Fix the retry loop");
   ("diff_1", JStr (diff "1")); ("diff_2", JStr (diff "2"));
   ("diff_3", JStr (diff "3")); ("diff_4", JStr (diff "4"))].

(** The metadata of the task freshly seeded from the template. *)
Definition seeded : json :=
  SampleTask.record "task-0"
    [SampleTask.scored_slot "diff_1" (diff "1") 0 0 "";
     SampleTask.scored_slot "diff_2" (diff "2") 0 0 "";
     SampleTask.scored_slot "diff_3" (diff "3") 0 0 "";
     SampleTask.scored_slot "diff_4" (diff "4") 0 0 ""]
    (SampleTask.summary 0 "").

(** The metadata after the sample result was merged. *)
Definition evaluated : json :=
  SampleTask.record "task-0"
    [SampleTask.scored_slot "diff_1" (diff "1") 4 5 "clean";
     SampleTask.scored_slot "diff_2" (diff "2") 2 3 "partial";
     SampleTask.scored_slot "diff_3" (diff "3") 5 5 "best";
     SampleTask.scored_slot "diff_4" (diff "4") 1 2 "broken"]
    (SampleTask.summary 3 "third wins").

(** The model's reply: the sample result wrapped in prose. *)
Definition reply : string :=
  "Sure! " +:+ Reference.dumps SampleMerge.results +:+ " Bye".

Definition host : Platform := Reference.platform [] reply.

Definition user_message : string :=
  match user_prompt (H := host) (JStr "Fix the retry loop") Sample.reports
          [JStr (diff "1"); JStr (diff "2"); JStr (diff "3"); JStr (diff "4")]
          false with
  | Ok prompt => prompt
  | Raise _ => ""
  end.

(** A state with the task definition, the template and the four reports. *)
Definition ready : world :=
  World (<[SampleTask.task_data_path := Reference.dumps (JObj task_fields)]>
           (<["tasks/metadata_base.json" := Reference.dumps SampleTask.template]>
              (files SampleReports.reported)))
        {[ "tasks"; "code-evaluation"; "code-evaluation/analysis" ]} [] [] 0.

(** The state the six commands leave. *)
Definition after_commands : world :=
  (for_each commands (run_command (H := host)) ready).2.

(** A reply that opens more brackets than the decoder follows. *)
Definition deep_reply : string :=
  String.concat "" (replicate (S Reference.depth_limit) "[").

End SampleEndToEnd.

(** A slot as the fallback result leaves it: zero scores and the error
    comment when it holds a diff key, untouched otherwise. *)
Definition zeroed (slot : json) : json :=
  if existsb (λ k, has_key k slot) diff_keys
  then set_scores (JInt 0) (JInt 0) (JStr "Error parsing LLM response") slot
  else slot.


(** The return codes of the commands of a list, each run in the files and
    directories its predecessor left. *)
Fixpoint return_codes `{Platform} (cmds : list string)
    (state : gmap string string * gset string) : list Z :=
  match cmds with
  | [] => []
  | c :: rest =>
      let '(code, state') := subprocess_run c state in
      code :: return_codes rest state'
  end.

(** The position and the value of the first non-zero return code. *)
Fixpoint first_nonzero (codes : list Z) : option (nat * Z) :=
  match codes with
  | [] => None
  | code :: rest =>
      if code =? 0 then
        match first_nonzero rest with
        | Some (n, failed) => Some (S n, failed)
        | None => None
        end
      else Some (0%nat, code)
  end.


(** * Properties *)

(** ** Strings *)

Lemma append_empty (s : string) : "" +:+ s = s.
Proof. reflexivity. Qed.

Lemma append_step (c : ascii) (a b : string) : String c a +:+ b = String c (a +:+ b).
Proof. reflexivity. Qed.

(** A literal is not among the literals of a list. *)
Ltac not_among :=
  let Hin := fresh "Hin" in
  intros Hin;
  repeat (apply elem_of_cons in Hin as [Hin|Hin]; [discriminate Hin|]);
  by apply elem_of_nil in Hin.

(** A literal is among the literals of a list. *)
Ltac among := repeat first [apply list_elem_of_here | apply list_elem_of_further].

Ltac unroll := simpl in *; rewrite ?append_step, ?append_empty in *; simpl in *.

Lemma str_len_nonneg (s : string) : 0 ≤ str_len s.
Proof. unfold str_len. lia. Qed.

Lemma str_len_cons (c : ascii) (s : string) : str_len (String c s) = 1 + str_len s.
Proof. unfold str_len. simpl. lia. Qed.

Lemma str_len_app (a b : string) : str_len (a +:+ b) = str_len a + str_len b.
Proof.
  induction a as [|c a IH]; unroll; [done|].
  rewrite !str_len_cons. lia.
Qed.

Lemma has_char_app (c : ascii) (a b : string) :
  has_char c (a +:+ b) = has_char c a || has_char c b.
Proof.
  induction a as [|x a IH]; unroll; [done|].
  rewrite IH. by rewrite orb_assoc.
Qed.

Lemma find_from_absent (c : ascii) (s : string) (i : Z) :
  has_char c s = false → find_from c s i = -1.
Proof.
  revert i. induction s as [|a s IH]; intros i Hs; simpl in *; [done|].
  apply orb_false_iff in Hs as [-> Hs]. by apply IH.
Qed.

Lemma find_from_first (c : ascii) (pre rest : string) (i : Z) :
  has_char c pre = false →
  find_from c (pre +:+ String c rest) i = i + str_len pre.
Proof.
  revert i. induction pre as [|a pre IH]; intros i Hpre; unroll.
  - rewrite Ascii.eqb_refl. unfold str_len. simpl. lia.
  - apply orb_false_iff in Hpre as [-> Hpre].
    rewrite IH by done. rewrite str_len_cons. lia.
Qed.

Lemma rfind_from_absent (c : ascii) (s : string) (i last : Z) :
  has_char c s = false → rfind_from c s i last = last.
Proof.
  revert i last. induction s as [|a s IH]; intros i last Hs; simpl in *; [done|].
  apply orb_false_iff in Hs as [-> Hs]. by apply IH.
Qed.

Lemma rfind_from_app (c : ascii) (a b : string) (i last : Z) :
  rfind_from c (a +:+ b) i last
  = rfind_from c b (i + str_len a) (rfind_from c a i last).
Proof.
  revert i last. induction a as [|x a IH]; intros i last; unroll.
  - unfold str_len. simpl. by rewrite Z.add_0_r.
  - rewrite IH, str_len_cons. f_equal. lia.
Qed.

Lemma rfind_from_last (c : ascii) (init post : string) (i last : Z) :
  has_char c post = false →
  rfind_from c (init +:+ String c post) i last = i + str_len init.
Proof.
  intros Hpost. rewrite rfind_from_app. simpl. rewrite Ascii.eqb_refl.
  by apply rfind_from_absent.
Qed.

Lemma substring_zero (n : nat) (s : string) : String.substring n 0 s = "".
Proof. revert n. induction s as [|a s IH]; intros [|n]; simpl; auto. Qed.

Lemma substring_prefix (mid post : string) :
  String.substring 0 (String.length mid) (mid +:+ post) = mid.
Proof.
  induction mid as [|a mid IH]; unroll.
  - apply substring_zero.
  - by rewrite IH.
Qed.

Lemma substring_middle (pre mid post : string) :
  String.substring (String.length pre) (String.length mid) (pre +:+ mid +:+ post) = mid.
Proof.
  induction pre as [|a pre IH]; unroll; [apply substring_prefix | done].
Qed.

Lemma slice_middle (pre mid post : string) :
  slice (pre +:+ mid +:+ post) (str_len pre) (str_len pre + str_len mid) = mid.
Proof.
  unfold slice, clamp. rewrite !str_len_app.
  pose proof (str_len_nonneg pre). pose proof (str_len_nonneg mid).
  pose proof (str_len_nonneg post).
  destruct (Z.ltb_spec (str_len pre) 0); [lia|].
  destruct (Z.ltb_spec (str_len pre + str_len mid) 0); [lia|].
  rewrite !Z.min_l by lia.
  replace (str_len pre + str_len mid - str_len pre) with (str_len mid) by lia.
  unfold str_len. rewrite !Nat2Z.id. apply substring_middle.
Qed.

Lemma slice_crossed (s : string) (a b : Z) :
  0 ≤ a → 0 ≤ b → b ≤ a → slice s a b = "".
Proof.
  intros Ha Hb Hba. unfold slice, clamp.
  destruct (Z.ltb_spec a 0); [lia|]. destruct (Z.ltb_spec b 0); [lia|].
  replace (Z.to_nat (Z.min b (str_len s) - Z.min a (str_len s))) with 0%nat by lia.
  apply substring_zero.
Qed.

Lemma append_assoc (a b c : string) : (a +:+ b) +:+ c = a +:+ b +:+ c.
Proof. induction a as [|x a IH]; unroll; [done | by rewrite IH]. Qed.

Lemma find_first (c : ascii) (pre rest : string) :
  has_char c pre = false → find c (pre +:+ String c rest) = str_len pre.
Proof. intros Hpre. unfold find. by rewrite find_from_first. Qed.

Lemma rfind_last (c : ascii) (init post : string) :
  has_char c post = false → rfind c (init +:+ String c post) = str_len init.
Proof. intros Hpost. unfold rfind. by rewrite rfind_from_last. Qed.

(** A reply with a brace on each side: the text decoded is the span from
    the first opening brace to the last closing one. *)
Lemma json_text_span (pre m post : string) :
  has_char "{" pre = false → has_char "}" post = false →
  json_text (pre +:+ "{" +:+ m +:+ "}" +:+ post) = "{" +:+ m +:+ "}".
Proof.
  intros Hpre Hpost. unfold json_text.
  rewrite !append_step, !append_empty.
  rewrite (find_first "{" pre) by done.
  assert (Hlast : rfind "}" (pre +:+ String "{" (m +:+ String "}" post))
                  = str_len pre + 1 + str_len m).
  { replace (pre +:+ String "{" (m +:+ String "}" post))
      with ((pre +:+ String "{" m) +:+ String "}" post)
      by (by rewrite append_assoc, append_step).
    rewrite rfind_last by done. rewrite str_len_app, str_len_cons. lia. }
  rewrite Hlast.
  pose proof (str_len_nonneg pre). pose proof (str_len_nonneg m).
  destruct (Z.eqb_spec (str_len pre) (-1)); [lia|].
  destruct (Z.eqb_spec (str_len pre + 1 + str_len m) (-1)); [lia|].
  simpl.
  replace (String "{" (m +:+ String "}" post))
    with (String "{" (m +:+ "}") +:+ post)
    by (by rewrite append_step, append_assoc).
  replace (str_len pre + 1 + str_len m + 1)
    with (str_len pre + str_len (String "{" (m +:+ "}"))).
  - apply slice_middle.
  - rewrite str_len_cons, str_len_app. unfold str_len. simpl. lia.
Qed.

(** A reply without braces is decoded whole. *)
Lemma json_text_plain (s : string) :
  has_char "{" s = false → has_char "}" s = false → json_text s = s.
Proof.
  intros Ho _. unfold json_text, find. by rewrite find_from_absent.
Qed.

(** A reply that lacks one of the two braces is decoded whole as well. *)
Lemma json_text_one_sided (s : string) :
  has_char "{" s = false ∨ has_char "}" s = false → json_text s = s.
Proof.
  intros [Ho|Hc]; unfold json_text, find, rfind.
  - by rewrite find_from_absent.
  - rewrite (rfind_from_absent _ _ _ _ Hc). simpl. by rewrite andb_false_r.
Qed.

(** A reply whose last closing brace precedes its first opening brace:
    the span is empty. *)
Lemma json_text_crossed (a b c : string) :
  has_char "{" a = false → has_char "{" b = false →
  has_char "}" b = false → has_char "}" c = false →
  json_text (a +:+ "}" +:+ b +:+ "{" +:+ c) = "".
Proof.
  intros Ha Hb Hb' Hc. unfold json_text.
  rewrite !append_step, !append_empty.
  assert (Hfirst : find "{" (a +:+ String "}" (b +:+ String "{" c))
                   = str_len a + 1 + str_len b).
  { replace (a +:+ String "}" (b +:+ String "{" c))
      with ((a +:+ String "}" b) +:+ String "{" c)
      by (by rewrite append_assoc, append_step).
    rewrite find_first.
    - rewrite str_len_app, str_len_cons. lia.
    - rewrite has_char_app. simpl. by rewrite Ha, Hb. }
  assert (Hlast : rfind "}" (a +:+ String "}" (b +:+ String "{" c)) = str_len a).
  { apply rfind_last. rewrite has_char_app. simpl. by rewrite Hb', Hc. }
  rewrite Hfirst, Hlast.
  pose proof (str_len_nonneg a). pose proof (str_len_nonneg b).
  destruct (Z.eqb_spec (str_len a + 1 + str_len b) (-1)); [lia|].
  destruct (Z.eqb_spec (str_len a) (-1)); [lia|].
  simpl. apply slice_crossed; lia.
Qed.

(** ** Dicts *)

Lemma dict_get_set_eq {V} (d : list (string * V)) (k : string) (v : V) :
  dict_get (dict_set d k v) k = Some v.
Proof.
  induction d as [|[k' v'] d IH]; simpl.
  - by rewrite String.eqb_refl.
  - destruct (String.eqb k' k) eqn:Hk; simpl; by rewrite Hk.
Qed.

Lemma dict_get_set_ne {V} (d : list (string * V)) (k k' : string) (v : V) :
  k ≠ k' → dict_get (dict_set d k v) k' = dict_get d k'.
Proof.
  intros Hne. induction d as [|[k0 v0] d IH]; simpl.
  - by destruct (String.eqb_spec k k').
  - destruct (String.eqb_spec k0 k) as [->|Hk0]; simpl.
    + by destruct (String.eqb_spec k k').
    + by rewrite IH.
Qed.

Lemma dict_set_same {V} (d : list (string * V)) (k : string) (v : V) :
  dict_get d k = Some v → dict_set d k v = d.
Proof.
  induction d as [|[k0 v0] d IH]; simpl; [done|].
  destruct (String.eqb_spec k0 k) as [->|Hk0].
  - by intros [= ->].
  - intros Hget. by rewrite IH.
Qed.

Lemma dict_set_set {V} (d : list (string * V)) (k : string) (v v' : V) :
  dict_set (dict_set d k v) k v' = dict_set d k v'.
Proof.
  induction d as [|[k0 v0] d IH]; simpl.
  - by rewrite String.eqb_refl.
  - destruct (String.eqb k0 k) eqn:Hk; simpl; rewrite Hk; [done | by rewrite IH].
Qed.

Lemma dict_has_set_ne {V} (d : list (string * V)) (k k' : string) (v : V) :
  k ≠ k' → dict_has (dict_set d k v) k' = dict_has d k'.
Proof. intros Hne. unfold dict_has. by rewrite dict_get_set_ne. Qed.

Lemma dict_has_true {V} (d : list (string * V)) (k : string) :
  dict_has d k = true → ∃ v, dict_get d k = Some v.
Proof. unfold dict_has. destruct (dict_get d k); [eauto | done]. Qed.

Lemma dict_has_false {V} (d : list (string * V)) (k : string) :
  dict_has d k = false → dict_get d k = None.
Proof. unfold dict_has. by destruct (dict_get d k). Qed.

(** ** Results of the dynamic operations *)

Lemma bind_Ok_inv {A B} (c : outcome A) (k : A → outcome B) (b : B) :
  (x <- c ;; k x) = Ok b → ∃ a, c = Ok a ∧ k a = Ok b.
Proof. destruct c as [a|e]; simpl; [eauto | done]. Qed.

Lemma bind_Ok_l {A B} (a : A) (k : A → outcome B) : (x <- Ok a ;; k x) = k a.
Proof. reflexivity. Qed.

Lemma getitem_key_inv (o : json) (k : string) (v : json) :
  getitem o (SKey k) = Ok v → field o k = Some v.
Proof.
  destruct o; simpl; try done.
  destruct (dict_get fields k); [by intros [= ->] | done].
Qed.

Lemma setitem_inv (o : json) (k : string) (v o' : json) :
  setitem o k v = Ok o' → ∃ d, o = JObj d ∧ o' = JObj (dict_set d k v).
Proof. destruct o; simpl; try done. intros [= <-]. eauto. Qed.

Lemma field_Some_inv (o : json) (k : string) (v : json) :
  field o k = Some v → ∃ d, o = JObj d ∧ dict_get d k = Some v.
Proof. destruct o; simpl; try done. eauto. Qed.

Lemma set_in_inv (o : json) (k key : string) (v o' : json) :
  set_in o (SKey k) key v = Ok o' →
  ∃ d t, o = JObj d ∧ dict_get d k = Some (JObj t)
         ∧ o' = JObj (dict_set d k (JObj (dict_set t key v))).
Proof.
  unfold set_in. intros Hset.
  apply bind_Ok_inv in Hset as (inner & Hget & Hset).
  apply bind_Ok_inv in Hset as (inner' & Hinner & Hset).
  apply getitem_key_inv, field_Some_inv in Hget as (d & -> & Hd).
  apply setitem_inv in Hinner as (t & -> & ->).
  injection Hset as <-. simpl. eauto.
Qed.

(** ** The monad *)

Lemma bind_ok {A B} (c : M A) (k : A → M B) (w w' : world) (a : A) :
  c w = (Ok a, w') → (x <- c ;; k x) w = k a w'.
Proof. intros Hc. unfold bind, M_bind. by rewrite Hc. Qed.

Lemma bind_raise {A B} (c : M A) (k : A → M B) (w w' : world) (e : exn) :
  c w = (Raise e, w') → (x <- c ;; k x) w = (Raise e, w').
Proof. intros Hc. unfold bind, M_bind. by rewrite Hc. Qed.

Lemma for_each_app_raise {A} (body : A → M unit) (pre post : list A) (c : A)
    (w w1 w2 : world) (e : exn) :
  for_each pre body w = (Ok tt, w1) →
  body c w1 = (Raise e, w2) →
  for_each (pre ++ c :: post) body w = (Raise e, w2).
Proof.
  revert w. induction pre as [|x pre IH]; intros w Hpre Hc; simpl in *.
  - injection Hpre as <-. by apply bind_raise.
  - unfold bind, M_bind in *. destruct (body x w) as [[[]|e'] w'] eqn:Hx; [|done].
    by apply IH.
Qed.

(** ** The command runner *)

Section Runner.
Context `{Platform}.

Lemma run_command_zero (c : string) (w : world) fs ds :
  subprocess_run c (files w, dirs w) = (0, (fs, ds)) →
  run_command c w
  = (Ok tt,
     World fs ds (stdout w ++ ["Executing: " +:+ c; "Command completed successfully."])
       (spawned w ++ [c]) (nonce w)).
Proof.
  intros Hrun. unfold run_command, bind, M_bind, print, shell. simpl.
  rewrite Hrun. simpl. by rewrite <- app_assoc.
Qed.

Lemma run_command_nonzero (c : string) (w : world) (code : Z) fs ds :
  subprocess_run c (files w, dirs w) = (code, (fs, ds)) → code ≠ 0 →
  run_command c w
  = (Raise (SystemExit 1),
     World fs ds
       (stdout w ++ ["Executing: " +:+ c;
                     "Error: Command failed with exit code " +:+ pretty code])
       (spawned w ++ [c]) (nonce w)).
Proof.
  intros Hrun Hcode. unfold run_command, bind, M_bind, print, shell, sys_exit, raise.
  simpl. rewrite Hrun. simpl.
  destruct (Z.eqb_spec code 0); [done|]. simpl. by rewrite <- app_assoc.
Qed.

Lemma run_command_spawned (c : string) (w w' : world) (out : outcome unit) :
  run_command c w = (out, w') → spawned w' = spawned w ++ [c].
Proof.
  destruct (subprocess_run c (files w, dirs w)) as [code [fs ds]] eqn:Hrun.
  destruct (Z.eq_dec code 0) as [->|Hcode].
  - rewrite (run_command_zero _ _ _ _ Hrun). by intros [= <- <-].
  - rewrite (run_command_nonzero _ _ _ _ _ Hrun Hcode). by intros [= <- <-].
Qed.

Lemma run_commands_spawned (cmds : list string) (w w' : world) :
  for_each cmds run_command w = (Ok tt, w') → spawned w' = spawned w ++ cmds.
Proof.
  revert w. induction cmds as [|c cmds IH]; intros w Hrun; simpl in *.
  - injection Hrun as <-. by rewrite app_nil_r.
  - unfold bind, M_bind in Hrun.
    destruct (run_command c w) as [[[]|e] w1] eqn:Hc; [|done].
    apply run_command_spawned in Hc. rewrite (IH _ Hrun), Hc.
    by rewrite <- app_assoc.
Qed.

(** C5: once a command of the loop of lines 353-355 exits with a non-zero
    status, the loop ends with exit status 1 in the state that command
    left, no later command spawned; and so do steps 1 to 4 as a whole
    (lines 353-377): the files and directories are those the failing
    command left, so the bootstrapper has not run. *)
Theorem failing_command_halts (pre post : list string) (c : string)
    (w w1 : world) (code : Z) fs ds :
  for_each pre run_command w = (Ok tt, w1) →
  subprocess_run c (files w1, dirs w1) = (code, (fs, ds)) →
  code ≠ 0 →
  let halted :=
    World fs ds
      (stdout w1 ++ ["Executing: " +:+ c;
                     "Error: Command failed with exit code " +:+ pretty code])
      (spawned w ++ pre ++ [c]) (nonce w1) in
  for_each (pre ++ c :: post) run_command w = (Raise (SystemExit 1), halted)
  ∧ ∀ task_data_path analysis_dir include_improved_diff,
      run_steps true (pre ++ c :: post) task_data_path analysis_dir
        include_improved_diff w
      = (Raise (SystemExit 1), halted).
Proof.
  intros Hpre Hrun Hcode halted.
  assert (Hloop : for_each (pre ++ c :: post) run_command w
                  = (Raise (SystemExit 1), halted)).
  { apply (for_each_app_raise _ _ _ _ _ w1); [done|].
    rewrite (run_command_nonzero _ _ _ _ _ Hrun Hcode).
    unfold halted. by rewrite (run_commands_spawned _ _ _ Hpre), <- app_assoc. }
  split; [done|]. intros task_data_path analysis_dir include_improved_diff.
  unfold run_steps. by apply bind_raise.
Qed.

End Runner.

Lemma failing_command_halts_witness :
  run_steps (H := SampleRun.host) true commands "automation_tool/task_data.json"
    "code-evaluation/analysis" false Sample.start
  = (Raise (SystemExit 1),
     World ∅ ∅
       (stdout SampleRun.after_three
        ++ ["Executing: " +:+ SampleRun.failing_command;
            "Error: Command failed with exit code 2"])
       (take 4 commands) 0).
Proof.
  exact (proj2 (failing_command_halts (H := SampleRun.host)
                  (take 3 commands) (drop 4 commands) SampleRun.failing_command
                  Sample.start SampleRun.after_three 2 ∅ ∅
                  ltac:(vm_compute; reflexivity) ltac:(vm_compute; reflexivity)
                  ltac:(lia))
           "automation_tool/task_data.json" "code-evaluation/analysis" false).
Defined.

(** ** The task bootstrapper *)

Section Bootstrapper.
Context `{Platform}.

Lemma json_load_ok (p text : string) (v : json) (w : world) :
  files w !! p = Some text → json_loads text = Decoded v →
  json_load p w = (Ok v, w).
Proof.
  intros Hfile Hloads. unfold json_load, bind, M_bind, read_text, ret.
  by rewrite Hfile, Hloads.
Qed.

Lemma os_path_exists_file (p text : string) (w : world) :
  files w !! p = Some text → os_path_exists p w = (Ok true, w).
Proof.
  intros Hfile. unfold os_path_exists. rewrite Hfile.
  rewrite bool_decide_eq_true_2 by eauto. done.
Qed.

(** C9: a ticket identifier that is absent or falsy ends the bootstrapper
    with exit status 1 after one printed line; no file or directory is
    touched. *)
Theorem falsy_jira_id_exits (task_data_path text : string) (task_data : dict)
    (w : world) :
  files w !! task_data_path = Some text →
  json_loads text = Decoded (JObj task_data) →
  match dict_get task_data "jira_id" with
  | Some v => truthy v = false
  | None => True
  end →
  create_task_folder_and_metadata task_data_path w
  = (Raise (SystemExit 1),
     World (files w) (dirs w)
       (stdout w ++ ["Error: jira_id not found in task_data.json"])
       (spawned w) (nonce w)).
Proof.
  intros Hfile Hloads Hfalsy. unfold create_task_folder_and_metadata.
  rewrite (bind_ok _ _ w w true) by (by apply (os_path_exists_file _ text)).
  simpl negb. cbv iota.
  rewrite (bind_ok _ _ w w tt) by done.
  rewrite (bind_ok _ _ w w (JObj task_data)) by (by apply (json_load_ok _ text)).
  assert (Hfalse : truthy (match dict_get task_data "jira_id" with
                           | Some v => v
                           | None => JNull
                           end) = false).
  { by destruct (dict_get task_data "jira_id"). }
  rewrite (bind_ok _ _ w w (match dict_get task_data "jira_id" with
                            | Some v => v
                            | None => JNull
                            end)) by done.
  rewrite Hfalse. simpl negb. cbv iota.
  apply bind_raise. unfold bind, M_bind, print, sys_exit, raise. done.
Qed.

Lemma os_makedirs_present (p : string) (w : world) :
  files w !! p = None → p ∈ dirs w → os_makedirs p w = (Ok tt, w).
Proof.
  intros _ Hdir. unfold os_makedirs. by rewrite bool_decide_eq_true_2.
Qed.

Lemma write_text_ok (p text : string) (w : world) :
  p ∉ dirs w →
  write_text p text w
  = (Ok tt, World (<[p := text]> (files w)) (dirs w) (stdout w) (spawned w) (nonce w)).
Proof. intros Hdir. unfold write_text. by rewrite bool_decide_eq_false_2. Qed.

Lemma read_text_ok (p text : string) (w : world) :
  files w !! p = Some text → read_text p w = (Ok text, w).
Proof. intros Hfile. unfold read_text. by rewrite Hfile. Qed.

(** C6: on a task that was bootstrapped before, the bootstrapper writes the
    metadata file anew from the template, the task data and a fresh task
    identifier; what the file held plays no part in the result. *)
Theorem bootstrapper_resets_metadata
    (task_data_path text jira_id template_text old : string)
    (task_data : dict) (template metadata : json) (w : world) :
  let task_folder := os_path_join "tasks" jira_id in
  let metadata_path := os_path_join task_folder "metadata.json" in
  files w !! task_data_path = Some text →
  json_loads text = Decoded (JObj task_data) →
  dict_get task_data "jira_id" = Some (JStr jira_id) →
  jira_id ≠ "" →
  task_folder ∈ dirs w → files w !! task_folder = None →
  files w !! metadata_path = Some old → metadata_path ∉ dirs w →
  files w !! "tasks/metadata_base.json" = Some template_text →
  json_loads template_text = Decoded template →
  populate template (JObj task_data) (uuid4 (nonce w)) = Ok metadata →
  create_task_folder_and_metadata task_data_path w
  = (Ok task_folder,
     World (<[metadata_path := json_dumps metadata]> (files w)) (dirs w)
       (stdout w
        ++ ["Created folder: " +:+ task_folder;
            "Copied metadata_base.json to " +:+ task_folder;
            "Updated metadata.json in " +:+ task_folder +:+ " with task_id: "
              +:+ uuid4 (nonce w)])
       (spawned w) (S (nonce w))).
Proof.
  intros task_folder metadata_path Hfile Hloads Hjira Hne Hdir Hnofile Hold
    Hnodir Htmpl Htemplate Hpopulate.
  unfold create_task_folder_and_metadata.
  fold task_folder. fold metadata_path.
  rewrite (bind_ok _ _ w w true) by (by apply (os_path_exists_file _ text)).
  simpl negb. cbv iota.
  rewrite (bind_ok _ _ w w tt) by done.
  rewrite (bind_ok _ _ w w (JObj task_data)) by (by apply (json_load_ok _ text)).
  rewrite (bind_ok _ _ w w (JStr jira_id))
    by (unfold lift, get_method; by rewrite Hjira).
  assert (Htruthy : truthy (JStr jira_id) = true).
  { simpl. destruct (String.eqb_spec jira_id ""); done. }
  rewrite Htruthy. simpl negb. cbv iota.
  rewrite (bind_ok _ _ w w tt) by done.
  rewrite (bind_ok _ _ w w task_folder) by done.
  rewrite (bind_ok _ _ w w tt) by (by apply os_makedirs_present).
  set (w1 := World (files w) (dirs w)
               (stdout w ++ ["Created folder: " +:+ task_folder])
               (spawned w) (nonce w)).
  rewrite (bind_ok _ _ w w1 tt) by done.
  set (w2 := World (<[metadata_path := template_text]> (files w)) (dirs w)
               (stdout w1) (spawned w) (nonce w)).
  rewrite (bind_ok _ _ w1 w2 tt).
  2:{ unfold shutil_copyfile.
      rewrite (bind_ok _ _ w1 w1 template_text) by (by apply read_text_ok).
      by apply write_text_ok. }
  set (w3 := World (files w2) (dirs w)
               (stdout w1 ++ ["Copied metadata_base.json to " +:+ task_folder])
               (spawned w) (nonce w)).
  rewrite (bind_ok _ _ w2 w3 tt) by done.
  rewrite (bind_ok _ _ w3 w3 template).
  2:{ apply (json_load_ok _ template_text); [|done].
      simpl. apply lookup_insert_eq. }
  set (w4 := World (files w2) (dirs w) (stdout w3) (spawned w) (S (nonce w))).
  rewrite (bind_ok _ _ w3 w4 (uuid4 (nonce w))) by done.
  rewrite (bind_ok _ _ w4 w4 metadata) by (unfold lift; by rewrite Hpopulate).
  set (w5 := World (<[metadata_path := json_dumps metadata]> (files w)) (dirs w)
               (stdout w3) (spawned w) (S (nonce w))).
  rewrite (bind_ok _ _ w4 w5 tt).
  2:{ unfold json_dump. rewrite write_text_ok by done.
      unfold w5. simpl. by rewrite insert_insert_eq. }
  unfold bind, M_bind, print, ret, w5, w3, w1. simpl.
  by rewrite <- !app_assoc.
Qed.

End Bootstrapper.

Lemma falsy_jira_id_exits_witness :
  create_task_folder_and_metadata (H := Reference.platform [] "")
    SampleTask.task_data_path SampleTask.unnamed
  = (Raise (SystemExit 1),
     World (files SampleTask.unnamed) ∅
       ["Error: jira_id not found in task_data.json"] [] 0).
Proof.
  apply (falsy_jira_id_exits (H := Reference.platform [] "")
           SampleTask.task_data_path
           (Reference.dumps (JObj SampleTask.unnamed_fields))
           SampleTask.unnamed_fields SampleTask.unnamed);
    vm_compute; reflexivity.
Defined.

Lemma bootstrapper_resets_metadata_witness :
  create_task_folder_and_metadata (H := Reference.platform [] "")
    SampleTask.task_data_path SampleTask.rerun
  = (Ok SampleTask.task_folder,
     World (<[SampleTask.metadata_path :=
                Reference.dumps (SampleTask.seeded "task-1")]>
              (files SampleTask.rerun))
       (dirs SampleTask.rerun)
       ["Created folder: tasks/PROJ-7";
        "Copied metadata_base.json to tasks/PROJ-7";
        "Updated metadata.json in tasks/PROJ-7 with task_id: task-1"]
       [] 2).
Proof.
  apply (bootstrapper_resets_metadata (H := Reference.platform [] "")
           SampleTask.task_data_path
           (Reference.dumps (JObj SampleTask.task_fields)) "PROJ-7"
           (Reference.dumps SampleTask.template)
           (Reference.dumps SampleTask.evaluated)
           SampleTask.task_fields SampleTask.template
           (SampleTask.seeded "task-1") SampleTask.rerun);
    try (vm_compute; reflexivity).
  - discriminate.
  - vm_compute. discriminate.
Defined.

(** ** The judge invoker *)

Section Judge.
Context `{Platform}.

Lemma parse_reply_json_text (content : string) :
  parse_reply content = on_decode content (json_loads (json_text content)).
Proof.
  unfold parse_reply, json_text.
  by destruct (negb (find "{" content =? -1) && negb (rfind "}" content =? -1)).
Qed.

Lemma analyze_implementations_parse problem_description reports implementations
    include_improved_diff (prompt reply : string) (w : world) :
  user_prompt problem_description reports implementations include_improved_diff
    = Ok prompt →
  llm_invoke [SystemMessage system_message; HumanMessage prompt] = Ok reply →
  analyze_implementations problem_description reports implementations
    include_improved_diff w
  = parse_reply reply w.
Proof.
  intros Hprompt Hreply. unfold analyze_implementations, bind, M_bind, lift.
  by rewrite Hprompt, Hreply.
Qed.

Lemma brace_span_json_text (content text : string) :
  brace_span content text → json_text content = text.
Proof.
  intros [pre m post Hpre Hpost | s Ho Hc].
  - by apply json_text_span.
  - by apply json_text_plain.
Qed.

Lemma on_decode_malformed (content e : string) (w : world) :
  on_decode content (Malformed e) w
  = (Ok fallback,
     World (files w) (dirs w)
       (stdout w ++ ["Error decoding JSON: " +:+ e;
                     "Raw response content: " +:+ content])
       (spawned w) (nonce w)).
Proof.
  unfold on_decode, bind, M_bind, print, ret. simpl.
  by rewrite <- app_assoc.
Qed.

(** C3: the reply is decoded from its first opening brace to its last closing
    brace, both included, or whole when it has no braces; a JSON object
    wrapped in prose is returned exactly as it decodes. *)
Theorem parse_reply_decodes_brace_span (content text : string) :
  brace_span content text →
  json_text content = text
  ∧ parse_reply content = on_decode content (json_loads text)
  ∧ ∀ v w, json_loads text = Decoded v → parse_reply content w = (Ok v, w).
Proof.
  intros Hspan. apply brace_span_json_text in Hspan as Htext.
  split; [done|]. split.
  - by rewrite parse_reply_json_text, Htext.
  - intros v w Hv. by rewrite parse_reply_json_text, Htext, Hv.
Qed.

(** C2: when the text taken from the reply does not decode, the judge
    invoker returns the fixed all-zero structure, after printing the error
    and the raw reply. *)
Theorem analyze_implementations_fallback problem_description reports
    implementations include_improved_diff prompt (reply e : string) (w : world) :
  user_prompt problem_description reports implementations include_improved_diff
    = Ok prompt →
  llm_invoke [SystemMessage system_message; HumanMessage prompt] = Ok reply →
  json_loads (json_text reply) = Malformed e →
  let entry name :=
    JObj [("name", JStr name); ("task_success", JInt 0);
          ("instruction_following", JInt 0);
          ("comment", JStr "Error parsing LLM response")] in
  analyze_implementations problem_description reports implementations
    include_improved_diff w
  = (Ok (JObj [("implementations",
                JArr [entry "impl_1"; entry "impl_2"; entry "impl_3"; entry "impl_4"]);
               ("evaluation",
                JObj [("best_diff", JInt 0);
                      ("preference_rationale", JStr "Error parsing LLM response");
                      ("improved_diff", JStr "")])]),
     World (files w) (dirs w)
       (stdout w ++ ["Error decoding JSON: " +:+ e;
                     "Raw response content: " +:+ reply])
       (spawned w) (nonce w)).
Proof.
  intros Hprompt Hreply Hbad entry.
  rewrite (analyze_implementations_parse _ _ _ _ prompt reply) by done.
  rewrite parse_reply_json_text, Hbad.
  apply on_decode_malformed.
Qed.

(** C10: when the last closing brace of the reply comes before its first
    opening brace, the text handed to the decoder is empty, and since the
    empty text does not decode the judge invoker returns the all-zero
    structure (four entries with both scores 0 and the error comment, and
    a summary with best diff 0, the error rationale and an empty improved
    diff), whatever the whole reply would decode to. *)
Theorem analyze_implementations_crossed_braces problem_description reports
    implementations include_improved_diff prompt (a b c e : string) (w : world) :
  user_prompt problem_description reports implementations include_improved_diff
    = Ok prompt →
  llm_invoke [SystemMessage system_message; HumanMessage prompt]
    = Ok (a +:+ "}" +:+ b +:+ "{" +:+ c) →
  has_char "{" a = false → has_char "{" b = false →
  has_char "}" b = false → has_char "}" c = false →
  json_loads "" = Malformed e →
  let entry name :=
    JObj [("name", JStr name); ("task_success", JInt 0);
          ("instruction_following", JInt 0);
          ("comment", JStr "Error parsing LLM response")] in
  json_text (a +:+ "}" +:+ b +:+ "{" +:+ c) = ""
  ∧ analyze_implementations problem_description reports implementations
      include_improved_diff w
    = (Ok (JObj [("implementations",
                  JArr [entry "impl_1"; entry "impl_2"; entry "impl_3";
                        entry "impl_4"]);
                 ("evaluation",
                  JObj [("best_diff", JInt 0);
                        ("preference_rationale", JStr "Error parsing LLM response");
                        ("improved_diff", JStr "")])]),
       World (files w) (dirs w)
         (stdout w ++ ["Error decoding JSON: " +:+ e;
                       "Raw response content: " +:+ a +:+ "}" +:+ b +:+ "{" +:+ c])
         (spawned w) (nonce w)).
Proof.
  intros Hprompt Hreply Ha Hb Hb' Hc Hempty entry.
  assert (Htext := json_text_crossed a b c Ha Hb Hb' Hc).
  split; [done|].
  rewrite (analyze_implementations_parse _ _ _ _ prompt _ _ Hprompt Hreply).
  rewrite parse_reply_json_text, Htext, Hempty.
  apply on_decode_malformed.
Qed.

End Judge.

Lemma parse_reply_decodes_brace_span_witness :
  brace_span Sample.prose_reply ("{" +:+ SampleReplies.embedded_body +:+ "}")
  ∧ parse_reply (H := Reference.platform [] Sample.prose_reply)
      Sample.prose_reply Sample.start
    = (Ok SampleReplies.embedded_value, Sample.start).
Proof.
  assert (Hspan : brace_span Sample.prose_reply
                    ("{" +:+ SampleReplies.embedded_body +:+ "}")).
  { apply (span_braces "Here is the result: " SampleReplies.embedded_body " Thanks.");
      reflexivity. }
  split; [exact Hspan|].
  apply (parse_reply_decodes_brace_span
           (H := Reference.platform [] Sample.prose_reply) _ _ Hspan).
  vm_compute. reflexivity.
Defined.

Lemma analyze_implementations_fallback_witness :
  analyze_implementations (H := Reference.platform [] Sample.refusal)
    (JStr "Fix the retry loop") Sample.reports Sample.implementations false
    Sample.start
  = (Ok fallback,
     World ∅ ∅ ["Error decoding JSON: Expecting value";
                "Raw response content: I cannot comply."] [] 0).
Proof.
  apply (analyze_implementations_fallback (H := Reference.platform [] Sample.refusal)
           (JStr "Fix the retry loop") Sample.reports Sample.implementations false
           SampleReplies.user_message Sample.refusal "Expecting value" Sample.start).
  - vm_compute. reflexivity.
  - reflexivity.
  - vm_compute. reflexivity.
Defined.

Lemma analyze_implementations_crossed_braces_witness :
  Reference.loads Sample.crossed_reply = Decoded (JStr "} see {")
  ∧ analyze_implementations (H := Reference.platform [] Sample.crossed_reply)
      (JStr "Fix the retry loop") Sample.reports Sample.implementations false
      Sample.start
    = (Ok (JObj [("implementations",
                  JArr [SampleMerge.entry "impl_1" 0 0 "Error parsing LLM response";
                        SampleMerge.entry "impl_2" 0 0 "Error parsing LLM response";
                        SampleMerge.entry "impl_3" 0 0 "Error parsing LLM response";
                        SampleMerge.entry "impl_4" 0 0 "Error parsing LLM response"]);
                 ("evaluation", SampleTask.summary 0 "Error parsing LLM response")]),
       World ∅ ∅ ["Error decoding JSON: Expecting value";
                  "Raw response content: " +:+ Sample.crossed_reply] [] 0).
Proof.
  split; [vm_compute; reflexivity|].
  apply (analyze_implementations_crossed_braces
           (H := Reference.platform [] Sample.crossed_reply)
           (JStr "Fix the retry loop") Sample.reports Sample.implementations false
           SampleReplies.user_message
           (String Reference.quote "") " see " (String Reference.quote "")
           "Expecting value" Sample.start);
    vm_compute; reflexivity.
Defined.

(** ** The frame of the merge *)

Lemma agree_outside_refl (keys : list string) (o : json) : agree_outside keys o o.
Proof. destruct o; simpl; done. Qed.

Lemma agree_outside_trans (keys : list string) (a b c : json) :
  agree_outside keys a b → agree_outside keys b c → agree_outside keys a c.
Proof.
  destruct a, b; simpl; intros Hab; try done;
    destruct c; simpl; intros Hbc; try done; try congruence.
  intros k Hk. by rewrite Hbc, Hab.
Qed.

Lemma slots_frame_refl (c : json) : slots_frame c c.
Proof.
  destruct c; simpl; try done.
  induction items; constructor; [apply agree_outside_refl | done].
Qed.

Lemma slots_frame_trans (a b c : json) :
  slots_frame a b → slots_frame b c → slots_frame a c.
Proof.
  destruct a, b; simpl; intros Hab; try done;
    destruct c; simpl; intros Hbc; try done; try congruence.
  eapply Forall2_trans; [|done..]. apply agree_outside_trans.
Qed.

Lemma field_frame_refl (k : string) (v : json) : field_frame k v v.
Proof.
  unfold field_frame. destruct (String.eqb k "implementations").
  - apply slots_frame_refl.
  - destruct (String.eqb k "evaluation"); [apply agree_outside_refl | done].
Qed.

Lemma field_frame_trans (k : string) (a b c : json) :
  field_frame k a b → field_frame k b c → field_frame k a c.
Proof.
  unfold field_frame. destruct (String.eqb k "implementations").
  - apply slots_frame_trans.
  - destruct (String.eqb k "evaluation"); [apply agree_outside_trans | congruence].
Qed.

Lemma metadata_frame_refl (m : json) : metadata_frame m m.
Proof.
  destruct m; simpl; try done.
  intros k. destruct (dict_get fields k); [apply field_frame_refl | done].
Qed.

Lemma metadata_frame_trans (a b c : json) :
  metadata_frame a b → metadata_frame b c → metadata_frame a c.
Proof.
  destruct a, b; simpl; intros Hab; try done;
    destruct c; simpl; intros Hbc; try done; try congruence.
  intros k. specialize (Hab k). specialize (Hbc k).
  destruct (dict_get fields k), (dict_get fields0 k), (dict_get fields1 k);
    try done.
  by eapply field_frame_trans.
Qed.

(** Replacing one top-level field by a value within its frame. *)
Lemma metadata_frame_set (d : dict) (k : string) (v v' : json) :
  dict_get d k = Some v → field_frame k v v' →
  metadata_frame (JObj d) (JObj (dict_set d k v')).
Proof.
  intros Hget Hframe k'. destruct (String.eqb_spec k k') as [<-|Hne].
  - by rewrite Hget, dict_get_set_eq.
  - rewrite dict_get_set_ne by done.
    destruct (dict_get d k'); [apply field_frame_refl | done].
Qed.

Lemma scores_agree (d : dict) (a b c : json) :
  agree_outside score_keys (JObj d)
    (JObj (dict_set (dict_set (dict_set d "task_success" a)
                       "instruction_following" b) "comment" c)).
Proof.
  intros k Hk. unfold score_keys in Hk. simpl in Hk.
  rewrite !dict_get_set_ne; [done|..]; intros <-; tauto.
Qed.

Lemma update_matching_frame diff_key a b c (impls impls' : list json) :
  update_matching diff_key a b c impls = Ok impls' →
  Forall2 (agree_outside score_keys) impls impls'.
Proof.
  revert impls'. induction impls as [|impl rest IH]; intros impls' Hrun; simpl in Hrun.
  - injection Hrun as <-. constructor.
  - apply bind_Ok_inv in Hrun as ([] & Hfound & Hrun).
    + apply bind_Ok_inv in Hrun as (i1 & H1 & Hrun).
      apply bind_Ok_inv in Hrun as (i2 & H2 & Hrun).
      apply bind_Ok_inv in Hrun as (i3 & H3 & Hrun).
      apply setitem_inv in H1 as (d & -> & ->).
      apply setitem_inv in H2 as (d2 & [= <-] & ->).
      apply setitem_inv in H3 as (d3 & [= <-] & ->).
      injection Hrun as <-. constructor; [apply scores_agree|].
      clear. induction rest; constructor; [apply agree_outside_refl | done].
    + apply bind_Ok_inv in Hrun as (rest' & Hrest & Hrun).
      injection Hrun as <-. constructor; [apply agree_outside_refl | by apply IH].
Qed.

Lemma update_slots_frame diff_key a b c (container container' : json) :
  update_slots diff_key a b c container = Ok container' →
  slots_frame container container'.
Proof.
  destruct container; simpl; try done; intros Hrun.
  - apply bind_Ok_inv in Hrun as (? & _ & Hrun).
    by apply bind_Ok_inv in Hrun as (? & _ & [= <-]).
  - apply bind_Ok_inv in Hrun as (l' & Hl & [= <-]). simpl.
    by eapply update_matching_frame.
  - apply bind_Ok_inv in Hrun as (? & _ & Hrun).
    by apply bind_Ok_inv in Hrun as (? & _ & [= <-]).
Qed.

Lemma merge_entry_frame (metadata implementation metadata' : json) :
  merge_entry metadata implementation = Ok metadata' →
  metadata_frame metadata metadata'.
Proof.
  unfold merge_entry. intros Hrun.
  apply bind_Ok_inv in Hrun as (name & _ & Hrun).
  apply bind_Ok_inv in Hrun as (a & _ & Hrun).
  apply bind_Ok_inv in Hrun as (b & _ & Hrun).
  apply bind_Ok_inv in Hrun as (c & _ & Hrun).
  apply bind_Ok_inv in Hrun as ([diff_key|] & _ & Hrun).
  - apply bind_Ok_inv in Hrun as (container & Hget & Hrun).
    apply bind_Ok_inv in Hrun as (container' & Hslots & Hrun).
    apply getitem_key_inv, field_Some_inv in Hget as (d & -> & Hd).
    injection Hrun as <-. simpl.
    apply (metadata_frame_set d "implementations" container container' Hd).
    by eapply update_slots_frame.
  - injection Hrun as <-. apply metadata_frame_refl.
Qed.

Lemma merge_implementations_frame (entries : list json) (metadata metadata' : json) :
  merge_implementations metadata entries = Ok metadata' →
  metadata_frame metadata metadata'.
Proof.
  revert metadata. induction entries as [|e entries IH]; intros metadata Hrun;
    simpl in Hrun.
  - injection Hrun as <-. apply metadata_frame_refl.
  - apply bind_Ok_inv in Hrun as (m1 & Hstep & Hrun).
    eapply metadata_frame_trans; [by eapply merge_entry_frame | by apply IH].
Qed.

Lemma merge_evaluation_key_frame (key : string) (metadata results metadata' : json) :
  In key summary_keys →
  merge_evaluation_key key metadata results = Ok metadata' →
  metadata_frame metadata metadata'.
Proof.
  intros Hkey. unfold merge_evaluation_key. intros Hrun.
  apply bind_Ok_inv in Hrun as (evaluation & _ & Hrun).
  apply bind_Ok_inv in Hrun as ([] & _ & Hrun).
  - apply bind_Ok_inv in Hrun as (value & _ & Hrun).
    apply set_in_inv in Hrun as (d & t & -> & Hd & ->).
    apply (metadata_frame_set d "evaluation" (JObj t) _ Hd).
    unfold field_frame. simpl. intros k Hk.
    apply dict_get_set_ne. by intros <-.
  - injection Hrun as <-. apply metadata_frame_refl.
Qed.

Lemma merge_evaluation_frame (metadata results metadata' : json) :
  merge_evaluation metadata results = Ok metadata' →
  metadata_frame metadata metadata'.
Proof.
  unfold merge_evaluation. intros Hrun.
  apply bind_Ok_inv in Hrun as ([] & _ & Hrun).
  - apply bind_Ok_inv in Hrun as (m1 & H1 & Hrun).
    apply bind_Ok_inv in Hrun as (m2 & H2 & H3).
    apply merge_evaluation_key_frame in H1, H2, H3;
      try (unfold summary_keys; simpl; tauto).
    eauto using metadata_frame_trans.
  - injection Hrun as <-. apply metadata_frame_refl.
Qed.

Lemma merge_results_frame (metadata results metadata' : json) :
  merge_results metadata results = Ok metadata' →
  metadata_frame metadata metadata'.
Proof.
  unfold merge_results. intros Hrun.
  apply bind_Ok_inv in Hrun as (entries & _ & Hrun).
  apply bind_Ok_inv in Hrun as (items & _ & Hrun).
  apply bind_Ok_inv in Hrun as (m1 & H1 & H2).
  eapply metadata_frame_trans;
    [by eapply merge_implementations_frame | by eapply merge_evaluation_frame].
Qed.

(** ** The metadata merger *)

Section Merger.
Context `{Platform}.

Lemma update_metadata_raise task_folder analysis_results (w w' : world) (e : exn) :
  update_metadata task_folder analysis_results w = (Raise e, w') → w' = w.
Proof.
  unfold update_metadata, json_load, json_dump, bind, M_bind, read_text,
    write_text, lift, ret, raise.
  destruct (files w !! _) as [text|]; [|by case_bool_decide; intros [= _ <-]].
  destruct (json_loads text) as [metadata|msg| |msg]; [|by intros [= _ <-]..].
  destruct (merge_results metadata analysis_results); [|by intros [= _ <-]].
  case_bool_decide; [by intros [= _ <-] | done].
Qed.

Lemma update_metadata_ok task_folder analysis_results (w w' : world) :
  update_metadata task_folder analysis_results w = (Ok tt, w') →
  ∃ text metadata metadata',
    files w !! os_path_join task_folder "metadata.json" = Some text
    ∧ json_loads text = Decoded metadata
    ∧ merge_results metadata analysis_results = Ok metadata'
    ∧ w' = World (<[os_path_join task_folder "metadata.json" := json_dumps metadata']>
                    (files w))
             (dirs w) (stdout w) (spawned w) (nonce w).
Proof.
  unfold update_metadata, json_load, json_dump, bind, M_bind, read_text,
    write_text, lift, ret, raise.
  destruct (files w !! _) as [text|] eqn:Hfile; [|by case_bool_decide].
  destruct (json_loads text) as [metadata|msg| |msg] eqn:Hloads; [|done..].
  destruct (merge_results metadata analysis_results) as [metadata'|] eqn:Hmerge;
    [|done].
  case_bool_decide; [done|]. intros [= <-]. by exists text, metadata, metadata'.
Qed.

(** C1: the merge rewrites the metadata file with a record that differs
    from the one it read in the score fields of the implementation slots
    and the summary fields of the evaluation section only; when it raises,
    nothing is written. *)
Theorem update_metadata_frame task_folder analysis_results (w w' : world)
    (out : outcome unit) :
  update_metadata task_folder analysis_results w = (out, w') →
  let metadata_path := os_path_join task_folder "metadata.json" in
  match out with
  | Raise _ => w' = w
  | Ok _ =>
      ∃ text metadata metadata',
        files w !! metadata_path = Some text
        ∧ json_loads text = Decoded metadata
        ∧ metadata_frame metadata metadata'
        ∧ w' = World (<[metadata_path := json_dumps metadata']> (files w))
                 (dirs w) (stdout w) (spawned w) (nonce w)
  end.
Proof.
  intros Hrun metadata_path. destruct out as [[]|e].
  - apply update_metadata_ok in Hrun as (text & m & m' & Hfile & Hloads & Hmerge & ->).
    exists text, m, m'. eauto using merge_results_frame.
  - by eapply update_metadata_raise.
Qed.

End Merger.

Lemma update_metadata_frame_witness :
  ∃ text metadata metadata',
    files SampleMerge.bootstrapped !! "tasks/PROJ-7/metadata.json" = Some text
    ∧ Reference.loads text = Decoded metadata
    ∧ metadata_frame metadata metadata'
    ∧ World (<["tasks/PROJ-7/metadata.json" :=
                 Reference.dumps (SampleTask.evaluated)]> ∅)
        (dirs SampleMerge.bootstrapped) [] [] 1
      = World (<["tasks/PROJ-7/metadata.json" := Reference.dumps metadata']>
                 (files SampleMerge.bootstrapped))
          (dirs SampleMerge.bootstrapped) [] [] 1.
Proof.
  apply (update_metadata_frame (H := Reference.platform [] "")
           "tasks/PROJ-7" SampleMerge.results SampleMerge.bootstrapped _ (Ok tt)).
  vm_compute. reflexivity.
Defined.

(** ** Fields the two phases of the merge leave alone *)

Lemma merge_entry_field (metadata implementation metadata' : json) (k : string) :
  merge_entry metadata implementation = Ok metadata' →
  k ≠ "implementations" → field metadata' k = field metadata k.
Proof.
  unfold merge_entry. intros Hrun Hk.
  apply bind_Ok_inv in Hrun as (name & _ & Hrun).
  apply bind_Ok_inv in Hrun as (a & _ & Hrun).
  apply bind_Ok_inv in Hrun as (b & _ & Hrun).
  apply bind_Ok_inv in Hrun as (c & _ & Hrun).
  apply bind_Ok_inv in Hrun as ([diff_key|] & _ & Hrun).
  - apply bind_Ok_inv in Hrun as (container & Hget & Hrun).
    apply bind_Ok_inv in Hrun as (container' & Hslots & Hrun).
    apply getitem_key_inv, field_Some_inv in Hget as (d & -> & Hd).
    injection Hrun as <-. simpl. by apply dict_get_set_ne.
  - by injection Hrun as <-.
Qed.

Lemma merge_implementations_field (entries : list json) (metadata metadata' : json)
    (k : string) :
  merge_implementations metadata entries = Ok metadata' →
  k ≠ "implementations" → field metadata' k = field metadata k.
Proof.
  revert metadata. induction entries as [|e entries IH]; intros metadata Hrun Hk;
    simpl in Hrun.
  - by injection Hrun as <-.
  - apply bind_Ok_inv in Hrun as (m1 & Hstep & Hrun).
    rewrite (IH _ Hrun Hk). by eapply merge_entry_field.
Qed.

Lemma contains_false_field (key : string) (o : json) :
  contains key o = Ok false → field o key = None.
Proof.
  destruct o; simpl; try done. intros [= Hhas]. by apply dict_has_false.
Qed.

Lemma merge_evaluation_key_field (key : string) (metadata results metadata' : json)
    (k : string) :
  merge_evaluation_key key metadata results = Ok metadata' →
  k ≠ "evaluation" → field metadata' k = field metadata k.
Proof.
  unfold merge_evaluation_key. intros Hrun Hk.
  apply bind_Ok_inv in Hrun as (evaluation & _ & Hrun).
  apply bind_Ok_inv in Hrun as ([] & _ & Hrun).
  - apply bind_Ok_inv in Hrun as (value & _ & Hrun).
    apply set_in_inv in Hrun as (d & t & -> & Hd & ->).
    simpl. by apply dict_get_set_ne.
  - by injection Hrun as <-.
Qed.

Lemma merge_evaluation_key_summary (key : string) (metadata results metadata' : json)
    (k : string) :
  merge_evaluation_key key metadata results = Ok metadata' →
  summary_field metadata' k
  = if String.eqb k key then
      match summary_field results key with
      | Some v => Some v
      | None => summary_field metadata key
      end
    else summary_field metadata k.
Proof.
  unfold merge_evaluation_key. intros Hrun.
  apply bind_Ok_inv in Hrun as (evaluation & Heval & Hrun).
  apply getitem_key_inv in Heval.
  apply bind_Ok_inv in Hrun as ([] & Hpresent & Hrun).
  - apply bind_Ok_inv in Hrun as (value & Hvalue & Hrun).
    apply getitem_key_inv in Hvalue.
    apply set_in_inv in Hrun as (d & t & -> & Hd & ->).
    unfold summary_field. rewrite Heval, Hvalue. simpl.
    rewrite dict_get_set_eq, Hd. simpl.
    destruct (String.eqb_spec k key) as [->|Hne].
    + apply dict_get_set_eq.
    + by apply dict_get_set_ne.
  - injection Hrun as <-.
    destruct (String.eqb_spec k key) as [->|Hne]; [|done].
    unfold summary_field. rewrite Heval.
    by rewrite (contains_false_field _ _ Hpresent).
Qed.

Lemma merge_evaluation_summary (metadata results metadata' : json) (key : string) :
  merge_evaluation metadata results = Ok metadata' →
  In key summary_keys →
  summary_field metadata' key
  = match summary_field results key with
    | Some v => Some v
    | None => summary_field metadata key
    end.
Proof.
  unfold merge_evaluation. intros Hrun Hkey.
  apply bind_Ok_inv in Hrun as ([] & Hpresent & Hrun).
  - apply bind_Ok_inv in Hrun as (m1 & H1 & Hrun).
    apply bind_Ok_inv in Hrun as (m2 & H2 & H3).
    rewrite (merge_evaluation_key_summary _ _ _ _ key H3).
    rewrite !(merge_evaluation_key_summary _ _ _ _ _ H2).
    rewrite !(merge_evaluation_key_summary _ _ _ _ _ H1).
    unfold summary_keys in Hkey. simpl in Hkey.
    destruct Hkey as [<-|[<-|[<-|[]]]]; simpl; done.
  - injection Hrun as <-.
    unfold summary_field.
    by rewrite (contains_false_field _ _ Hpresent).
Qed.

(** A partial summary is never an error: with an evaluation dict on both
    sides, each guarded copy succeeds and leaves an evaluation dict behind. *)
Lemma merge_evaluation_key_succeeds (key : string) (metadata results : json)
    (t ev : dict) :
  field metadata "evaluation" = Some (JObj t) →
  field results "evaluation" = Some (JObj ev) →
  ∃ metadata' t',
    merge_evaluation_key key metadata results = Ok metadata'
    ∧ field metadata' "evaluation" = Some (JObj t').
Proof.
  intros (d & -> & Hd)%field_Some_inv (r & -> & Hr)%field_Some_inv.
  unfold merge_evaluation_key. simpl. rewrite Hr, bind_Ok_l. simpl.
  rewrite bind_Ok_l. destruct (dict_has ev key) eqn:Hhas.
  - apply dict_has_true in Hhas as [v Hv]. rewrite Hv, bind_Ok_l.
    unfold set_in. simpl. rewrite Hd, !bind_Ok_l. simpl.
    eexists _, _. split; [done|]. simpl. apply dict_get_set_eq.
  - eexists _, _. split; [done|]. simpl. exact Hd.
Qed.

Lemma merge_evaluation_succeeds (metadata results : json) (t ev : dict) :
  field metadata "evaluation" = Some (JObj t) →
  field results "evaluation" = Some (JObj ev) →
  ∃ metadata', merge_evaluation metadata results = Ok metadata'.
Proof.
  intros Hm Hr. unfold merge_evaluation.
  assert (Hpresent : contains "evaluation" results = Ok true).
  { apply field_Some_inv in Hr as (r & -> & Hr). simpl. unfold dict_has.
    by rewrite Hr. }
  rewrite Hpresent, bind_Ok_l.
  destruct (merge_evaluation_key_succeeds "best_diff" _ _ _ _ Hm Hr)
    as (m1 & t1 & -> & Hm1).
  rewrite bind_Ok_l.
  destruct (merge_evaluation_key_succeeds "preference_rationale" _ _ _ _ Hm1 Hr)
    as (m2 & t2 & -> & Hm2).
  rewrite bind_Ok_l.
  destruct (merge_evaluation_key_succeeds "improved_diff" _ _ _ _ Hm2 Hr)
    as (m3 & t3 & -> & _).
  eauto.
Qed.

Lemma merge_evaluation_absent (metadata results metadata' : json) :
  merge_evaluation metadata results = Ok metadata' →
  field results "evaluation" = None → metadata' = metadata.
Proof.
  unfold merge_evaluation. intros Hrun Habsent.
  apply bind_Ok_inv in Hrun as ([] & Hpresent & Hrun); [|by injection Hrun as <-].
  destruct results; simpl in *; try done.
  injection Hpresent as Hhas. apply dict_has_true in Hhas as [v Hv]. congruence.
Qed.

(** C7: each summary field of the metadata takes the value the result's
    evaluation object has for it, and keeps its own value when the result
    has none; without an evaluation object the section is untouched. *)
Theorem evaluation_merged_key_by_key (metadata results metadata' : json)
    (key : string) :
  merge_results metadata results = Ok metadata' →
  In key summary_keys →
  summary_field metadata' key
  = match summary_field results key with
    | Some v => Some v
    | None => summary_field metadata key
    end
  ∧ (field results "evaluation" = None →
     field metadata' "evaluation" = field metadata "evaluation").
Proof.
  unfold merge_results. intros Hrun Hkey.
  apply bind_Ok_inv in Hrun as (entries & _ & Hrun).
  apply bind_Ok_inv in Hrun as (items & _ & Hrun).
  apply bind_Ok_inv in Hrun as (m1 & Himpl & Heval).
  assert (Hsame : field m1 "evaluation" = field metadata "evaluation")
    by (by eapply merge_implementations_field).
  split.
  - rewrite (merge_evaluation_summary _ _ _ _ Heval Hkey).
    unfold summary_field. by rewrite Hsame.
  - intros Habsent. by rewrite (merge_evaluation_absent _ _ _ Heval Habsent).
Qed.

Lemma evaluation_merged_key_by_key_witness :
  summary_field (SampleTask.seeded "task-0") "best_diff" = Some (JInt 0)
  ∧ merge_results (SampleTask.seeded "task-0") SampleMerge.partial_results
    = Ok SampleMerge.chosen_second
  ∧ summary_field SampleMerge.chosen_second "best_diff" = Some (JInt 2)
  ∧ summary_field SampleMerge.chosen_second "preference_rationale" = Some (JStr "").
Proof.
  split; [reflexivity|]. split; [reflexivity|]. split.
  - apply (evaluation_merged_key_by_key (SampleTask.seeded "task-0")
             SampleMerge.partial_results SampleMerge.chosen_second "best_diff").
    + reflexivity.
    + simpl. tauto.
  - apply (evaluation_merged_key_by_key (SampleTask.seeded "task-0")
             SampleMerge.partial_results SampleMerge.chosen_second
             "preference_rationale").
    + reflexivity.
    + simpl. tauto.
Defined.

(** ** Incomplete score entries *)

(** The first of the three score fields that [entry] lacks. *)
Lemma merge_entry_incomplete (metadata : json) (entry : dict) (name : json) :
  dict_get entry "name" = Some name →
  dict_get entry "task_success" = None
  ∨ dict_get entry "instruction_following" = None
  ∨ dict_get entry "comment" = None →
  ∃ k, In k score_keys ∧ dict_get entry k = None
       ∧ merge_entry metadata (JObj entry) = Raise (KeyError (SKey k)).
Proof.
  intros Hname Hmissing. unfold merge_entry, score_keys. simpl. rewrite Hname. simpl.
  destruct (dict_get entry "task_success") as [a|] eqn:Ha; simpl;
    [|exists "task_success"; simpl; tauto].
  destruct (dict_get entry "instruction_following") as [b|] eqn:Hb; simpl;
    [|exists "instruction_following"; simpl; tauto].
  destruct (dict_get entry "comment") as [c|] eqn:Hc; simpl;
    [|exists "comment"; simpl; tauto].
  by destruct Hmissing as [|[|]].
Qed.

Lemma merge_implementations_app_raise (pre post : list json) (e : json)
    (metadata metadata1 : json) (x : exn) :
  merge_implementations metadata pre = Ok metadata1 →
  merge_entry metadata1 e = Raise x →
  merge_implementations metadata (pre ++ e :: post) = Raise x.
Proof.
  revert metadata. induction pre as [|p pre IH]; intros metadata Hpre He; simpl in *.
  - injection Hpre as ->. by rewrite He.
  - destruct (merge_entry metadata p) as [m|]; simpl in *; [by apply IH | done].
Qed.

Lemma merge_implementations_never_ok (pre post : list json) (e : json) (metadata : json) :
  (∀ m, ∃ x, merge_entry m e = Raise x) →
  ∃ x, merge_implementations metadata (pre ++ e :: post) = Raise x.
Proof.
  intros He. revert metadata. induction pre as [|p pre IH]; intros metadata; simpl.
  - destruct (He metadata) as [x ->]. eauto.
  - destruct (merge_entry metadata p) as [m|x]; simpl; [apply IH | eauto].
Qed.

Lemma merge_results_entries (metadata : json) (r : dict) (entries : list json) :
  dict_get r "implementations" = Some (JArr entries) →
  merge_results metadata (JObj r)
  = (metadata' <- merge_implementations metadata entries ;;
     merge_evaluation metadata' (JObj r)).
Proof. intros Hr. unfold merge_results. simpl. by rewrite Hr. Qed.

Section Incomplete.
Context `{Platform}.

(** C8: an evaluation result with an entry that lacks one of its three
    score fields makes the merge raise and write nothing; when the entries
    before it merge, the exception is the [KeyError] of the first field
    the entry lacks. *)
Theorem incomplete_entry_raises_key_error (task_folder : string) (r : dict)
    (pre post : list json) (entry : dict) (name : json) (w : world) :
  dict_get r "implementations" = Some (JArr (pre ++ JObj entry :: post)) →
  dict_get entry "name" = Some name →
  dict_get entry "task_success" = None
  ∨ dict_get entry "instruction_following" = None
  ∨ dict_get entry "comment" = None →
  (∃ x, update_metadata task_folder (JObj r) w = (Raise x, w))
  ∧ ∀ text metadata metadata1,
      files w !! os_path_join task_folder "metadata.json" = Some text →
      json_loads text = Decoded metadata →
      merge_implementations metadata pre = Ok metadata1 →
      ∃ k, In k score_keys ∧ dict_get entry k = None
           ∧ update_metadata task_folder (JObj r) w
             = (Raise (KeyError (SKey k)), w).
Proof.
  intros Hr Hname Hmissing. split.
  - destruct (update_metadata task_folder (JObj r) w) as [[[]|x] w'] eqn:Hrun.
    + apply update_metadata_ok in Hrun as (text & m & m' & _ & _ & Hmerge & _).
      rewrite (merge_results_entries _ _ _ Hr) in Hmerge.
      destruct (merge_implementations_never_ok pre post (JObj entry) m) as [x Hx].
      { intros m0.
        destruct (merge_entry_incomplete m0 entry name Hname Hmissing)
          as (k & _ & _ & ->). eauto. }
      by rewrite Hx in Hmerge.
    + apply update_metadata_raise in Hrun as ->. eauto.
  - intros text metadata metadata1 Hfile Hloads Hpre.
    destruct (merge_entry_incomplete metadata1 entry name Hname Hmissing)
      as (k & Hk & Hnone & Hraise).
    exists k. split; [done|]. split; [done|].
    unfold update_metadata.
    rewrite (bind_ok _ _ w w metadata) by (by apply (json_load_ok _ text)).
    apply bind_raise. unfold lift.
    rewrite (merge_results_entries _ _ _ Hr).
    by rewrite (merge_implementations_app_raise _ _ _ _ _ _ Hpre Hraise).
Qed.

End Incomplete.

Lemma incomplete_entry_raises_key_error_witness :
  update_metadata (H := Reference.platform [] "") "tasks/PROJ-7"
    (JObj SampleMerge.incomplete_fields) SampleMerge.bootstrapped
  = (Raise (KeyError (SKey "comment")), SampleMerge.bootstrapped).
Proof.
  destruct (proj2 (incomplete_entry_raises_key_error
                     (H := Reference.platform [] "") "tasks/PROJ-7"
                     SampleMerge.incomplete_fields
                     [SampleMerge.entry "impl_1" 4 5 "clean";
                      SampleMerge.entry "impl_2" 2 3 "partial"]
                     [SampleMerge.entry "impl_4" 1 2 "broken"]
                     SampleMerge.incomplete_entry (JStr "impl_3")
                     SampleMerge.bootstrapped
                     eq_refl eq_refl (or_intror (or_intror eq_refl)))
                  (Reference.dumps (SampleTask.seeded "task-0"))
                  (SampleTask.seeded "task-0") SampleMerge.half_scored
                  ltac:(vm_compute; reflexivity) ltac:(vm_compute; reflexivity)
                  ltac:(vm_compute; reflexivity))
    as (k & Hk & Hnone & Hrun).
  refine (eq_trans Hrun _). do 3 f_equal.
  destruct Hk as [<-|[<-|[<-|[]]]]; [discriminate Hnone | discriminate Hnone | done].
Defined.

(** ** Scores and slots *)

Lemma elem_of_held (k : string) (slot : json) :
  k ∈ held slot ↔ has_key k slot = true ∧ k ∈ diff_keys.
Proof.
  unfold held. rewrite list_elem_of_filter. by rewrite Is_true_true.
Qed.

Lemma impl_to_diff_range (name k : string) :
  dict_get impl_to_diff name = Some k → k ∈ diff_keys.
Proof.
  unfold impl_to_diff, diff_keys. cbn [dict_get].
  repeat (destruct (String.eqb _ name); [intros [= <-]; among|]). done.
Qed.

Lemma diff_key_not_score (k : string) :
  k ∈ diff_keys →
  k ≠ "task_success" ∧ k ≠ "instruction_following" ∧ k ≠ "comment".
Proof.
  unfold diff_keys. rewrite !elem_of_cons, elem_of_nil.
  intros [->|[->|[->|[->|[]]]]]; done.
Qed.

Lemma has_key_set_scores (k : string) (a b c slot : json) :
  k ∈ diff_keys → has_key k (set_scores a b c slot) = has_key k slot.
Proof.
  intros (H1 & H2 & H3)%diff_key_not_score. destruct slot; simpl; try done.
  rewrite !dict_has_set_ne; done.
Qed.

Lemma has_key_apply_entry (k : string) (entry slot : json) :
  k ∈ diff_keys → has_key k (apply_entry entry slot) = has_key k slot.
Proof.
  intros Hk. unfold apply_entry, with_scores.
  destruct (matches entry slot); [|done].
  destruct (field entry "task_success"); [|done].
  destruct (field entry "instruction_following"); [|done].
  destruct (field entry "comment"); [|done].
  by apply has_key_set_scores.
Qed.

Lemma held_apply_entry (entry slot : json) :
  held (apply_entry entry slot) = held slot.
Proof.
  unfold held, diff_keys. rewrite !filter_cons, !filter_nil.
  rewrite !has_key_apply_entry; [done|unfold diff_keys; among..].
Qed.

Lemma is_object_apply_entry (entry slot : json) :
  is_object slot → is_object (apply_entry entry slot).
Proof.
  unfold apply_entry, with_scores. destruct slot; simpl; try done. intros _.
  destruct (matches entry _); [|done].
  destruct (field entry "task_success"); [|done].
  destruct (field entry "instruction_following"); [|done].
  by destruct (field entry "comment").
Qed.

Lemma keyed_apply_entry (entry : json) (slots : list json) :
  keyed slots → keyed (apply_entry entry <$> slots).
Proof.
  intros (Hobj & Hone & Hnodup). split; [|split].
  - apply Forall_fmap. eapply Forall_impl; [exact Hobj|].
    intros s. apply is_object_apply_entry.
  - apply Forall_fmap. eapply Forall_impl; [exact Hone|].
    intros s. simpl. by rewrite held_apply_entry.
  - rewrite <- list_fmap_compose.
    rewrite (list_fmap_ext (held ∘ apply_entry entry) held slots); [done|].
    intros i s _. simpl. apply held_apply_entry.
Qed.

(** With each diff key held by one slot at most, the inner loop changes
    every slot that holds the key, that is the only one. *)
Lemma update_matching_keyed (k : string) (a b c : json) (slots : list json) :
  k ∈ diff_keys → Forall is_object slots → NoDup (mjoin (held <$> slots)) →
  update_matching k a b c slots
  = Ok ((λ slot, if has_key k slot then set_scores a b c slot else slot) <$> slots).
Proof.
  intros Hk Hobj. induction Hobj as [|slot rest Hslot Hrest IH]; intros Hnodup.
  - done.
  - destruct slot as [| | | | | |d]; try done. simpl in Hnodup |- *.
    apply NoDup_app in Hnodup as (_ & Hdisjoint & Hnodup).
    destruct (dict_has d k) eqn:Hhas; unfold bind, outcome_bind; simpl.
    + f_equal. f_equal. symmetry.
      rewrite <- (list_fmap_id rest) at 2. apply list_fmap_ext.
      intros i s Hs. simpl.
      destruct (has_key k s) eqn:Hks; [|done]. exfalso.
      apply (Hdisjoint k).
      * apply elem_of_held. by split.
      * apply list_elem_of_join. exists (held s). split.
        -- apply elem_of_held. by split.
        -- apply list_elem_of_fmap_2. by eapply list_elem_of_lookup_2.
    + by rewrite IH.
Qed.

Lemma complete_inv (entry : json) :
  complete entry →
  ∃ fields name a b c,
    entry = JObj fields
    ∧ dict_get fields "name" = Some name
    ∧ dict_get fields "task_success" = Some a
    ∧ dict_get fields "instruction_following" = Some b
    ∧ dict_get fields "comment" = Some c
    ∧ impl_to_diff_get name = Ok (entry_diff_key entry).
Proof.
  unfold complete, entry_diff_key. destruct entry as [| | | | | |fields]; try done.
  simpl. destruct (dict_get fields "name") as [name|] eqn:Hname; [|done].
  destruct name; try done;
    intros ([va Ha] & [vb Hb] & [vc Hc]); exists fields; eauto 10.
Qed.

Lemma merge_entry_keyed (d : dict) (slots : list json) (entry : json) :
  dict_get d "implementations" = Some (JArr slots) →
  keyed slots → complete entry →
  merge_entry (JObj d) entry
  = Ok (JObj (dict_set d "implementations" (JArr (apply_entry entry <$> slots)))).
Proof.
  intros Hd (Hobj & _ & Hnodup) Hentry.
  destruct (complete_inv _ Hentry)
    as (fields & name & a & b & c & -> & Hname & Ha & Hb & Hc & Hget).
  unfold merge_entry. simpl. rewrite Hname, Ha, Hb, Hc, !bind_Ok_l.
  rewrite Hget, bind_Ok_l.
  unfold apply_entry, matches, with_scores. simpl field. rewrite Ha, Hb, Hc.
  destruct (entry_diff_key (JObj fields)) as [k|] eqn:Hkey.
  - rewrite Hd, bind_Ok_l. unfold update_slots.
    assert (Hk : k ∈ diff_keys).
    { unfold entry_diff_key in Hkey. cbn [field] in Hkey. rewrite Hname in Hkey.
      destruct name; try done. by eapply impl_to_diff_range. }
    by rewrite (update_matching_keyed k a b c slots Hk Hobj Hnodup), !bind_Ok_l.
  - rewrite list_fmap_id. by rewrite dict_set_same.
Qed.

Lemma matches_held (entry slot : json) :
  matches entry slot = true →
  ∃ k, entry_diff_key entry = Some k ∧ k ∈ held slot.
Proof.
  unfold matches. destruct (entry_diff_key entry) as [k|] eqn:Hkey; [|done].
  intros Hhas. exists k. split; [done|]. apply elem_of_held. split; [done|].
  unfold entry_diff_key in Hkey.
  destruct (field entry "name") as [[]|]; try done. by eapply impl_to_diff_range.
Qed.

Lemma matches_apply_entry (e entry slot : json) :
  matches e (apply_entry entry slot) = matches e slot.
Proof.
  unfold matches. destruct (entry_diff_key e) as [k|] eqn:Hkey; [|done].
  apply has_key_apply_entry.
  unfold entry_diff_key in Hkey.
  destruct (field e "name") as [[]|]; try done. by eapply impl_to_diff_range.
Qed.

(** Merging the first entry and placing the others is placing them all. *)
Lemma place_apply_entry (entry : json) (entries : list json) (slot : json) :
  (length (held slot) ≤ 1)%nat →
  NoDup (omap entry_diff_key (entry :: entries)) →
  place entries (apply_entry entry slot) = place (entry :: entries) slot.
Proof.
  intros Hone Hnodup. unfold place at 2. simpl List.find.
  destruct (matches entry slot) eqn:Hm.
  - unfold place.
    destruct (List.find _ entries) as [e|] eqn:Hfind.
    + exfalso. apply find_some in Hfind as [He Hmatch].
      rewrite matches_apply_entry in Hmatch.
      apply matches_held in Hm as (k & Hk & Hheld).
      apply matches_held in Hmatch as (k' & Hk' & Hheld').
      assert (k' = k) as ->.
      { destruct (held slot) as [|x [|y l]]; simpl in Hone; [| |lia].
        - by apply elem_of_nil in Hheld.
        - apply list_elem_of_singleton in Hheld, Hheld'. congruence. }
      simpl in Hnodup. rewrite Hk in Hnodup.
      apply NoDup_cons in Hnodup as [Hfresh _]. apply Hfresh.
      apply list_elem_of_omap. exists e. split; [by apply list_elem_of_In | done].
    + unfold apply_entry. by rewrite Hm.
  - unfold apply_entry. by rewrite Hm.
Qed.

Lemma entry_diff_key_inj (entries : list json) (e e' : json) (k : string) :
  NoDup (omap entry_diff_key entries) →
  e ∈ entries → e' ∈ entries →
  entry_diff_key e = Some k → entry_diff_key e' = Some k → e = e'.
Proof.
  induction entries as [|x entries IH]; intros Hnodup He He' Hk Hk'.
  - by apply elem_of_nil in He.
  - simpl in Hnodup.
    assert (Hfresh : ∀ y, entry_diff_key x = Some k → y ∈ entries →
                          entry_diff_key y = Some k → False).
    { intros y Hx Hy Hyk. rewrite Hx in Hnodup.
      apply NoDup_cons in Hnodup as [Hnotin _]. apply Hnotin.
      apply list_elem_of_omap. eauto. }
    assert (Htail : NoDup (omap entry_diff_key entries)).
    { destruct (entry_diff_key x); [|done]. by apply NoDup_cons in Hnodup as [_ ?]. }
    apply elem_of_cons in He as [->|He]; apply elem_of_cons in He' as [->|He'].
    + done.
    + by destruct (Hfresh e' Hk He' Hk').
    + by destruct (Hfresh e Hk' He Hk).
    + by apply IH.
Qed.

(** What [place] gives a slot that some entry matches, and one that none
    matches. *)
Lemma place_matching (entries : list json) (entry slot : json) :
  (length (held slot) ≤ 1)%nat →
  NoDup (omap entry_diff_key entries) →
  entry ∈ entries → matches entry slot = true →
  place entries slot = with_scores entry slot.
Proof.
  intros Hone Hnodup Hentry Hm. unfold place.
  destruct (List.find _ entries) as [e|] eqn:Hfind.
  - apply find_some in Hfind as [He Hmatch].
    apply matches_held in Hm as (k & Hk & Hheld).
    apply matches_held in Hmatch as (k' & Hk' & Hheld').
    assert (k' = k) as ->.
    { destruct (held slot) as [|x [|y l]]; simpl in Hone; [| |lia].
      - by apply elem_of_nil in Hheld.
      - apply list_elem_of_singleton in Hheld, Hheld'. congruence. }
    apply list_elem_of_In in He.
    by rewrite (entry_diff_key_inj entries e entry k).
  - apply list_elem_of_In in Hentry.
    by rewrite (find_none _ _ Hfind entry Hentry) in Hm.
Qed.

Lemma place_unmatched (entries : list json) (slot : json) :
  (∀ entry, entry ∈ entries → matches entry slot = false) →
  place entries slot = slot.
Proof.
  intros Hnone. unfold place.
  destruct (List.find _ entries) as [e|] eqn:Hfind; [|done].
  apply find_some in Hfind as [He Hmatch].
  apply list_elem_of_In in He. by rewrite (Hnone e He) in Hmatch.
Qed.

Lemma merge_implementations_keyed (entries : list json) (d : dict) (slots : list json) :
  dict_get d "implementations" = Some (JArr slots) →
  keyed slots → Forall complete entries →
  NoDup (omap entry_diff_key entries) →
  merge_implementations (JObj d) entries
  = Ok (JObj (dict_set d "implementations" (JArr (place entries <$> slots)))).
Proof.
  intros Hd Hkeyed Hentries. revert d slots Hd Hkeyed.
  induction Hentries as [|entry entries Hentry Hentries IH];
    intros d slots Hd Hkeyed Hnodup; simpl.
  - rewrite (list_fmap_ext (place []) id slots) by done.
    by rewrite list_fmap_id, dict_set_same.
  - rewrite (merge_entry_keyed d slots entry Hd Hkeyed Hentry), bind_Ok_l.
    rewrite (IH _ (apply_entry entry <$> slots)).
    + rewrite dict_set_set. do 4 f_equal.
      rewrite <- list_fmap_compose. apply Forall_fmap_ext_1.
      destruct Hkeyed as (_ & Hone & _).
      eapply Forall_impl; [exact Hone|]. intros s Hs. simpl.
      by apply place_apply_entry.
    + apply dict_get_set_eq.
    + by apply keyed_apply_entry.
    + simpl in Hnodup. destruct (entry_diff_key entry); [|done].
      by apply NoDup_cons in Hnodup as [_ ?].
Qed.

Lemma merge_evaluation_field (metadata results metadata' : json) (k : string) :
  merge_evaluation metadata results = Ok metadata' →
  k ≠ "evaluation" → field metadata' k = field metadata k.
Proof.
  unfold merge_evaluation. intros Hrun Hk.
  apply bind_Ok_inv in Hrun as ([] & _ & Hrun); [|by injection Hrun as <-].
  apply bind_Ok_inv in Hrun as (m1 & H1 & Hrun).
  apply bind_Ok_inv in Hrun as (m2 & H2 & H3).
  rewrite (merge_evaluation_key_field _ _ _ _ k H3 Hk).
  rewrite (merge_evaluation_key_field _ _ _ _ k H2 Hk).
  by rewrite (merge_evaluation_key_field _ _ _ _ k H1 Hk).
Qed.

Lemma with_scores_fields (entry slot : json) :
  complete entry → is_object slot →
  (∀ key, In key score_keys →
          is_Some (field entry key)
          ∧ field (with_scores entry slot) key = field entry key)
  ∧ (∀ key, ¬ In key score_keys → field (with_scores entry slot) key = field slot key).
Proof.
  intros Hentry Hslot.
  destruct (complete_inv _ Hentry)
    as (fields & name & a & b & c & -> & _ & Ha & Hb & Hc & _).
  destruct slot as [| | | | | |d]; try done.
  unfold with_scores, set_scores. cbn [field]. rewrite Ha, Hb, Hc.
  cbn [field]. split.
  - intros key [<-|[<-|[<-|[]]]].
    + rewrite Ha. split; [eauto|].
      rewrite !dict_get_set_ne by done. apply dict_get_set_eq.
    + rewrite Hb. split; [eauto|].
      rewrite dict_get_set_ne by done. apply dict_get_set_eq.
    + rewrite Hc. split; [eauto|]. apply dict_get_set_eq.
  - intros key Hkey. simpl in Hkey.
    rewrite !dict_get_set_ne; [done|intros <-; tauto..].
Qed.

Lemma place_frame (entries : list json) (slot : json) (key : string) :
  ¬ In key score_keys → field (place entries slot) key = field slot key.
Proof.
  intros Hkey. unfold place. destruct (List.find _ entries) as [entry|]; [|done].
  unfold with_scores.
  destruct (field entry "task_success"); [|done].
  destruct (field entry "instruction_following"); [|done].
  destruct (field entry "comment"); [|done].
  destruct slot as [| | | | | |d]; try done.
  unfold set_scores. cbn [field]. simpl in Hkey.
  rewrite !dict_get_set_ne; [done|intros <-; tauto..].
Qed.

(** C4: with the slots keyed by the diff keys in any order and complete
    entries for distinct diff keys, the loop of the merge returns a record
    whose slots stand where they stood.  Read back by lookup, the slot that
    holds the diff key an entry's name maps to has the two scores and the
    comment of that entry, wherever the slot stands, and every other field
    as before; a slot that holds no entry's diff key is unchanged; every
    other field of the record is unchanged.  An entry that matches no slot
    (its name maps to no diff key, or no slot holds that key) is passed
    over, the metadata unchanged. *)
Theorem scores_land_in_matching_slot (d : dict) (slots entries : list json) :
  dict_get d "implementations" = Some (JArr slots) →
  keyed slots →
  Forall complete entries →
  NoDup (omap entry_diff_key entries) →
  ∃ metadata' slots',
    merge_implementations (JObj d) entries = Ok metadata'
    ∧ field metadata' "implementations" = Some (JArr slots')
    ∧ (∀ k, k ≠ "implementations" → field metadata' k = dict_get d k)
    ∧ length slots' = length slots
    ∧ (∀ i slot slot',
         slots !! i = Some slot → slots' !! i = Some slot' →
         (∀ key, ¬ In key score_keys → field slot' key = field slot key)
         ∧ (∀ entry name k,
              entry ∈ entries →
              field entry "name" = Some (JStr name) →
              dict_get impl_to_diff name = Some k →
              has_key k slot = true →
              ∀ key, In key score_keys →
                     is_Some (field entry key)
                     ∧ field slot' key = field entry key)
         ∧ ((∀ entry k, entry ∈ entries → entry_diff_key entry = Some k →
                        has_key k slot = false) →
            slot' = slot))
    ∧ (∀ results merged,
         field results "implementations" = Some (JArr entries) →
         merge_results (JObj d) results = Ok merged →
         field merged "implementations" = Some (JArr slots'))
    ∧ (∀ entry,
         complete entry →
         (∀ slot k, slot ∈ slots → entry_diff_key entry = Some k →
                    has_key k slot = false) →
         merge_entry (JObj d) entry = Ok (JObj d)).
Proof.
  intros Hd Hkeyed Hentries Hnodup.
  assert (Hloop := merge_implementations_keyed entries d slots Hd Hkeyed Hentries Hnodup).
  assert (Hunmatched : ∀ entry slot,
            (∀ k, entry_diff_key entry = Some k → has_key k slot = false) →
            matches entry slot = false).
  { intros entry slot Hno. unfold matches.
    destruct (entry_diff_key entry) as [k|]; [by apply Hno | done]. }
  exists (JObj (dict_set d "implementations" (JArr (place entries <$> slots)))),
    (place entries <$> slots).
  split; [done|]. split; [apply dict_get_set_eq|]. split.
  { intros k Hk. cbn [field]. by apply dict_get_set_ne. }
  split; [apply length_fmap|]. split.
  { intros i slot slot' Hslot Hslot'.
    rewrite list_lookup_fmap, Hslot in Hslot'. injection Hslot' as <-.
    destruct Hkeyed as (Hobj & Hone & _).
    assert (Hin : slot ∈ slots) by (by eapply list_elem_of_lookup_2).
    split; [intros key Hkey; by apply place_frame|]. split.
    - intros entry name k Hentry Hname Hk Hhas key Hkey.
      assert (Hm : matches entry slot = true).
      { unfold matches, entry_diff_key. by rewrite Hname, Hk. }
      rewrite (place_matching entries entry slot); [|
        by apply (proj1 (Forall_forall _ _) Hone) | done..].
      apply with_scores_fields; [|by apply (proj1 (Forall_forall _ _) Hobj)|done].
      by apply (proj1 (Forall_forall _ _) Hentries).
    - intros Hno. apply place_unmatched. intros entry Hentry.
      apply Hunmatched. intros k Hk. by apply (Hno entry). }
  split.
  - intros results merged Hresults Hmerge.
    apply field_Some_inv in Hresults as (r & -> & Hr).
    rewrite (merge_results_entries _ _ _ Hr), Hloop in Hmerge. simpl in Hmerge.
    rewrite (merge_evaluation_field _ _ _ "implementations" Hmerge) by done.
    simpl. apply dict_get_set_eq.
  - intros entry Hentry Hnone.
    rewrite (merge_entry_keyed d slots entry Hd Hkeyed Hentry).
    rewrite (list_fmap_ext (apply_entry entry) id slots).
    + by rewrite list_fmap_id, dict_set_same.
    + intros i s Hs. unfold apply_entry.
      rewrite Hunmatched; [done|]. intros k Hk.
      apply (Hnone s k); [by eapply list_elem_of_lookup_2 | done].
Qed.

Lemma scores_land_in_matching_slot_witness :
  ∃ metadata',
    merge_implementations (JObj SampleSlots.metadata) SampleSlots.entries = Ok metadata'
    ∧ slot_field metadata' 0 "diff_3" = Some (JStr "")
    ∧ slot_field metadata' 0 "task_success" = Some (JInt 5)
    ∧ slot_field metadata' 0 "instruction_following" = Some (JInt 5)
    ∧ slot_field metadata' 0 "comment" = Some (JStr "best")
    ∧ slot_field metadata' 1 "diff_1" = Some (JStr "")
    ∧ slot_field metadata' 1 "task_success" = Some (JInt 4)
    ∧ slot_field metadata' 1 "instruction_following" = Some (JInt 5)
    ∧ slot_field metadata' 1 "comment" = Some (JStr "clean")
    ∧ slot_field metadata' 2 "diff_4" = Some (JStr "")
    ∧ slot_field metadata' 2 "task_success" = Some (JInt 1)
    ∧ slot_field metadata' 2 "instruction_following" = Some (JInt 2)
    ∧ slot_field metadata' 2 "comment" = Some (JStr "broken")
    ∧ slot_field metadata' 3 "diff_2" = Some (JStr "")
    ∧ slot_field metadata' 3 "task_success" = Some (JInt 2)
    ∧ slot_field metadata' 3 "instruction_following" = Some (JInt 3)
    ∧ slot_field metadata' 3 "comment" = Some (JStr "partial")
    ∧ field metadata' "task_id" = Some (JStr "task-0").
Proof.
  destruct (scores_land_in_matching_slot SampleSlots.metadata SampleMerge.shuffled
              SampleSlots.entries) as (metadata' & slots' & Hrun & _).
  - reflexivity.
  - split; [repeat constructor|]. split.
    + repeat (apply List.Forall_cons; [vm_compute; lia|]). apply List.Forall_nil.
    + vm_compute. repeat (apply NoDup_cons_2; [not_among|]). apply NoDup_nil_2.
  - repeat constructor; vm_compute; eauto.
  - vm_compute. repeat (apply NoDup_cons_2; [not_among|]). apply NoDup_nil_2.
  - exists metadata'. split; [exact Hrun|].
    vm_compute in Hrun. injection Hrun as <-. vm_compute. repeat split.
Defined.

(** * Further properties *)

(** ** The command loop as a whole *)

Section RunnerOutcome.
Context `{Platform}.

Lemma run_command_nonce (c : string) (w w' : world) (out : outcome unit) :
  run_command c w = (out, w') → nonce w' = nonce w.
Proof.
  destruct (subprocess_run c (files w, dirs w)) as [code [fs ds]] eqn:Hrun.
  destruct (Z.eq_dec code 0) as [->|Hcode].
  - rewrite (run_command_zero _ _ _ _ Hrun). by intros [= <- <-].
  - rewrite (run_command_nonzero _ _ _ _ _ Hrun Hcode). by intros [= <- <-].
Qed.

(** X1: the return codes decide the command loop.  When every command
    returns 0, each in the state its predecessor left, the loop completes
    and has spawned every command in order.  Otherwise it ends with exit
    status 1 at the first command that returns a non-zero code: the
    commands up to that one were spawned and no other, and the last line
    printed reports that code.  No identifier is drawn. *)
Theorem run_commands_outcome (cmds : list string) (w : world) :
  let out := (for_each cmds run_command w).1 in
  let w' := (for_each cmds run_command w).2 in
  nonce w' = nonce w
  ∧ match first_nonzero (return_codes cmds (files w, dirs w)) with
    | None => out = Ok tt ∧ spawned w' = spawned w ++ cmds
    | Some (n, code) =>
        out = Raise (SystemExit 1)
        ∧ spawned w' = spawned w ++ take (S n) cmds
        ∧ last (stdout w')
          = Some ("Error: Command failed with exit code " +:+ pretty code)
    end.
Proof.
  revert w. induction cmds as [|c cmds IH]; intros w; simpl.
  - split; [done|]. split; [done|]. by rewrite app_nil_r.
  - destruct (subprocess_run c (files w, dirs w)) as [code [fs ds]] eqn:Hrun.
    simpl. unfold bind, M_bind.
    destruct (Z.eqb_spec code 0) as [->|Hcode].
    + rewrite (run_command_zero _ _ _ _ Hrun).
      set (w1 := World fs ds _ _ _).
      destruct (IH w1) as [Hnonce Hrest]. split; [done|].
      change (files w1, dirs w1) with (fs, ds) in Hrest.
      destruct (first_nonzero (return_codes cmds (fs, ds))) as [[n failed]|].
      * destruct Hrest as (Hout & Hspawned & Hlast). split; [done|].
        split; [|done]. rewrite Hspawned. simpl. by rewrite <- app_assoc.
      * destruct Hrest as [Hout Hspawned]. split; [done|].
        rewrite Hspawned. simpl. by rewrite <- app_assoc.
    + rewrite (run_command_nonzero _ _ _ _ _ Hrun Hcode). simpl.
      split; [done|]. split; [done|]. split; [by rewrite take_0|].
      change [?a; ?b] with ([a] ++ [b]). rewrite app_assoc. apply last_snoc.
Qed.

End RunnerOutcome.

(** ** The report loader *)

Section Loader.
Context `{Platform}.

(** X2: with the four report files present, the loader returns their texts
    under the names impl_1 to impl_4, in that order, and changes nothing. *)
Theorem load_implementation_reports_ok (analysis_dir t1 t2 t3 t4 : string)
    (w : world) :
  files w !! report_path analysis_dir 1 = Some t1 →
  files w !! report_path analysis_dir 2 = Some t2 →
  files w !! report_path analysis_dir 3 = Some t3 →
  files w !! report_path analysis_dir 4 = Some t4 →
  load_implementation_reports analysis_dir w
  = (Ok [("impl_1", t1); ("impl_2", t2); ("impl_3", t3); ("impl_4", t4)], w).
Proof.
  intros H1 H2 H3 H4. unfold load_implementation_reports. cbn [load_reports].
  rewrite (bind_ok _ _ w w t1) by (by apply read_text_ok).
  rewrite (bind_ok _ _ w w t2) by (by apply read_text_ok).
  rewrite (bind_ok _ _ w w t3) by (by apply read_text_ok).
  rewrite (bind_ok _ _ w w t4) by (by apply read_text_ok).
  reflexivity.
Qed.



End Loader.

Lemma load_implementation_reports_ok_witness :
  load_implementation_reports
    SampleReports.analysis_dir SampleReports.reported
  = (Ok Sample.reports, SampleReports.reported).
Proof.
  apply (load_implementation_reports_ok
           SampleReports.analysis_dir "report 1" "report 2" "report 3" "report 4"
           SampleReports.reported);
    vm_compute; reflexivity.
Defined.


(** ** The judge invoker as a whole *)

Section JudgeOutcome.
Context `{Platform}.

(** X4: what leaves the judge invoker as an exception.  It raises exactly
    when the prompt cannot be built, when the model call raises, or when
    the decoder raises something that is not a [JSONDecodeError] (a
    [RecursionError] or a [ValueError]): the handler of line 181 names that
    one class only.  The exception is then the one raised there, and the
    state is as before: nothing is printed and no fallback is returned. *)
Theorem analyze_implementations_raises problem_description reports
    implementations include_improved_diff (e : exn) (w w' : world) :
  analyze_implementations problem_description reports implementations
    include_improved_diff w = (Raise e, w')
  ↔ w' = w
    ∧ (user_prompt problem_description reports implementations
         include_improved_diff = Raise e
       ∨ ∃ prompt,
           user_prompt problem_description reports implementations
             include_improved_diff = Ok prompt
           ∧ (llm_invoke [SystemMessage system_message; HumanMessage prompt]
              = Raise e
              ∨ ∃ reply,
                  llm_invoke [SystemMessage system_message; HumanMessage prompt]
                  = Ok reply
                  ∧ ((json_loads (json_text reply) = TooDeep
                      ∧ e = RecursionError)
                     ∨ ∃ msg, json_loads (json_text reply) = TooLong msg
                              ∧ e = ValueError msg))).
Proof.
  split.
  - unfold analyze_implementations, bind, M_bind, lift.
    destruct (user_prompt _ _ _ _) as [prompt|e0] eqn:Hprompt;
      [|intros [= <- <-]; split; [done | by left]].
    destruct (llm_invoke _) as [reply|e1] eqn:Hreply;
      [|intros [= <- <-]; split; [done|]; right; exists prompt; split; [done|];
        by left].
    rewrite parse_reply_json_text.
    destruct (json_loads (json_text reply)) as [v|msg| |msg] eqn:Hloads.
    + by intros [=].
    + rewrite on_decode_malformed. by intros [=].
    + intros [= <- <-]. split; [done|]. right. exists prompt. split; [done|].
      right. exists reply. split; [done|]. by left.
    + intros [= <- <-]. split; [done|]. right. exists prompt. split; [done|].
      right. exists reply. split; [done|]. right. by exists msg.
  - intros (-> & Hcases). unfold analyze_implementations, bind, M_bind, lift.
    destruct Hcases as [->|(prompt & -> & [->|(reply & -> & Hloads)])];
      [done..|].
    rewrite parse_reply_json_text.
    by destruct Hloads as [[-> ->]|(msg & -> & ->)].
Qed.

(** X5: a reply that has only one of the two braces is decoded whole: the
    span is taken only when both an opening and a closing brace occur. *)
Theorem parse_reply_one_sided (content : string) :
  has_char "{" content = false ∨ has_char "}" content = false →
  parse_reply content = on_decode content (json_loads content).
Proof.
  intros Hside. by rewrite parse_reply_json_text, json_text_one_sided.
Qed.

Lemma report_of_ok (reports : list (string * string)) (k text : string) :
  dict_get reports k = Some text → report_of reports k = Ok text.
Proof. intros Hk. unfold report_of. by rewrite Hk. Qed.

Lemma diff_of_ok (implementations : list json) (i : Z) (v : json) :
  0 ≤ i → implementations !! Z.to_nat i = Some v →
  diff_of implementations i = Ok (py_format v).
Proof.
  intros Hpos Hi. unfold diff_of, seq_index.
  destruct (Z.ltb_spec i 0); [lia|]. by rewrite Hi.
Qed.

Lemma report_of_missing (reports : list (string * string)) (k : string) :
  dict_get reports k = None → report_of reports k = Raise (KeyError (SKey k)).
Proof. intros Hk. unfold report_of. by rewrite Hk. Qed.

Lemma diff_of_missing (implementations : list json) (i : Z) :
  0 ≤ i → (length implementations ≤ Z.to_nat i)%nat →
  diff_of implementations i = Raise IndexError.
Proof.
  intros Hpos Hlen. unfold diff_of, seq_index.
  destruct (Z.ltb_spec i 0); [lia|]. by rewrite (lookup_ge_None_2 _ _ Hlen).
Qed.

(** X6: the prompt reads [reports['impl_1']], [implementations[0]],
    [reports['impl_2']], [implementations[1]] and so on, in that order.  It
    is built exactly when the reports have the four names and there are at
    least four diffs; otherwise the exception is that of the first read
    that fails: the [KeyError] of the first name the reports lack when the
    diffs before it are there, the [IndexError] of the first diff that is
    not there when the names up to its own are. *)
Theorem user_prompt_builds problem_description (reports : list (string * string))
    (implementations : list json) (include_improved_diff : bool) :
  ((∃ prompt,
      user_prompt problem_description reports implementations
        include_improved_diff = Ok prompt)
   ↔ (∀ k, In k ["impl_1"; "impl_2"; "impl_3"; "impl_4"] →
           is_Some (dict_get reports k))
     ∧ (4 ≤ length implementations)%nat)
  ∧ ∀ (n : nat) (k : string),
      ["impl_1"; "impl_2"; "impl_3"; "impl_4"] !! n = Some k →
      (∀ m k', (m < n)%nat →
               ["impl_1"; "impl_2"; "impl_3"; "impl_4"] !! m = Some k' →
               is_Some (dict_get reports k')) →
      (n ≤ length implementations)%nat →
      (dict_get reports k = None →
       user_prompt problem_description reports implementations
         include_improved_diff = Raise (KeyError (SKey k)))
      ∧ (is_Some (dict_get reports k) → length implementations = n →
         user_prompt problem_description reports implementations
           include_improved_diff = Raise IndexError).
Proof.
  split; [split|].
  - intros [prompt Hrun]. unfold user_prompt in Hrun.
    apply bind_Ok_inv in Hrun as (r1 & Hr1 & Hrun).
    apply bind_Ok_inv in Hrun as (d1 & Hd1 & Hrun).
    apply bind_Ok_inv in Hrun as (r2 & Hr2 & Hrun).
    apply bind_Ok_inv in Hrun as (d2 & Hd2 & Hrun).
    apply bind_Ok_inv in Hrun as (r3 & Hr3 & Hrun).
    apply bind_Ok_inv in Hrun as (d3 & Hd3 & Hrun).
    apply bind_Ok_inv in Hrun as (r4 & Hr4 & Hrun).
    apply bind_Ok_inv in Hrun as (d4 & Hd4 & _).
    split.
    + intros k Hk. simpl in Hk.
      unfold report_of in Hr1, Hr2, Hr3, Hr4.
      destruct Hk as [<-|[<-|[<-|[<-|[]]]]].
      * by destruct (dict_get reports "impl_1").
      * by destruct (dict_get reports "impl_2").
      * by destruct (dict_get reports "impl_3").
      * by destruct (dict_get reports "impl_4").
    + unfold diff_of, seq_index in Hd4. simpl in Hd4.
      change (Z.to_nat 3) with 3%nat in Hd4.
      destruct (implementations !! 3%nat) as [v|] eqn:Hv; [|done].
      apply lookup_lt_Some in Hv. lia.
  - intros [Hreports Hlen].
    destruct (Hreports "impl_1") as [r1 Hr1]; [simpl; tauto|].
    destruct (Hreports "impl_2") as [r2 Hr2]; [simpl; tauto|].
    destruct (Hreports "impl_3") as [r3 Hr3]; [simpl; tauto|].
    destruct (Hreports "impl_4") as [r4 Hr4]; [simpl; tauto|].
    destruct (lookup_lt_is_Some_2 implementations 0) as [v1 Hv1]; [lia|].
    destruct (lookup_lt_is_Some_2 implementations 1) as [v2 Hv2]; [lia|].
    destruct (lookup_lt_is_Some_2 implementations 2) as [v3 Hv3]; [lia|].
    destruct (lookup_lt_is_Some_2 implementations 3) as [v4 Hv4]; [lia|].
    unfold user_prompt.
    rewrite (report_of_ok _ _ _ Hr1), (report_of_ok _ _ _ Hr2),
      (report_of_ok _ _ _ Hr3), (report_of_ok _ _ _ Hr4).
    rewrite (diff_of_ok _ 0 v1 ltac:(lia) Hv1), (diff_of_ok _ 1 v2 ltac:(lia) Hv2),
      (diff_of_ok _ 2 v3 ltac:(lia) Hv3), (diff_of_ok _ 3 v4 ltac:(lia) Hv4).
    rewrite !bind_Ok_l. eauto.
  - intros n k Hk Hbefore Hlen.
    assert (Hread : ∀ m k', (m < n)%nat →
              ["impl_1"; "impl_2"; "impl_3"; "impl_4"] !! m = Some k' →
              ∃ r v, report_of reports k' = Ok r
                     ∧ diff_of implementations (Z.of_nat m) = Ok (py_format v)).
    { intros m k' Hm Hk'. destruct (Hbefore m k' Hm Hk') as [r Hr].
      destruct (lookup_lt_is_Some_2 implementations m) as [v Hv]; [lia|].
      exists r, v. split; [by apply report_of_ok|].
      apply diff_of_ok; [lia|]. by rewrite Nat2Z.id. }
    assert (Hlast : (∀ r, dict_get reports k = Some r →
                          report_of reports k = Ok r)
                    ∧ (dict_get reports k = None →
                       report_of reports k = Raise (KeyError (SKey k)))
                    ∧ (length implementations = n →
                       diff_of implementations (Z.of_nat n) = Raise IndexError)).
    { split; [apply report_of_ok|]. split; [apply report_of_missing|].
      intros Hn. apply diff_of_missing; [lia|]. rewrite Nat2Z.id. lia. }
    destruct Hlast as (Hok & Hmissing & Hshort).
    unfold user_prompt.
    destruct n as [|[|[|[|n]]]]; [| | | |done]; injection Hk as <-;
      [change (Z.of_nat 0) with 0 in Hshort | change (Z.of_nat 1) with 1 in Hshort
      | change (Z.of_nat 2) with 2 in Hshort | change (Z.of_nat 3) with 3 in Hshort].
    + split.
      * intros Hnone. by rewrite (Hmissing Hnone).
      * intros [r Hr] Hn. by rewrite (Hok r Hr), bind_Ok_l, (Hshort Hn).
    + destruct (Hread 0%nat "impl_1") as (r1 & v1 & Hr1 & Hd1); [lia|done|].
      change (Z.of_nat 0) with 0 in Hd1.
      rewrite Hr1, Hd1, !bind_Ok_l. split.
      * intros Hnone. by rewrite (Hmissing Hnone).
      * intros [r Hr] Hn. by rewrite (Hok r Hr), bind_Ok_l, (Hshort Hn).
    + destruct (Hread 0%nat "impl_1") as (r1 & v1 & Hr1 & Hd1); [lia|done|].
      destruct (Hread 1%nat "impl_2") as (r2 & v2 & Hr2 & Hd2); [lia|done|].
      change (Z.of_nat 0) with 0 in Hd1. change (Z.of_nat 1) with 1 in Hd2.
      rewrite Hr1, Hd1, Hr2, Hd2, !bind_Ok_l. split.
      * intros Hnone. by rewrite (Hmissing Hnone).
      * intros [r Hr] Hn. by rewrite (Hok r Hr), bind_Ok_l, (Hshort Hn).
    + destruct (Hread 0%nat "impl_1") as (r1 & v1 & Hr1 & Hd1); [lia|done|].
      destruct (Hread 1%nat "impl_2") as (r2 & v2 & Hr2 & Hd2); [lia|done|].
      destruct (Hread 2%nat "impl_3") as (r3 & v3 & Hr3 & Hd3); [lia|done|].
      change (Z.of_nat 0) with 0 in Hd1. change (Z.of_nat 1) with 1 in Hd2.
      change (Z.of_nat 2) with 2 in Hd3.
      rewrite Hr1, Hd1, Hr2, Hd2, Hr3, Hd3, !bind_Ok_l. split.
      * intros Hnone. by rewrite (Hmissing Hnone).
      * intros [r Hr] Hn. by rewrite (Hok r Hr), bind_Ok_l, (Hshort Hn).
Qed.

End JudgeOutcome.

Lemma analyze_implementations_raises_witness :
  analyze_implementations (H := Reference.platform [] SampleEndToEnd.deep_reply)
    (JStr "Fix the retry loop") Sample.reports Sample.implementations false
    Sample.start
  = (Raise RecursionError, Sample.start)
  ∧ analyze_implementations
      (H := Reference.host [] (Raise (LibraryError "openai.APIConnectionError")))
      (JStr "Fix the retry loop") Sample.reports Sample.implementations false
      Sample.start
    = (Raise (LibraryError "openai.APIConnectionError"), Sample.start).
Proof.
  split.
  - apply (proj2 (analyze_implementations_raises
                    (H := Reference.platform [] SampleEndToEnd.deep_reply)
                    (JStr "Fix the retry loop") Sample.reports
                    Sample.implementations false RecursionError
                    Sample.start Sample.start)).
    split; [reflexivity|]. right. exists SampleReplies.user_message.
    split; [vm_compute; reflexivity|]. right. exists SampleEndToEnd.deep_reply.
    split; [reflexivity|]. left. split; [vm_compute; reflexivity | reflexivity].
  - apply (proj2 (analyze_implementations_raises
                    (H := Reference.host []
                            (Raise (LibraryError "openai.APIConnectionError")))
                    (JStr "Fix the retry loop") Sample.reports
                    Sample.implementations false
                    (LibraryError "openai.APIConnectionError")
                    Sample.start Sample.start)).
    split; [reflexivity|]. right. exists SampleReplies.user_message.
    split; [vm_compute; reflexivity|]. by left.
Defined.

Lemma user_prompt_builds_witness :
  user_prompt (H := Reference.platform [] "") (JStr "Fix the retry loop")
    [("impl_1", "report 1"); ("impl_3", "report 3")] [JStr "diff 1"] false
  = Raise (KeyError (SKey "impl_2"))
  ∧ user_prompt (H := Reference.platform [] "") (JStr "Fix the retry loop")
      [("impl_1", "report 1"); ("impl_3", "report 3")] [] false
    = Raise IndexError.
Proof.
  split.
  - apply (proj2 (user_prompt_builds (H := Reference.platform [] "")
                    (JStr "Fix the retry loop")
                    [("impl_1", "report 1"); ("impl_3", "report 3")]
                    [JStr "diff 1"] false) 1%nat "impl_2").
    + reflexivity.
    + intros m k' Hm Hk'. destruct m as [|m]; [|lia].
      injection Hk' as <-. by eexists.
    + simpl. lia.
    + reflexivity.
  - apply (proj2 (user_prompt_builds (H := Reference.platform [] "")
                    (JStr "Fix the retry loop")
                    [("impl_1", "report 1"); ("impl_3", "report 3")]
                    [] false) 0%nat "impl_1").
    + reflexivity.
    + intros m k' Hm. lia.
    + simpl. lia.
    + by eexists.
    + reflexivity.
Defined.

Lemma parse_reply_one_sided_witness :
  parse_reply (H := Reference.platform [] SampleReports.one_sided_reply)
    SampleReports.one_sided_reply Sample.start
  = (Ok (JStr "{ pending"), Sample.start).
Proof.
  rewrite (parse_reply_one_sided (H := Reference.platform [] SampleReports.one_sided_reply)
             SampleReports.one_sided_reply (or_intror eq_refl)).
  vm_compute. reflexivity.
Defined.

(** ** The task bootstrapper, first run and failures *)

Lemma os_path_join_file_longer (a : string) :
  str_len a < str_len (os_path_join a "metadata.json").
Proof.
  unfold os_path_join. simpl starts_with. cbv iota.
  destruct (String.eqb a "" || ends_with_sep a); rewrite !str_len_app;
    change (str_len "metadata.json") with 13; [lia|].
  change (str_len "/") with 1. lia.
Qed.

Lemma os_path_join_file_ne (a : string) : os_path_join a "metadata.json" ≠ a.
Proof.
  intros Heq. pose proof (os_path_join_file_longer a) as Hlt.
  rewrite Heq in Hlt. lia.
Qed.

Lemma ancestors_from_plain (seen rest : string) :
  has_char "/" rest = false → ancestors_from seen rest = [].
Proof.
  revert seen. induction rest as [|c rest IH]; intros seen; [done|].
  cbn [has_char ancestors_from]. intros [Hc Hrest]%orb_false_iff.
  rewrite Hc. cbn [andb]. by apply IH.
Qed.

Lemma plain_name_inv (s : string) :
  plain_name s = true → s ≠ "" ∧ has_char "/" s = false.
Proof.
  unfold plain_name. rewrite !andb_true_iff, !negb_true_iff.
  intros (((((Hne & _) & _) & Hsep) & _) & _). split; [|done].
  intros ->. done.
Qed.

Lemma os_path_join_tasks (name : string) :
  has_char "/" name = false → os_path_join "tasks" name = "tasks/" +:+ name.
Proof.
  intros Hsep. unfold os_path_join.
  assert (Hstart : starts_with "/" name = false).
  { destruct name as [|c name]; [done|]. cbn [has_char] in Hsep.
    apply orb_false_iff in Hsep as [Hc _]. cbn [starts_with].
    by rewrite Ascii.eqb_sym, Hc. }
  rewrite Hstart. reflexivity.
Qed.

Lemma append_empty_r (s : string) : s +:+ "" = s.
Proof. induction s as [|c s IH]; [done|]. by rewrite append_step, IH. Qed.

Lemma ancestors_from_skip (seen name rest : string) :
  has_char "/" name = false →
  ancestors_from seen (name +:+ rest) = ancestors_from (seen +:+ name) rest.
Proof.
  revert seen. induction name as [|c name IH]; intros seen.
  - intros _. by rewrite append_empty, append_empty_r.
  - cbn [has_char]. intros [Hc Hname]%orb_false_iff.
    rewrite append_step. cbn [ancestors_from]. rewrite Hc. cbn [andb].
    rewrite (IH _ Hname). f_equal.
    by rewrite append_assoc, append_step, append_empty.
Qed.

Lemma ancestors_task_folder (name : string) :
  has_char "/" name = false → ancestors ("tasks/" +:+ name) = ["tasks"].
Proof.
  intros Hsep. unfold ancestors.
  change ("tasks/" +:+ name) with ("tasks" +:+ String "/" name).
  rewrite ancestors_from_skip by reflexivity. rewrite append_empty.
  cbn [ancestors_from].
  change (Ascii.eqb "/" "/" && negb (String.eqb "tasks" "")
          && negb (ends_with_sep "tasks")) with true.
  cbv iota. by rewrite ancestors_from_plain.
Qed.

Lemma ends_with_sep_plain (s : string) :
  has_char "/" s = false → ends_with_sep s = false.
Proof.
  induction s as [|c s IH]; [done|]. cbn [has_char].
  intros [Hc Hs]%orb_false_iff. cbn [ends_with_sep].
  destruct s; [done | by apply IH].
Qed.

Lemma ends_with_sep_app (x name : string) :
  name ≠ "" → has_char "/" name = false → ends_with_sep (x +:+ name) = false.
Proof.
  intros Hne Hsep. induction x as [|c x IH].
  - rewrite append_empty. by apply ends_with_sep_plain.
  - rewrite append_step. cbn [ends_with_sep].
    destruct (x +:+ name) as [|c' rest] eqn:Hrest; [|done].
    destruct x; [by rewrite append_empty in Hrest | by rewrite append_step in Hrest].
Qed.

Lemma ancestors_nested_folder (parent child : string) :
  parent ≠ "" → has_char "/" parent = false → has_char "/" child = false →
  ancestors ("tasks/" +:+ parent +:+ "/" +:+ child)
  = ["tasks"; "tasks/" +:+ parent].
Proof.
  intros Hne Hparent Hchild. unfold ancestors.
  change ("tasks/" +:+ parent +:+ "/" +:+ child)
    with ("tasks" +:+ String "/" (parent +:+ "/" +:+ child)).
  rewrite ancestors_from_skip by reflexivity. rewrite append_empty.
  cbn [ancestors_from].
  change (Ascii.eqb "/" "/" && negb (String.eqb "tasks" "")
          && negb (ends_with_sep "tasks")) with true.
  cbv iota. f_equal.
  rewrite ancestors_from_skip by done.
  change ("/" +:+ child) with (String "/" child). cbn [ancestors_from].
  change (("tasks" +:+ "/") +:+ parent) with ("tasks/" +:+ parent).
  rewrite (ends_with_sep_app "tasks/" parent Hne Hparent).
  change (Ascii.eqb "/" "/" && negb (String.eqb ("tasks/" +:+ parent) "")
          && negb false) with true.
  cbv iota. by rewrite ancestors_from_plain.
Qed.

Lemma os_path_join_tasks_nested (parent rest : string) :
  parent ≠ "" → has_char "/" parent = false →
  os_path_join "tasks" (parent +:+ rest) = "tasks/" +:+ parent +:+ rest.
Proof.
  intros Hne Hsep. unfold os_path_join.
  assert (Hstart : starts_with "/" (parent +:+ rest) = false).
  { destruct parent as [|c parent]; [done|]. cbn [has_char] in Hsep.
    apply orb_false_iff in Hsep as [Hc _]. rewrite append_step. cbn [starts_with].
    by rewrite Ascii.eqb_sym, Hc. }
  rewrite Hstart. reflexivity.
Qed.

Lemma os_makedirs_ok (name : string) (w : world) :
  plain_name name = true → "tasks" ∈ dirs w →
  files w !! os_path_join "tasks" name = None →
  os_makedirs (os_path_join "tasks" name) w
  = (Ok tt,
     World (files w) ({[os_path_join "tasks" name]} ∪ dirs w) (stdout w)
       (spawned w) (nonce w)).
Proof.
  intros [_ Hsep]%plain_name_inv Htasks Hfile. unfold os_makedirs.
  case_bool_decide as Hdir.
  - rewrite (subseteq_union_1_L {[os_path_join "tasks" name]} (dirs w))
      by (by apply singleton_subseteq_l).
    by destruct w.
  - rewrite Hfile. rewrite bool_decide_eq_false_2 by (by intros [? ?]).
    rewrite (os_path_join_tasks _ Hsep), (ancestors_task_folder _ Hsep).
    change (reverse ["tasks"]) with ["tasks"]. cbn [innermost].
    rewrite (bool_decide_eq_true_2 ("tasks" ∈ dirs w)) by done.
    rewrite orb_true_r. cbn [list_to_set foldr].
    rewrite (bool_decide_eq_true_2 ("tasks" ∈ dirs w)) by done.
    by rewrite (right_id_L ∅ (∪)).
Qed.

Section FirstRun.
Context `{Platform}.

Lemma os_path_exists_missing (p : string) (w : world) :
  files w !! p = None → p ∉ dirs w → os_path_exists p w = (Ok false, w).
Proof.
  intros Hfile Hdir. unfold os_path_exists. rewrite Hfile.
  rewrite bool_decide_eq_false_2 by (by intros [? ?]).
  by rewrite bool_decide_eq_false_2.
Qed.

(** X7: without the task-definition file the bootstrapper prints that it
    was not found and ends with exit status 1; nothing else changes. *)
Theorem missing_task_data_exits (task_data_path : string) (w : world) :
  files w !! task_data_path = None → task_data_path ∉ dirs w →
  create_task_folder_and_metadata task_data_path w
  = (Raise (SystemExit 1),
     World (files w) (dirs w)
       (stdout w ++ ["Error: " +:+ task_data_path +:+ " not found."])
       (spawned w) (nonce w)).
Proof.
  intros Hfile Hdir. unfold create_task_folder_and_metadata.
  rewrite (bind_ok _ _ w w false) by (by apply os_path_exists_missing).
  simpl negb. cbv iota.
  apply bind_raise. unfold bind, M_bind, print, sys_exit, raise. done.
Qed.

(** X8: a ticket identifier that is truthy but not a string (a number, say)
    makes the bootstrapper raise [TypeError] when it forms the folder path:
    no folder is made, no file written, nothing printed. *)
Theorem non_string_jira_id_raises (task_data_path text : string) (task_data : dict)
    (jira_id : json) (w : world) :
  files w !! task_data_path = Some text →
  json_loads text = Decoded (JObj task_data) →
  dict_get task_data "jira_id" = Some jira_id →
  truthy jira_id = true →
  (∀ s, jira_id ≠ JStr s) →
  create_task_folder_and_metadata task_data_path w = (Raise TypeError, w).
Proof.
  intros Hfile Hloads Hjira Htruthy Hstr. unfold create_task_folder_and_metadata.
  rewrite (bind_ok _ _ w w true) by (by apply (os_path_exists_file _ text)).
  simpl negb. cbv iota.
  rewrite (bind_ok _ _ w w tt) by done.
  rewrite (bind_ok _ _ w w (JObj task_data)) by (by apply (json_load_ok _ text)).
  rewrite (bind_ok _ _ w w jira_id)
    by (unfold lift, get_method; by rewrite Hjira).
  rewrite Htruthy. simpl negb. cbv iota.
  rewrite (bind_ok _ _ w w tt) by done.
  apply bind_raise. unfold lift, task_folder_of.
  destruct jira_id; try done. by destruct (Hstr s).
Qed.

(** The bootstrapper up to the point where it fills in the copy of the
    template. *)
Lemma bootstrapper_copies_template (task_data_path text jira_id template_text : string)
    (task_data : dict) (template : json) (w : world) :
  let task_folder := os_path_join "tasks" jira_id in
  let metadata_path := os_path_join task_folder "metadata.json" in
  files w !! task_data_path = Some text →
  json_loads text = Decoded (JObj task_data) →
  dict_get task_data "jira_id" = Some (JStr jira_id) →
  plain_name jira_id = true → "tasks" ∈ dirs w →
  files w !! task_folder = None → metadata_path ∉ dirs w →
  files w !! "tasks/metadata_base.json" = Some template_text →
  json_loads template_text = Decoded template →
  create_task_folder_and_metadata task_data_path w
  = (metadata' <- lift (populate template (JObj task_data) (uuid4 (nonce w))) ;;
     json_dump metadata' metadata_path ;;
     print ("Updated metadata.json in " +:+ task_folder +:+ " with task_id: "
            +:+ uuid4 (nonce w)) ;;
     ret task_folder)
      (World (<[metadata_path := template_text]> (files w))
         ({[task_folder]} ∪ dirs w)
         (stdout w ++ ["Created folder: " +:+ task_folder;
                       "Copied metadata_base.json to " +:+ task_folder])
         (spawned w) (S (nonce w))).
Proof.
  intros task_folder metadata_path Hfile Hloads Hjira Hplain Htasks Hnofile Hnodir
    Htmpl Htemplate.
  unfold create_task_folder_and_metadata.
  fold task_folder. fold metadata_path.
  rewrite (bind_ok _ _ w w true) by (by apply (os_path_exists_file _ text)).
  simpl negb. cbv iota.
  rewrite (bind_ok _ _ w w tt) by done.
  rewrite (bind_ok _ _ w w (JObj task_data)) by (by apply (json_load_ok _ text)).
  rewrite (bind_ok _ _ w w (JStr jira_id))
    by (unfold lift, get_method; by rewrite Hjira).
  assert (Htruthy : truthy (JStr jira_id) = true).
  { destruct (plain_name_inv _ Hplain) as [Hne _].
    simpl. destruct (String.eqb_spec jira_id ""); done. }
  rewrite Htruthy. simpl negb. cbv iota.
  rewrite (bind_ok _ _ w w tt) by done.
  rewrite (bind_ok _ _ w w task_folder) by done.
  set (w0 := World (files w) ({[task_folder]} ∪ dirs w) (stdout w)
               (spawned w) (nonce w)).
  rewrite (bind_ok _ _ w w0 tt) by (by apply os_makedirs_ok).
  set (w1 := World (files w) ({[task_folder]} ∪ dirs w)
               (stdout w ++ ["Created folder: " +:+ task_folder])
               (spawned w) (nonce w)).
  rewrite (bind_ok _ _ w0 w1 tt) by done.
  set (w2 := World (<[metadata_path := template_text]> (files w))
               ({[task_folder]} ∪ dirs w) (stdout w1) (spawned w) (nonce w)).
  rewrite (bind_ok _ _ w1 w2 tt).
  2:{ unfold shutil_copyfile.
      rewrite (bind_ok _ _ w1 w1 template_text) by (by apply read_text_ok).
      apply write_text_ok. simpl. intros [Hin|Hin]%elem_of_union; [|done].
      apply elem_of_singleton in Hin. by apply os_path_join_file_ne in Hin. }
  set (w3 := World (files w2) (dirs w2)
               (stdout w1 ++ ["Copied metadata_base.json to " +:+ task_folder])
               (spawned w) (nonce w)).
  rewrite (bind_ok _ _ w2 w3 tt) by done.
  rewrite (bind_ok _ _ w3 w3 template).
  2:{ apply (json_load_ok _ template_text); [|done].
      simpl. apply lookup_insert_eq. }
  set (w4 := World (files w2) (dirs w2) (stdout w3) (spawned w) (S (nonce w))).
  rewrite (bind_ok _ _ w3 w4 (uuid4 (nonce w))) by done.
  unfold w4, w3, w2, w1. simpl. by rewrite <- app_assoc.
Qed.

(** X9: for a ticket identifier that is a plain name, with [tasks] a
    directory, the bootstrapper ends with the task folder among the
    directories, whether or not it was there, and the metadata file written
    from the template, the task data and a fresh identifier; every other
    file is as before, and three lines are printed. *)
Theorem bootstrapper_seeds_task (task_data_path text jira_id template_text : string)
    (task_data : dict) (template metadata : json) (w : world) :
  let task_folder := os_path_join "tasks" jira_id in
  let metadata_path := os_path_join task_folder "metadata.json" in
  files w !! task_data_path = Some text →
  json_loads text = Decoded (JObj task_data) →
  dict_get task_data "jira_id" = Some (JStr jira_id) →
  plain_name jira_id = true → "tasks" ∈ dirs w →
  files w !! task_folder = None → metadata_path ∉ dirs w →
  files w !! "tasks/metadata_base.json" = Some template_text →
  json_loads template_text = Decoded template →
  populate template (JObj task_data) (uuid4 (nonce w)) = Ok metadata →
  create_task_folder_and_metadata task_data_path w
  = (Ok task_folder,
     World (<[metadata_path := json_dumps metadata]> (files w))
       ({[task_folder]} ∪ dirs w)
       (stdout w
        ++ ["Created folder: " +:+ task_folder;
            "Copied metadata_base.json to " +:+ task_folder;
            "Updated metadata.json in " +:+ task_folder +:+ " with task_id: "
              +:+ uuid4 (nonce w)])
       (spawned w) (S (nonce w))).
Proof.
  intros task_folder metadata_path Hfile Hloads Hjira Hplain Htasks Hnofile Hnodir
    Htmpl Htemplate Hpopulate.
  rewrite (bootstrapper_copies_template _ text jira_id template_text task_data template)
    by done.
  fold task_folder. fold metadata_path.
  set (w4 := World _ _ _ _ _).
  rewrite (bind_ok _ _ w4 w4 metadata) by (unfold lift; by rewrite Hpopulate).
  set (w5 := World (<[metadata_path := json_dumps metadata]> (files w))
               (dirs w4) (stdout w4) (spawned w) (S (nonce w))).
  rewrite (bind_ok _ _ w4 w5 tt).
  2:{ unfold json_dump. rewrite write_text_ok.
      - unfold w5, w4. simpl. by rewrite insert_insert_eq.
      - unfold w4. simpl. intros [Hin|Hin]%elem_of_union; [|done].
        apply elem_of_singleton in Hin. by apply os_path_join_file_ne in Hin. }
  unfold bind, M_bind, print, ret, w5, w4. simpl.
  by rewrite <- !app_assoc.
Qed.

(** X10: there is no rollback: when the copy of the template cannot be
    filled in (the ticket identifier a plain name, [tasks] a directory),
    the bootstrapper raises with the task folder made, an identifier drawn
    and the metadata file left as the raw copy of the template. *)
Theorem bootstrapper_leaves_template_copy
    (task_data_path text jira_id template_text : string)
    (task_data : dict) (template : json) (e : exn) (w : world) :
  let task_folder := os_path_join "tasks" jira_id in
  let metadata_path := os_path_join task_folder "metadata.json" in
  files w !! task_data_path = Some text →
  json_loads text = Decoded (JObj task_data) →
  dict_get task_data "jira_id" = Some (JStr jira_id) →
  plain_name jira_id = true → "tasks" ∈ dirs w →
  files w !! task_folder = None → metadata_path ∉ dirs w →
  files w !! "tasks/metadata_base.json" = Some template_text →
  json_loads template_text = Decoded template →
  populate template (JObj task_data) (uuid4 (nonce w)) = Raise e →
  create_task_folder_and_metadata task_data_path w
  = (Raise e,
     World (<[metadata_path := template_text]> (files w))
       ({[task_folder]} ∪ dirs w)
       (stdout w ++ ["Created folder: " +:+ task_folder;
                     "Copied metadata_base.json to " +:+ task_folder])
       (spawned w) (S (nonce w))).
Proof.
  intros task_folder metadata_path Hfile Hloads Hjira Hplain Htasks Hnofile Hnodir
    Htmpl Htemplate Hpopulate.
  rewrite (bootstrapper_copies_template _ text jira_id template_text task_data template)
    by done.
  apply bind_raise. unfold lift. by rewrite Hpopulate.
Qed.

(** An exception of [os.makedirs] leaves the bootstrapper as it is. *)
Lemma bootstrapper_makedirs_raises (task_data_path text jira_id : string)
    (task_data : dict) (e : exn) (w w' : world) :
  files w !! task_data_path = Some text →
  json_loads text = Decoded (JObj task_data) →
  dict_get task_data "jira_id" = Some (JStr jira_id) →
  jira_id ≠ "" →
  os_makedirs (os_path_join "tasks" jira_id) w = (Raise e, w') →
  create_task_folder_and_metadata task_data_path w = (Raise e, w').
Proof.
  intros Hfile Hloads Hjira Hne Hmake. unfold create_task_folder_and_metadata.
  rewrite (bind_ok _ _ w w true) by (by apply (os_path_exists_file _ text)).
  simpl negb. cbv iota.
  rewrite (bind_ok _ _ w w tt) by done.
  rewrite (bind_ok _ _ w w (JObj task_data)) by (by apply (json_load_ok _ text)).
  rewrite (bind_ok _ _ w w (JStr jira_id))
    by (unfold lift, get_method; by rewrite Hjira).
  assert (Htruthy : truthy (JStr jira_id) = true).
  { simpl. destruct (String.eqb_spec jira_id ""); done. }
  rewrite Htruthy. simpl negb. cbv iota.
  rewrite (bind_ok _ _ w w tt) by done.
  rewrite (bind_ok _ _ w w (os_path_join "tasks" jira_id)) by done.
  by apply bind_raise.
Qed.

(** X21: a ticket identifier that names a path under a regular file (the
    template file, say) stops the bootstrapper at [os.makedirs]: it raises
    [NotADirectoryError] for the task folder before anything is printed,
    made or copied. *)
Theorem bootstrapper_under_file (task_data_path text parent child content : string)
    (task_data : dict) (w : world) :
  let jira_id := parent +:+ "/" +:+ child in
  let task_folder := os_path_join "tasks" jira_id in
  files w !! task_data_path = Some text →
  json_loads text = Decoded (JObj task_data) →
  dict_get task_data "jira_id" = Some (JStr jira_id) →
  plain_name parent = true → plain_name child = true →
  files w !! os_path_join "tasks" parent = Some content →
  os_path_join "tasks" parent ∉ dirs w →
  files w !! task_folder = None → task_folder ∉ dirs w →
  create_task_folder_and_metadata task_data_path w
  = (Raise (NotADirectoryError task_folder), w).
Proof.
  intros jira_id task_folder Hfile Hloads Hjira [Hne Hparent]%plain_name_inv
    [_ Hchild]%plain_name_inv Hblock Hnodir Hnofile Hnofolder.
  apply (bootstrapper_makedirs_raises _ text jira_id task_data); [done..| |].
  { unfold jira_id. by destruct parent. }
  fold task_folder. unfold os_makedirs.
  rewrite (bool_decide_eq_false_2 (task_folder ∈ dirs w)) by done.
  rewrite Hnofile. rewrite bool_decide_eq_false_2 by (by intros [? ?]).
  unfold task_folder, jira_id.
  rewrite (os_path_join_tasks_nested parent _ Hne Hparent).
  rewrite (ancestors_nested_folder parent child Hne Hparent Hchild).
  change (reverse ["tasks"; "tasks/" +:+ parent])
    with ["tasks/" +:+ parent; "tasks"].
  cbn [innermost].
  rewrite (os_path_join_tasks parent Hparent) in Hblock, Hnodir.
  rewrite Hblock. rewrite (bool_decide_eq_true_2 (is_Some (Some content))) by eauto.
  cbn [orb]. by rewrite bool_decide_eq_false_2.
Qed.

(** X22: when the path of the task folder is a regular file, the
    bootstrapper stops at [os.makedirs] with [FileExistsError], before
    anything is printed, made or copied. *)
Theorem bootstrapper_folder_is_file (task_data_path text jira_id content : string)
    (task_data : dict) (w : world) :
  let task_folder := os_path_join "tasks" jira_id in
  files w !! task_data_path = Some text →
  json_loads text = Decoded (JObj task_data) →
  dict_get task_data "jira_id" = Some (JStr jira_id) →
  jira_id ≠ "" →
  files w !! task_folder = Some content → task_folder ∉ dirs w →
  create_task_folder_and_metadata task_data_path w
  = (Raise (FileExistsError task_folder), w).
Proof.
  intros task_folder Hfile Hloads Hjira Hne Hblock Hnodir.
  apply (bootstrapper_makedirs_raises _ text jira_id task_data); [done..|].
  fold task_folder. unfold os_makedirs.
  rewrite (bool_decide_eq_false_2 (task_folder ∈ dirs w)) by done.
  rewrite Hblock. by rewrite bool_decide_eq_true_2 by eauto.
Qed.

End FirstRun.

Lemma missing_task_data_exits_witness :
  create_task_folder_and_metadata (H := Reference.platform [] "")
    SampleTask.task_data_path Sample.start
  = (Raise (SystemExit 1),
     World ∅ ∅ ["Error: automation_tool/task_data.json not found."] [] 0).
Proof.
  apply (missing_task_data_exits (H := Reference.platform [] "")
           SampleTask.task_data_path Sample.start).
  - reflexivity.
  - vm_compute. discriminate.
Defined.

Lemma non_string_jira_id_raises_witness :
  create_task_folder_and_metadata (H := Reference.platform [] "")
    SampleTask.task_data_path SampleFirstRun.numbered
  = (Raise TypeError, SampleFirstRun.numbered).
Proof.
  apply (non_string_jira_id_raises (H := Reference.platform [] "")
           SampleTask.task_data_path
           (Reference.dumps (JObj SampleFirstRun.numbered_fields))
           SampleFirstRun.numbered_fields (JInt 7) SampleFirstRun.numbered);
    try (vm_compute; reflexivity).
  intros s. discriminate.
Defined.

Lemma bootstrapper_seeds_task_witness :
  create_task_folder_and_metadata (H := Reference.platform [] "")
    SampleTask.task_data_path SampleFirstRun.fresh
  = (Ok SampleTask.task_folder,
     World (<[SampleTask.metadata_path :=
                Reference.dumps (SampleTask.seeded "task-0")]>
              (files SampleFirstRun.fresh))
       ({[SampleTask.task_folder]} ∪ dirs SampleFirstRun.fresh)
       ["Created folder: tasks/PROJ-7";
        "Copied metadata_base.json to tasks/PROJ-7";
        "Updated metadata.json in tasks/PROJ-7 with task_id: task-0"]
       [] 1).
Proof.
  apply (bootstrapper_seeds_task (H := Reference.platform [] "")
           SampleTask.task_data_path
           (Reference.dumps (JObj SampleTask.task_fields)) "PROJ-7"
           (Reference.dumps SampleTask.template)
           SampleTask.task_fields SampleTask.template
           (SampleTask.seeded "task-0") SampleFirstRun.fresh);
    try (vm_compute; reflexivity).
  vm_compute. discriminate.
Defined.

Lemma bootstrapper_leaves_template_copy_witness :
  create_task_folder_and_metadata (H := Reference.platform [] "")
    SampleTask.task_data_path SampleFirstRun.bare
  = (Raise (KeyError (SKey "task_details")),
     World (<[SampleTask.metadata_path :=
                Reference.dumps SampleFirstRun.bare_template]>
              (files SampleFirstRun.bare))
       ({[SampleTask.task_folder]} ∪ dirs SampleFirstRun.bare)
       ["Created folder: tasks/PROJ-7";
        "Copied metadata_base.json to tasks/PROJ-7"]
       [] 1).
Proof.
  apply (bootstrapper_leaves_template_copy (H := Reference.platform [] "")
           SampleTask.task_data_path
           (Reference.dumps (JObj SampleTask.task_fields)) "PROJ-7"
           (Reference.dumps SampleFirstRun.bare_template)
           SampleTask.task_fields SampleFirstRun.bare_template
           (KeyError (SKey "task_details")) SampleFirstRun.bare);
    try (vm_compute; reflexivity).
  vm_compute. discriminate.
Defined.

Lemma bootstrapper_under_file_witness :
  create_task_folder_and_metadata (H := Reference.platform [] "")
    SampleTask.task_data_path SampleFirstRun.nested
  = (Raise (NotADirectoryError "tasks/metadata_base.json/x"), SampleFirstRun.nested).
Proof.
  apply (bootstrapper_under_file (H := Reference.platform [] "")
           SampleTask.task_data_path
           (Reference.dumps (JObj SampleFirstRun.nested_fields))
           "metadata_base.json" "x" (Reference.dumps SampleTask.template)
           SampleFirstRun.nested_fields SampleFirstRun.nested);
    try (vm_compute; reflexivity); vm_compute; discriminate.
Defined.

Lemma bootstrapper_folder_is_file_witness :
  create_task_folder_and_metadata (H := Reference.platform [] "")
    SampleTask.task_data_path SampleFirstRun.shadowed
  = (Raise (FileExistsError "tasks/metadata_base.json"), SampleFirstRun.shadowed).
Proof.
  apply (bootstrapper_folder_is_file (H := Reference.platform [] "")
           SampleTask.task_data_path
           (Reference.dumps (JObj SampleFirstRun.shadowed_fields))
           "metadata_base.json" (Reference.dumps SampleTask.template)
           SampleFirstRun.shadowed_fields SampleFirstRun.shadowed);
    try (vm_compute; reflexivity).
  - discriminate.
  - vm_compute. discriminate.
Defined.

(** ** Filling in the template *)

Lemma setitem_fields (m : json) (k : string) (v m' : json) :
  setitem m k v = Ok m' →
  field m' k = Some v ∧ ∀ k', k' ≠ k → field m' k' = field m k'.
Proof.
  intros (d & -> & ->)%setitem_inv. simpl. split.
  - apply dict_get_set_eq.
  - intros k' Hk'. by apply dict_get_set_ne.
Qed.

Lemma set_in_fields (m : json) (k1 k2 : string) (v m' : json) :
  set_in m (SKey k1) k2 v = Ok m' →
  subfield m' k1 k2 = Some v
  ∧ (∀ k2', k2' ≠ k2 → subfield m' k1 k2' = subfield m k1 k2')
  ∧ (∀ k', k' ≠ k1 → field m' k' = field m k').
Proof.
  intros (d & t & -> & Hd & ->)%set_in_inv. unfold subfield. simpl.
  rewrite dict_get_set_eq, Hd. simpl. split; [apply dict_get_set_eq|]. split.
  - intros k2' Hk2'. by apply dict_get_set_ne.
  - intros k' Hk'. by apply dict_get_set_ne.
Qed.

Lemma seq_index_chars (s : string) (i : Z) (x : json) :
  seq_index (chars s) i = Some x → ∃ a, x = JStr (String a EmptyString).
Proof.
  unfold seq_index, chars. intros Hx.
  assert (Hin : x ∈ (λ c, JStr (String c EmptyString)) <$> list_ascii_of_string s).
  { destruct (i <? 0); [destruct (_ <? 0); [done|]|];
      by eapply list_elem_of_lookup_2. }
  apply list_elem_of_fmap in Hin as (a & -> & _). eauto.
Qed.

Lemma set_slot_diff_inv (m : json) (i : Z) (k : string) (v m' : json) :
  0 ≤ i → set_slot_diff m i k v = Ok m' →
  ∃ d slots slot,
    m = JObj d ∧ dict_get d "implementations" = Some (JArr slots)
    ∧ slots !! Z.to_nat i = Some (JObj slot)
    ∧ m' = JObj (dict_set d "implementations"
                   (JArr (<[Z.to_nat i := JObj (dict_set slot k v)]> slots))).
Proof.
  intros Hpos. unfold set_slot_diff, set_in. intros Hrun.
  apply bind_Ok_inv in Hrun as (impls & Himpls & Hrun).
  apply bind_Ok_inv in Hrun as (impls' & Hset & Hrun).
  apply bind_Ok_inv in Hset as (inner & Hinner & Hset).
  apply bind_Ok_inv in Hset as (inner' & Hinner' & Hset).
  apply getitem_key_inv, field_Some_inv in Himpls as (d & -> & Hd).
  apply setitem_inv in Hinner' as (slot & -> & ->).
  injection Hset as <-. injection Hrun as <-.
  destruct impls as [| | | |s|slots|o]; simpl in Hinner; try done.
  - destruct (seq_index (chars s) i) as [c|] eqn:Hc; [|done].
    injection Hinner as ->. apply seq_index_chars in Hc as [a Ha]. done.
  - unfold seq_index in Hinner. destruct (Z.ltb_spec i 0); [lia|].
    destruct (slots !! Z.to_nat i) as [x|] eqn:Hx; [|done].
    injection Hinner as ->. exists d, slots, slot. simpl.
    destruct (Z.ltb_spec i 0); [lia|]. done.
Qed.

Lemma set_slot_diff_fields (m : json) (i : Z) (k : string) (v m' : json) :
  0 ≤ i → set_slot_diff m i k v = Ok m' →
  slot_field m' (Z.to_nat i) k = Some v
  ∧ (∀ j k', j ≠ Z.to_nat i ∨ k' ≠ k → slot_field m' j k' = slot_field m j k')
  ∧ (∀ k', k' ≠ "implementations" → field m' k' = field m k').
Proof.
  intros Hpos (d & slots & slot & -> & Hd & Hslot & ->)%set_slot_diff_inv; [|done].
  unfold slot_field. simpl. rewrite dict_get_set_eq, Hd.
  pose proof (lookup_lt_Some _ _ _ Hslot) as Hlt. split; [|split].
  - rewrite list_lookup_insert_eq by done. simpl. apply dict_get_set_eq.
  - intros j k' Hjk. destruct (decide (j = Z.to_nat i)) as [->|Hj].
    + rewrite list_lookup_insert_eq by done. rewrite Hslot. simpl.
      apply dict_get_set_ne. intros <-. by destruct Hjk.
    + by rewrite list_lookup_insert_ne.
  - intros k' Hk'. by apply dict_get_set_ne.
Qed.

Lemma get_method_inv (o : json) (k : string) (default v : json) :
  get_method o k default = Ok v →
  ∃ d, o = JObj d ∧ v = match dict_get d k with Some x => x | None => default end.
Proof. destruct o; simpl; try done. intros [= <-]. eauto. Qed.

(** X11: what the bootstrapper's field updates leave in the record: the
    task identifier, the ticket, the five task details and the four diffs,
    each with the value of the task data or the empty string when the task
    data has no such key; every other top-level field (the evaluation
    section among them), every other task detail and every other slot
    field is as in the template. *)
Theorem populate_fields (metadata task_data metadata' : json) (task_id : string) :
  populate metadata task_data task_id = Ok metadata' →
  ∃ fields,
    task_data = JObj fields
    ∧ field metadata' "task_id" = Some (JStr task_id)
    ∧ field metadata' "jira" = Some (or_empty fields "jira_id")
    ∧ (∀ k, In k detail_keys →
            subfield metadata' "task_details" k = Some (or_empty fields k))
    ∧ slot_field metadata' 0 "diff_1" = Some (or_empty fields "diff_1")
    ∧ slot_field metadata' 1 "diff_2" = Some (or_empty fields "diff_2")
    ∧ slot_field metadata' 2 "diff_3" = Some (or_empty fields "diff_3")
    ∧ slot_field metadata' 3 "diff_4" = Some (or_empty fields "diff_4")
    ∧ (∀ k, ¬ In k ["task_id"; "jira"; "task_details"; "implementations"] →
            field metadata' k = field metadata k)
    ∧ (∀ k, ¬ In k detail_keys →
            subfield metadata' "task_details" k = subfield metadata "task_details" k)
    ∧ (∀ i k, ¬ In (i, k) [(0%nat, "diff_1"); (1%nat, "diff_2");
                           (2%nat, "diff_3"); (3%nat, "diff_4")] →
              slot_field metadata' i k = slot_field metadata i k).
Proof.
  unfold populate. intros Hrun.
  apply bind_Ok_inv in Hrun as (m1 & H1 & Hrun).
  apply bind_Ok_inv in Hrun as (v2 & Hv2 & Hrun).
  apply get_method_inv in Hv2 as (fields & -> & ->).
  simpl get_method in Hrun.
  apply bind_Ok_inv in Hrun as (m2 & H2 & Hrun). rewrite bind_Ok_l in Hrun.
  apply bind_Ok_inv in Hrun as (m3 & H3 & Hrun). rewrite bind_Ok_l in Hrun.
  apply bind_Ok_inv in Hrun as (m4 & H4 & Hrun). rewrite bind_Ok_l in Hrun.
  apply bind_Ok_inv in Hrun as (m5 & H5 & Hrun). rewrite bind_Ok_l in Hrun.
  apply bind_Ok_inv in Hrun as (m6 & H6 & Hrun). rewrite bind_Ok_l in Hrun.
  apply bind_Ok_inv in Hrun as (m7 & H7 & Hrun). rewrite bind_Ok_l in Hrun.
  apply bind_Ok_inv in Hrun as (m8 & H8 & Hrun). rewrite bind_Ok_l in Hrun.
  apply bind_Ok_inv in Hrun as (m9 & H9 & Hrun). rewrite bind_Ok_l in Hrun.
  apply bind_Ok_inv in Hrun as (m10 & H10 & H11). rewrite bind_Ok_l in H11.
  fold (or_empty fields "jira_id") in H2.
  fold (or_empty fields "repo_name") in H3.
  fold (or_empty fields "before_sha") in H4.
  fold (or_empty fields "after_sha") in H5.
  fold (or_empty fields "pr_description") in H6.
  fold (or_empty fields "reference_implementation_diff") in H7.
  fold (or_empty fields "diff_1") in H8.
  fold (or_empty fields "diff_2") in H9.
  fold (or_empty fields "diff_3") in H10.
  fold (or_empty fields "diff_4") in H11.
  apply setitem_fields in H1 as [S1 F1]. apply setitem_fields in H2 as [S2 F2].
  apply set_in_fields in H3 as (S3 & D3 & F3).
  apply set_in_fields in H4 as (S4 & D4 & F4).
  apply set_in_fields in H5 as (S5 & D5 & F5).
  apply set_in_fields in H6 as (S6 & D6 & F6).
  apply set_in_fields in H7 as (S7 & D7 & F7).
  apply set_slot_diff_fields in H8 as (S8 & L8 & F8); [|lia].
  apply set_slot_diff_fields in H9 as (S9 & L9 & F9); [|lia].
  apply set_slot_diff_fields in H10 as (S10 & L10 & F10); [|lia].
  apply set_slot_diff_fields in H11 as (S11 & L11 & F11); [|lia].
  change (Z.to_nat 0) with 0%nat in *. change (Z.to_nat 1) with 1%nat in *.
  change (Z.to_nat 2) with 2%nat in *. change (Z.to_nat 3) with 3%nat in *.
  assert (Hdetails : ∀ k, subfield metadata' "task_details" k
                          = subfield m7 "task_details" k).
  { intros k. unfold subfield.
    by rewrite F11, F10, F9, F8 by done. }
  assert (Hslots : ∀ i k, slot_field m7 i k = slot_field metadata i k).
  { intros i k. unfold slot_field.
    by rewrite F7, F6, F5, F4, F3, F2, F1 by done. }
  exists fields. split; [done|]. split.
  { by rewrite F11, F10, F9, F8, F7, F6, F5, F4, F3, F2 by done. }
  split.
  { by rewrite F11, F10, F9, F8, F7, F6, F5, F4, F3 by done. }
  split.
  { intros k Hk. rewrite Hdetails. unfold detail_keys in Hk. simpl in Hk.
    destruct Hk as [<-|[<-|[<-|[<-|[<-|[]]]]]].
    - by rewrite D7, D6, D5, D4 by done.
    - by rewrite D7, D6, D5 by done.
    - by rewrite D7, D6 by done.
    - by rewrite D7 by done.
    - done. }
  split. { rewrite L11, L10, L9 by (left; lia). done. }
  split. { rewrite L11, L10 by (left; lia). done. }
  split. { rewrite L11 by (left; lia). done. }
  split; [done|]. split.
  { intros k Hk. simpl in Hk.
    rewrite F11, F10, F9, F8, F7, F6, F5, F4, F3, F2, F1; [done|intros ->; tauto..]. }
  split.
  { intros k Hk. rewrite Hdetails. unfold detail_keys in Hk. simpl in Hk.
    rewrite D7, D6, D5, D4, D3; [|intros ->; tauto..].
    unfold subfield. by rewrite F2, F1 by done. }
  intros i k Hik. simpl in Hik. rewrite <- Hslots.
  rewrite L11, L10, L9, L8; [done|..];
    match goal with
    | |- ?i ≠ ?n ∨ ?k ≠ ?s =>
        destruct (decide (i = n)) as [->|]; [right; intros ->; tauto | by left]
    end.
Qed.

Lemma has_dict_slot_ext (m m' : json) (i : nat) :
  field m' "implementations" = field m "implementations" →
  has_dict_slot m i → has_dict_slot m' i.
Proof. intros Heq (slots & slot & Hf & Hs). exists slots, slot. by rewrite Heq. Qed.

Lemma has_details_ext (m m' : json) :
  field m' "task_details" = field m "task_details" →
  has_details m → has_details m'.
Proof. intros Heq (details & Hd). exists details. by rewrite Heq. Qed.

Lemma fillable_ext (m m' : json) :
  field m' "task_details" = field m "task_details" →
  field m' "implementations" = field m "implementations" →
  fillable m → fillable m'.
Proof.
  intros Hd Hi [Hdetails Hslots]. split.
  - by apply (has_details_ext m).
  - intros i Hlt. apply (has_dict_slot_ext m); auto.
Qed.

Lemma fillable_setitem (m : json) (k : string) (v : json) :
  fillable m → k ≠ "task_details" → k ≠ "implementations" →
  ∃ m', setitem m k v = Ok m' ∧ fillable m'.
Proof.
  intros Hm Hk1 Hk2. pose proof Hm as [(details & Hd) _].
  apply field_Some_inv in Hd as (d & -> & _).
  eexists. split; [done|].
  apply (fillable_ext (JObj d)); [| |done]; simpl; by apply dict_get_set_ne.
Qed.

Lemma fillable_set_in (m : json) (k : string) (v : json) :
  fillable m →
  ∃ m', set_in m (SKey "task_details") k v = Ok m' ∧ fillable m'.
Proof.
  intros [(details & Hd) Hslots].
  apply field_Some_inv in Hd as (d & -> & Hd).
  unfold set_in. simpl. rewrite Hd, !bind_Ok_l. simpl. rewrite bind_Ok_l. simpl.
  eexists. split; [done|]. split.
  - eexists. simpl. apply dict_get_set_eq.
  - intros i Hi. apply (has_dict_slot_ext (JObj d)); [|by apply Hslots].
    simpl. by apply dict_get_set_ne.
Qed.

Lemma fillable_set_slot_diff (m : json) (i : Z) (k : string) (v : json) :
  fillable m → 0 ≤ i < 4 →
  ∃ m', set_slot_diff m i k v = Ok m' ∧ fillable m'.
Proof.
  intros [Hdetails Hslots] Hi.
  destruct (Hslots (Z.to_nat i)) as (slots & slot & Hf & Hs); [lia|].
  apply field_Some_inv in Hf as (d & -> & Hd).
  unfold set_slot_diff, set_in. simpl. rewrite Hd, bind_Ok_l. simpl.
  unfold seq_index. destruct (Z.ltb_spec i 0); [lia|].
  rewrite Hs, !bind_Ok_l. simpl. rewrite !bind_Ok_l. simpl.
  destruct (Z.ltb_spec i 0); [lia|].
  eexists. split; [done|]. split.
  - apply (has_details_ext (JObj d)); [|done]. simpl. by apply dict_get_set_ne.
  - intros j Hj. destruct (Hslots j Hj) as (slots' & slot' & Hf' & Hs').
    simpl in Hf'. rewrite Hd in Hf'. injection Hf' as <-.
    destruct (decide (j = Z.to_nat i)) as [->|Hne].
    + eexists _, _. simpl. rewrite dict_get_set_eq. split; [done|].
      apply list_lookup_insert_eq. by eapply lookup_lt_Some.
    + eexists _, _. simpl. rewrite dict_get_set_eq. split; [done|].
      by rewrite list_lookup_insert_ne.
Qed.

Lemma set_in_details_back (m : json) (k : string) (v m' : json) :
  set_in m (SKey "task_details") k v = Ok m' →
  has_details m ∧ ∀ i, has_dict_slot m' i → has_dict_slot m i.
Proof.
  intros (d & t & -> & Hd & ->)%set_in_inv. split; [by exists t|].
  intros i. apply has_dict_slot_ext. simpl. symmetry. by apply dict_get_set_ne.
Qed.

Lemma set_slot_diff_back (m : json) (i : Z) (k : string) (v m' : json) :
  0 ≤ i → set_slot_diff m i k v = Ok m' →
  has_dict_slot m (Z.to_nat i)
  ∧ (∀ j, has_dict_slot m' j → has_dict_slot m j)
  ∧ field m' "task_details" = field m "task_details".
Proof.
  intros Hpos (d & slots & slot & -> & Hd & Hslot & ->)%set_slot_diff_inv; [|done].
  split; [by exists slots, slot|]. split.
  - intros j (slots' & slot' & Hf & Hs). simpl in Hf.
    rewrite dict_get_set_eq in Hf. injection Hf as <-.
    destruct (decide (j = Z.to_nat i)) as [->|Hne].
    + by exists slots, slot.
    + rewrite list_lookup_insert_ne in Hs by done. by exists slots, slot'.
  - simpl. by apply dict_get_set_ne.
Qed.

(** X12: the field updates succeed exactly on a task-data dict and a record
    that has a [task_details] dict and an [implementations] list starting
    with four dicts; the filled record has that shape again. *)
Theorem populate_succeeds_iff (metadata task_data : json) (task_id : string) :
  (∃ metadata', populate metadata task_data task_id = Ok metadata')
  ↔ (∃ fields, task_data = JObj fields) ∧ fillable metadata.
Proof.
  split.
  - intros [metadata' Hrun]. unfold populate in Hrun.
    apply bind_Ok_inv in Hrun as (m1 & H1 & Hrun).
    apply bind_Ok_inv in Hrun as (v2 & Hv2 & Hrun).
    apply get_method_inv in Hv2 as (fields & -> & ->).
    simpl get_method in Hrun.
    apply bind_Ok_inv in Hrun as (m2 & H2 & Hrun). rewrite bind_Ok_l in Hrun.
    apply bind_Ok_inv in Hrun as (m3 & H3 & Hrun). rewrite bind_Ok_l in Hrun.
    apply bind_Ok_inv in Hrun as (m4 & H4 & Hrun). rewrite bind_Ok_l in Hrun.
    apply bind_Ok_inv in Hrun as (m5 & H5 & Hrun). rewrite bind_Ok_l in Hrun.
    apply bind_Ok_inv in Hrun as (m6 & H6 & Hrun). rewrite bind_Ok_l in Hrun.
    apply bind_Ok_inv in Hrun as (m7 & H7 & Hrun). rewrite bind_Ok_l in Hrun.
    apply bind_Ok_inv in Hrun as (m8 & H8 & Hrun). rewrite bind_Ok_l in Hrun.
    apply bind_Ok_inv in Hrun as (m9 & H9 & Hrun). rewrite bind_Ok_l in Hrun.
    apply bind_Ok_inv in Hrun as (m10 & H10 & H11). rewrite bind_Ok_l in H11.
    split; [eauto|].
    apply set_slot_diff_back in H11 as (S3 & B11 & _); [|lia].
    apply set_slot_diff_back in H10 as (S2 & B10 & _); [|lia].
    apply set_slot_diff_back in H9 as (S1 & B9 & _); [|lia].
    apply set_slot_diff_back in H8 as (S0 & B8 & _); [|lia].
    apply set_in_details_back in H7 as (_ & B7).
    apply set_in_details_back in H6 as (_ & B6).
    apply set_in_details_back in H5 as (_ & B5).
    apply set_in_details_back in H4 as (_ & B4).
    apply set_in_details_back in H3 as (D2 & B3).
    apply setitem_fields in H2 as [_ F2]. apply setitem_fields in H1 as [_ F1].
    apply (fillable_ext m2); [by rewrite F2, F1 | by rewrite F2, F1 |].
    split; [done|]. intros i Hi.
    apply B3, B4, B5, B6, B7.
    destruct i as [|[|[|[|i]]]]; [| | | |lia].
    + by apply S0.
    + by apply B8, S1.
    + by apply B8, B9, S2.
    + by apply B8, B9, B10, S3.
  - intros [[fields ->] Hm]. unfold populate. simpl get_method.
    destruct (fillable_setitem metadata "task_id" (JStr task_id) Hm)
      as (m1 & -> & Hm1); [done..|]. rewrite !bind_Ok_l.
    destruct (fillable_setitem m1 "jira" (or_empty fields "jira_id") Hm1)
      as (m2 & H2 & Hm2); [done..|].
    unfold or_empty in H2. rewrite H2, !bind_Ok_l.
    destruct (fillable_set_in m2 "repo_name" (or_empty fields "repo_name") Hm2)
      as (m3 & H3 & Hm3).
    unfold or_empty in H3. rewrite H3, !bind_Ok_l.
    destruct (fillable_set_in m3 "before_sha" (or_empty fields "before_sha") Hm3)
      as (m4 & H4 & Hm4).
    unfold or_empty in H4. rewrite H4, !bind_Ok_l.
    destruct (fillable_set_in m4 "after_sha" (or_empty fields "after_sha") Hm4)
      as (m5 & H5 & Hm5).
    unfold or_empty in H5. rewrite H5, !bind_Ok_l.
    destruct (fillable_set_in m5 "pr_description"
                (or_empty fields "pr_description") Hm5) as (m6 & H6 & Hm6).
    unfold or_empty in H6. rewrite H6, !bind_Ok_l.
    destruct (fillable_set_in m6 "reference_implementation_diff"
                (or_empty fields "reference_implementation_diff") Hm6)
      as (m7 & H7 & Hm7).
    unfold or_empty in H7. rewrite H7, !bind_Ok_l.
    destruct (fillable_set_slot_diff m7 0 "diff_1" (or_empty fields "diff_1") Hm7)
      as (m8 & H8 & Hm8); [lia|].
    unfold or_empty in H8. rewrite H8, !bind_Ok_l.
    destruct (fillable_set_slot_diff m8 1 "diff_2" (or_empty fields "diff_2") Hm8)
      as (m9 & H9 & Hm9); [lia|].
    unfold or_empty in H9. rewrite H9, !bind_Ok_l.
    destruct (fillable_set_slot_diff m9 2 "diff_3" (or_empty fields "diff_3") Hm9)
      as (m10 & H10 & Hm10); [lia|].
    unfold or_empty in H10. rewrite H10, !bind_Ok_l.
    destruct (fillable_set_slot_diff m10 3 "diff_4" (or_empty fields "diff_4") Hm10)
      as (m11 & H11 & Hm11); [lia|].
    unfold or_empty in H11. rewrite H11. eauto.
Qed.

Lemma populate_fields_witness :
  populate SampleTask.template (JObj SampleTask.task_fields) "task-0"
    = Ok (SampleTask.seeded "task-0")
  ∧ dict_get SampleTask.task_fields "reference_implementation_diff" = None
  ∧ subfield (SampleTask.seeded "task-0") "task_details"
      "reference_implementation_diff" = Some (JStr "").
Proof.
  split; [reflexivity|]. split; [reflexivity|].
  destruct (populate_fields SampleTask.template (JObj SampleTask.task_fields)
              (SampleTask.seeded "task-0") "task-0" eq_refl)
    as (fields & [= <-] & _ & _ & Hdetails & _).
  apply (Hdetails "reference_implementation_diff"). simpl. tauto.
Defined.

(** ** The merge: failures before the loop, first match, merging twice *)

Section MergerEdges.
Context `{Platform}.


(** X14: the implementation entries are read without a guard: a result
    that has no [implementations] key makes the merge raise [KeyError] and
    write nothing, and the evaluation object it may have is not applied. *)
Theorem update_metadata_without_entries (task_folder text : string) (r : dict)
    (metadata : json) (w : world) :
  files w !! os_path_join task_folder "metadata.json" = Some text →
  json_loads text = Decoded metadata →
  dict_get r "implementations" = None →
  update_metadata task_folder (JObj r) w
  = (Raise (KeyError (SKey "implementations")), w).
Proof.
  intros Hfile Hloads Hr. unfold update_metadata.
  rewrite (bind_ok _ _ w w metadata) by (by apply (json_load_ok _ text)).
  apply bind_raise. unfold lift, merge_results. simpl. by rewrite Hr.
Qed.

End MergerEdges.

Lemma update_matching_first (k : string) (a b c : json) (pre post : list json)
    (slot : dict) :
  Forall (λ x, is_object x ∧ has_key k x = false) pre →
  dict_has slot k = true →
  update_matching k a b c (pre ++ JObj slot :: post)
  = Ok (pre ++ set_scores a b c (JObj slot) :: post).
Proof.
  intros Hpre Hhas. induction Hpre as [|x pre [Hobj Hno] Hpre IH]; simpl.
  - by rewrite Hhas.
  - destruct x as [| | | | | |d]; try done. simpl in Hno |- *.
    rewrite Hno. unfold bind at 1, outcome_bind at 1. cbv iota beta.
    by rewrite IH.
Qed.

(** X15: the inner loop stops at the first slot that holds the diff key: a
    complete entry changes that slot only, and the slots after it are not
    looked at, whatever they are and even if one of them holds the key
    too. *)
Theorem first_matching_slot_wins (d : dict) (pre post : list json) (slot : dict)
    (entry : json) (k : string) :
  dict_get d "implementations" = Some (JArr (pre ++ JObj slot :: post)) →
  complete entry → entry_diff_key entry = Some k →
  Forall (λ x, is_object x ∧ has_key k x = false) pre →
  dict_has slot k = true →
  merge_entry (JObj d) entry
  = Ok (JObj (dict_set d "implementations"
                (JArr (pre ++ with_scores entry (JObj slot) :: post)))).
Proof.
  intros Hd Hentry Hkey Hpre Hhas.
  destruct (complete_inv _ Hentry)
    as (fields & name & a & b & c & -> & Hname & Ha & Hb & Hc & Hget).
  unfold merge_entry. simpl. rewrite Hname, Ha, Hb, Hc, !bind_Ok_l.
  rewrite Hget, bind_Ok_l, Hkey, Hd, bind_Ok_l. unfold update_slots.
  rewrite (update_matching_first k a b c pre post slot Hpre Hhas), !bind_Ok_l.
  unfold with_scores. simpl field. by rewrite Ha, Hb, Hc.
Qed.

Lemma first_matching_slot_wins_witness :
  merge_entry (JObj SampleFirstMatch.metadata) (SampleMerge.entry "impl_1" 4 5 "clean")
  = Ok (JObj [("implementations",
               JArr [SampleTask.slot "diff_2";
                     SampleTask.scored_slot "diff_1" "" 4 5 "clean";
                     SampleTask.slot "diff_1"])]).
Proof.
  apply (first_matching_slot_wins SampleFirstMatch.metadata
           [SampleTask.slot "diff_2"] [SampleTask.slot "diff_1"]
           [("diff_1", JStr ""); ("task_success", JInt 0);
            ("instruction_following", JInt 0); ("comment", JStr "")]
           (SampleMerge.entry "impl_1" 4 5 "clean") "diff_1").
  - reflexivity.
  - vm_compute. repeat split; eauto.
  - reflexivity.
  - repeat constructor.
  - reflexivity.
Defined.


Lemma update_metadata_without_entries_witness :
  update_metadata (H := Reference.platform [] "") "tasks/PROJ-7"
    (JObj SampleFirstMatch.summary_only) SampleMerge.bootstrapped
  = (Raise (KeyError (SKey "implementations")), SampleMerge.bootstrapped).
Proof.
  apply (update_metadata_without_entries (H := Reference.platform [] "")
           "tasks/PROJ-7" (Reference.dumps (SampleTask.seeded "task-0"))
           SampleFirstMatch.summary_only (SampleTask.seeded "task-0")
           SampleMerge.bootstrapped);
    vm_compute; reflexivity.
Defined.

(** ** Merging the same result twice *)

Lemma find_ext {A} (f g : A → bool) (l : list A) :
  (∀ x, f x = g x) → List.find f l = List.find g l.
Proof.
  intros Hfg. induction l as [|x l IH]; simpl; [done|]. by rewrite Hfg, IH.
Qed.

Lemma has_key_with_scores (k : string) (entry slot : json) :
  k ∈ diff_keys → has_key k (with_scores entry slot) = has_key k slot.
Proof.
  intros Hk. unfold with_scores.
  destruct (field entry "task_success"); [|done].
  destruct (field entry "instruction_following"); [|done].
  destruct (field entry "comment"); [|done].
  by apply has_key_set_scores.
Qed.

Lemma has_key_place (k : string) (entries : list json) (slot : json) :
  k ∈ diff_keys → has_key k (place entries slot) = has_key k slot.
Proof.
  intros Hk. unfold place.
  destruct (List.find _ entries); [by apply has_key_with_scores | done].
Qed.

Lemma matches_place (e : json) (entries : list json) (slot : json) :
  matches e (place entries slot) = matches e slot.
Proof.
  unfold matches. destruct (entry_diff_key e) as [k|] eqn:Hkey; [|done].
  apply has_key_place.
  unfold entry_diff_key in Hkey.
  destruct (field e "name") as [[]|]; try done. by eapply impl_to_diff_range.
Qed.

Lemma held_place (entries : list json) (slot : json) :
  held (place entries slot) = held slot.
Proof.
  unfold held, diff_keys. rewrite !filter_cons, !filter_nil.
  rewrite !has_key_place; [done|unfold diff_keys; among..].
Qed.

Lemma is_object_place (entries : list json) (slot : json) :
  is_object slot → is_object (place entries slot).
Proof.
  unfold place, with_scores. destruct slot; simpl; try done. intros _.
  destruct (List.find _ entries) as [e|]; [|done].
  destruct (field e "task_success"); [|done].
  destruct (field e "instruction_following"); [|done].
  by destruct (field e "comment").
Qed.

Lemma keyed_place (entries slots : list json) :
  keyed slots → keyed (place entries <$> slots).
Proof.
  intros (Hobj & Hone & Hnodup). split; [|split].
  - apply Forall_fmap. eapply Forall_impl; [exact Hobj|].
    intros s. apply is_object_place.
  - apply Forall_fmap. eapply Forall_impl; [exact Hone|].
    intros s. simpl. by rewrite held_place.
  - rewrite <- list_fmap_compose.
    rewrite (list_fmap_ext (held ∘ place entries) held slots); [done|].
    intros i s _. simpl. apply held_place.
Qed.

Lemma set_scores_twice (a b c slot : json) :
  set_scores a b c (set_scores a b c slot) = set_scores a b c slot.
Proof.
  destruct slot; simpl; try done. f_equal.
  set (d := dict_set (dict_set (dict_set fields "task_success" a)
                        "instruction_following" b) "comment" c).
  assert (Ha : dict_get d "task_success" = Some a).
  { unfold d. rewrite !dict_get_set_ne by done. apply dict_get_set_eq. }
  assert (Hb : dict_get d "instruction_following" = Some b).
  { unfold d. rewrite dict_get_set_ne by done. apply dict_get_set_eq. }
  assert (Hc : dict_get d "comment" = Some c) by apply dict_get_set_eq.
  by rewrite (dict_set_same d _ _ Ha), (dict_set_same d _ _ Hb),
    (dict_set_same d _ _ Hc).
Qed.

Lemma with_scores_twice (entry slot : json) :
  with_scores entry (with_scores entry slot) = with_scores entry slot.
Proof.
  unfold with_scores.
  destruct (field entry "task_success"); [|done].
  destruct (field entry "instruction_following"); [|done].
  destruct (field entry "comment"); [|done].
  apply set_scores_twice.
Qed.

Lemma place_twice (entries : list json) (slot : json) :
  place entries (place entries slot) = place entries slot.
Proof.
  unfold place at 1.
  rewrite (find_ext _ (λ entry, matches entry slot)) by (intros e; apply matches_place).
  unfold place. destruct (List.find _ entries); [apply with_scores_twice | done].
Qed.

(** A guarded copy whose value is already in the metadata changes nothing. *)
Lemma merge_evaluation_key_settled (key : string) (metadata results : json) :
  (∃ metadata0 metadata1,
     merge_evaluation_key key metadata0 results = Ok metadata1) →
  summary_field metadata key
  = match summary_field results key with
    | Some v => Some v
    | None => summary_field metadata key
    end →
  merge_evaluation_key key metadata results = Ok metadata.
Proof.
  intros (m0 & m1 & Hrun) Hsame. unfold merge_evaluation_key in Hrun |- *.
  apply bind_Ok_inv in Hrun as (evaluation & Heval & Hrun). rewrite Heval, bind_Ok_l.
  apply getitem_key_inv in Heval.
  apply bind_Ok_inv in Hrun as ([] & Hpresent & Hrun); rewrite Hpresent, bind_Ok_l;
    [|done].
  apply bind_Ok_inv in Hrun as (value & Hvalue & _). rewrite Hvalue, bind_Ok_l.
  apply getitem_key_inv in Hvalue.
  unfold summary_field in Hsame. rewrite Heval, Hvalue in Hsame.
  destruct (field metadata "evaluation") as [target|] eqn:Htarget; [|done].
  apply field_Some_inv in Htarget as (d & -> & Hd).
  apply field_Some_inv in Hsame as (t & -> & Ht).
  unfold set_in. simpl. rewrite Hd, !bind_Ok_l. simpl. rewrite bind_Ok_l. simpl.
  by rewrite (dict_set_same t _ _ Ht), (dict_set_same d _ _ Hd).
Qed.

Lemma merge_evaluation_twice (metadata results metadata' : json) :
  merge_evaluation metadata results = Ok metadata' →
  merge_evaluation metadata' results = Ok metadata'.
Proof.
  intros Hrun. pose proof Hrun as Hfirst. unfold merge_evaluation in Hrun |- *.
  apply bind_Ok_inv in Hrun as ([] & Hpresent & Hrun); rewrite Hpresent, bind_Ok_l;
    [|done].
  apply bind_Ok_inv in Hrun as (m1 & H1 & Hrun).
  apply bind_Ok_inv in Hrun as (m2 & H2 & H3).
  assert (Hsettled : ∀ key m0 m1', In key summary_keys →
            merge_evaluation_key key m0 results = Ok m1' →
            merge_evaluation_key key metadata' results = Ok metadata').
  { intros key m0 m1' Hkey Hstep. apply merge_evaluation_key_settled; [eauto|].
    rewrite (merge_evaluation_summary _ _ _ key Hfirst Hkey).
    by destruct (summary_field results key). }
  rewrite (Hsettled "best_diff" _ _ ltac:(simpl; tauto) H1), bind_Ok_l.
  rewrite (Hsettled "preference_rationale" _ _ ltac:(simpl; tauto) H2), bind_Ok_l.
  exact (Hsettled "improved_diff" _ _ ltac:(simpl; tauto) H3).
Qed.

(** X16: merging is idempotent: with the slots keyed by the diff keys and
    complete entries for distinct diff keys, merging the same result into
    the merged metadata returns the merged metadata again. *)
Theorem merge_results_idempotent (d : dict) (slots entries : list json)
    (results metadata' : json) :
  dict_get d "implementations" = Some (JArr slots) →
  keyed slots →
  field results "implementations" = Some (JArr entries) →
  Forall complete entries →
  NoDup (omap entry_diff_key entries) →
  merge_results (JObj d) results = Ok metadata' →
  merge_results metadata' results = Ok metadata'.
Proof.
  intros Hd Hkeyed Hresults Hentries Hnodup Hmerge.
  apply field_Some_inv in Hresults as (r & -> & Hr).
  rewrite (merge_results_entries _ _ _ Hr) in Hmerge.
  rewrite (merge_results_entries _ _ _ Hr).
  rewrite (merge_implementations_keyed entries d slots Hd Hkeyed Hentries Hnodup),
    bind_Ok_l in Hmerge.
  assert (Himpl : field metadata' "implementations"
                  = Some (JArr (place entries <$> slots))).
  { rewrite (merge_evaluation_field _ _ _ "implementations" Hmerge) by done.
    simpl. apply dict_get_set_eq. }
  apply field_Some_inv in Himpl as (d' & -> & Hd').
  rewrite (merge_implementations_keyed entries d' (place entries <$> slots) Hd'
             (keyed_place entries slots Hkeyed) Hentries Hnodup), bind_Ok_l.
  rewrite <- list_fmap_compose.
  rewrite (list_fmap_ext (place entries ∘ place entries) (place entries) slots)
    by (intros i s _; apply place_twice).
  rewrite (dict_set_same d' _ _ Hd').
  by apply merge_evaluation_twice in Hmerge.
Qed.

Lemma merge_results_idempotent_witness :
  merge_results SampleTask.evaluated SampleMerge.results = Ok SampleTask.evaluated.
Proof.
  apply (merge_results_idempotent
           (match SampleTask.seeded "task-0" with JObj d => d | _ => [] end)
           [SampleTask.scored_slot "diff_1" "diff 1" 0 0 "";
            SampleTask.scored_slot "diff_2" "diff 2" 0 0 "";
            SampleTask.scored_slot "diff_3" "diff 3" 0 0 "";
            SampleTask.scored_slot "diff_4" "diff 4" 0 0 ""]
           SampleSlots.entries SampleMerge.results SampleTask.evaluated).
  - reflexivity.
  - split; [repeat constructor|]. split.
    + repeat (apply List.Forall_cons; [vm_compute; lia|]). apply List.Forall_nil.
    + vm_compute. repeat (apply NoDup_cons_2; [not_among|]). apply NoDup_nil_2.
  - reflexivity.
  - repeat constructor; vm_compute; eauto.
  - vm_compute. repeat (apply NoDup_cons_2; [not_among|]). apply NoDup_nil_2.
  - reflexivity.
Defined.

(** ** What the steps after the commands touch *)

Lemma respects_bind {A B} (P : string → Prop) (Q : A → Prop) (R : B → Prop)
    (c : M A) (k : A → M B) :
  respects P Q c → (∀ a, Q a → respects P R (k a)) →
  respects P R (x <- c ;; k x).
Proof.
  intros Hc Hk w out w' Hrun. unfold bind, M_bind in Hrun.
  destruct (c w) as [[a|e] w1] eqn:Hcw.
  - destruct (Hc _ _ _ Hcw) as (F1 & S1 & Qa).
    destruct (Hk a (Qa a eq_refl) _ _ _ Hrun) as (F2 & S2 & Ra).
    split; [|split; [congruence | done]].
    intros p Hp. by rewrite (F2 p Hp), (F1 p Hp).
  - injection Hrun as <- <-. destruct (Hc _ _ _ Hcw) as (F1 & S1 & _).
    split; [done|]. split; [done|]. by intros a [=].
Qed.

Lemma respects_ret {A} (P : string → Prop) (Q : A → Prop) (a : A) :
  Q a → respects P Q (ret a).
Proof. intros Ha w out w' [= <- <-]. split; [done|]. split; [done|]. by intros ? [= <-]. Qed.

Lemma respects_raise {A} (P : string → Prop) (Q : A → Prop) (e : exn) :
  respects P Q (raise e).
Proof. intros w out w' [= <- <-]. split; [done|]. split; [done|]. by intros ? [=]. Qed.

Lemma respects_lift {A} (P : string → Prop) (Q : A → Prop) (c : outcome A) :
  (∀ a, c = Ok a → Q a) → respects P Q (lift c).
Proof. intros Hc w out w' [= <- <-]. split; [done|]. split; [done|]. done. Qed.

Lemma respects_print (P : string → Prop) (line : string) :
  respects P anything (print line).
Proof. intros w out w' [= <- <-]. split; [done|]. split; done. Qed.

Lemma respects_read_text (P : string → Prop) (p : string) :
  respects P anything (read_text p).
Proof.
  intros w out w'. unfold read_text.
  destruct (files w !! p); [|case_bool_decide]; intros [= <- <-];
    split; [done|split; done|done|split; done|done|split; done].
Qed.

Lemma respects_write_text (P : string → Prop) (p text : string) :
  P p → respects P anything (write_text p text).
Proof.
  intros Hp w out w'. unfold write_text.
  case_bool_decide; intros [= <- <-]; (split; [|split; done]); [done|].
  intros q Hq. simpl. apply lookup_insert_ne. by intros ->.
Qed.

Lemma respects_os_path_exists (P : string → Prop) (p : string) :
  respects P anything (os_path_exists p).
Proof. intros w out w' [= <- <-]. split; [done|]. split; done. Qed.

Lemma respects_os_makedirs (P : string → Prop) (p : string) :
  respects P anything (os_makedirs p).
Proof.
  intros w out w'. unfold os_makedirs.
  case_bool_decide; [by intros [= <- <-]|].
  case_bool_decide; [by intros [= <- <-]|].
  destruct (innermost _ _) as [missing [a|]];
    [case_bool_decide|]; by intros [= <- <-].
Qed.

Lemma respects_exit_unless (P : string → Prop) (b : bool) (line : string) :
  respects P anything
    (if b then (print line ;; sys_exit 1) else ret tt : M unit).
Proof.
  destruct b; [|by apply respects_ret].
  eapply respects_bind; [apply respects_print|]. intros _ _. apply respects_raise.
Qed.

Section Footprint.
Context `{Platform}.

Lemma respects_json_load (P : string → Prop) (p : string) :
  respects P anything (json_load p).
Proof.
  unfold json_load. eapply respects_bind; [apply respects_read_text|].
  intros text _. destruct (json_loads text); [by apply respects_ret|..];
    apply respects_raise.
Qed.

Lemma respects_fresh_uuid (P : string → Prop) : respects P anything fresh_uuid.
Proof. intros w out w' [= <- <-]. split; [done|]. split; done. Qed.

Lemma json_load_cases (p : string) (w : world) :
  (∃ text v, files w !! p = Some text ∧ json_loads text = Decoded v
             ∧ json_load p w = (Ok v, w))
  ∨ ∃ e, json_load p w = (Raise e, w).
Proof.
  unfold json_load, bind, M_bind, read_text.
  destruct (files w !! p) as [text|] eqn:Hfile;
    [|case_bool_decide; right; eauto].
  destruct (json_loads text) as [v|msg| |msg] eqn:Hloads;
    [left; by exists text, v | right; eauto..].
Qed.

(** The bootstrapper either stops before it writes anything, or it has
    read the ticket identifier of the task data and writes the metadata
    file of that task only. *)
Lemma create_task_folder_and_metadata_footprint (task_data_path : string)
    (w w1 : world) (out : outcome string) :
  create_task_folder_and_metadata task_data_path w = (out, w1) →
  spawned w1 = spawned w
  ∧ ((files w1 = files w ∧ ∀ folder, out ≠ Ok folder)
     ∨ ∃ text fields jira_id,
         files w !! task_data_path = Some text
         ∧ json_loads text = Decoded (JObj fields)
         ∧ dict_get fields "jira_id" = Some (JStr jira_id)
         ∧ files_outside
             (λ p, p = os_path_join (os_path_join "tasks" jira_id) "metadata.json")
             w w1
         ∧ ∀ folder, out = Ok folder → folder = os_path_join "tasks" jira_id).
Proof.
  unfold create_task_folder_and_metadata. intros Hrun.
  rewrite (bind_ok _ _ w w
             (bool_decide (is_Some (files w !! task_data_path))
              || bool_decide (task_data_path ∈ dirs w))) in Hrun by reflexivity.
  destruct (bool_decide _ || bool_decide _); cbn [negb] in Hrun.
  2:{ rewrite (bind_raise _ _ w
                 (World (files w) (dirs w)
                    (stdout w ++ ["Error: " +:+ task_data_path +:+ " not found."])
                    (spawned w) (nonce w)) (SystemExit 1)) in Hrun by reflexivity.
      injection Hrun as <- <-. split; [done|]. by left. }
  rewrite (bind_ok _ _ w w tt) in Hrun by done.
  destruct (json_load_cases task_data_path w)
    as [(text & task_data & Hfile & Hloads & Hload)|[e Hload]].
  2:{ rewrite (bind_raise _ _ w w e) in Hrun by done.
      injection Hrun as <- <-. split; [done|]. by left. }
  rewrite (bind_ok _ _ w w task_data) in Hrun by done.
  destruct task_data as [| | | | | |fields].
  1-6: rewrite (bind_raise _ _ w w AttributeError) in Hrun by reflexivity;
       injection Hrun as <- <-; split; [done|]; by left.
  rewrite (bind_ok _ _ w w (match dict_get fields "jira_id" with
                            | Some v => v
                            | None => JNull
                            end)) in Hrun by reflexivity.
  destruct (truthy _) eqn:Htruthy; cbn [negb] in Hrun.
  2:{ rewrite (bind_raise _ _ w
                 (World (files w) (dirs w)
                    (stdout w ++ ["Error: jira_id not found in task_data.json"])
                    (spawned w) (nonce w)) (SystemExit 1)) in Hrun by reflexivity.
      injection Hrun as <- <-. split; [done|]. by left. }
  rewrite (bind_ok _ _ w w tt) in Hrun by done.
  destruct (dict_get fields "jira_id") as [[| | | |jira_id| |]|] eqn:Hjira.
  1-4,6-8: rewrite (bind_raise _ _ w w TypeError) in Hrun by reflexivity;
           injection Hrun as <- <-; split; [done|]; by left.
  rewrite (bind_ok _ _ w w (os_path_join "tasks" jira_id)) in Hrun by reflexivity.
  set (task_folder := os_path_join "tasks" jira_id) in *.
  set (P := λ p, p = os_path_join task_folder "metadata.json").
  match type of Hrun with
  | ?tail w = _ =>
      assert (Htail : respects P (λ folder, folder = task_folder) tail)
  end.
  { assert (Hpath : P (os_path_join task_folder "metadata.json")) by done.
    eapply respects_bind; [apply respects_os_makedirs|]. intros _ _.
    eapply respects_bind; [apply respects_print|]. intros _ _.
    eapply respects_bind.
    { unfold shutil_copyfile. eapply respects_bind; [apply respects_read_text|].
      intros template_text _. by apply respects_write_text. }
    intros _ _.
    eapply respects_bind; [apply respects_print|]. intros _ _.
    eapply respects_bind; [apply respects_json_load|]. intros metadata _.
    eapply respects_bind; [apply respects_fresh_uuid|]. intros task_id _.
    eapply respects_bind; [by apply (respects_lift _ anything)|]. intros metadata' _.
    eapply respects_bind; [by apply respects_write_text|]. intros _ _.
    eapply respects_bind; [apply respects_print|]. intros _ _.
    by apply respects_ret. }
  destruct (Htail _ _ _ Hrun) as (Hfiles & Hspawned & Hfolder).
  split; [done|]. right. by exists text, fields, jira_id.
Qed.

Lemma respects_load_reports (P : string → Prop) (analysis_dir : string)
    (indices : list Z) (reports : list (string * string)) :
  respects P anything (load_reports analysis_dir indices reports).
Proof.
  revert reports. induction indices as [|i indices IH]; intros reports; simpl.
  - by apply respects_ret.
  - eapply respects_bind; [apply respects_read_text|]. intros text _. apply IH.
Qed.

Lemma respects_on_decode (P : string → Prop) (content : string) (attempt : decoded) :
  respects P anything (on_decode content attempt).
Proof.
  destruct attempt as [v|msg| |msg]; unfold on_decode.
  - by apply respects_ret.
  - eapply respects_bind; [apply respects_print|]. intros _ _.
    eapply respects_bind; [apply respects_print|]. intros _ _.
    by apply respects_ret.
  - apply respects_raise.
  - apply respects_raise.
Qed.

Lemma respects_analyze_implementations (P : string → Prop) problem_description
    reports implementations include_improved_diff :
  respects P anything
    (analyze_implementations problem_description reports implementations
       include_improved_diff).
Proof.
  unfold analyze_implementations.
  eapply respects_bind; [by apply (respects_lift _ anything)|]. intros prompt _.
  eapply respects_bind; [by apply (respects_lift _ anything)|]. intros content _.
  rewrite parse_reply_json_text. apply respects_on_decode.
Qed.

Lemma respects_update_metadata (task_folder : string) (analysis_results : json) :
  respects (λ p, p = os_path_join task_folder "metadata.json") anything
    (update_metadata task_folder analysis_results).
Proof.
  unfold update_metadata.
  eapply respects_bind; [apply respects_json_load|]. intros metadata _.
  eapply respects_bind; [by apply (respects_lift _ anything)|]. intros metadata' _.
  by apply respects_write_text.
Qed.

(** X17: what steps 2 to 4 of [main] (lines 358-377: bootstrapper, loaders,
    judge, merge) can touch.  They spawn no command, and a file that is
    not as before can only be the metadata file of the task the task data
    names: the task data was read, it is a dict whose [jira_id] is a
    string, and the path is [os.path.join] of [tasks], that string and
    [metadata.json].  When the task data cannot be read that way, no file
    changes at all. *)
Theorem evaluate_task_footprint (task_data_path analysis_dir : string)
    (include_improved_diff : bool) (w : world) :
  let w' := (evaluate_task task_data_path analysis_dir include_improved_diff w).2 in
  spawned w' = spawned w
  ∧ ∀ p, files w' !! p ≠ files w !! p →
         ∃ text fields jira_id,
           files w !! task_data_path = Some text
           ∧ json_loads text = Decoded (JObj fields)
           ∧ dict_get fields "jira_id" = Some (JStr jira_id)
           ∧ p = os_path_join (os_path_join "tasks" jira_id) "metadata.json".
Proof.
  intros w'. subst w'. unfold evaluate_task.
  destruct (create_task_folder_and_metadata task_data_path w) as [out w1] eqn:Hcreate.
  destruct (create_task_folder_and_metadata_footprint _ _ _ _ Hcreate)
    as [Hspawned Hcases].
  destruct out as [task_folder|e].
  - destruct Hcases as [[_ Hno]|(text & fields & jira_id & Hfile & Hloads & Hjira
                                  & Hfiles & Hfolder)];
      [by destruct (Hno task_folder)|].
    rewrite (Hfolder task_folder eq_refl) in *.
    rewrite (bind_ok _ _ w w1 (os_path_join "tasks" jira_id)) by done.
    set (P := λ p, p = os_path_join (os_path_join "tasks" jira_id) "metadata.json")
      in *.
    match goal with
    | |- context [(?rest w1).2] =>
        assert (Hrest : respects P anything rest)
    end.
    { eapply respects_bind; [apply respects_json_load|]. intros task_data _.
      eapply respects_bind; [by apply (respects_lift _ anything)|]. intros pd _.
      eapply respects_bind; [by apply (respects_lift _ anything)|]. intros d1 _.
      eapply respects_bind; [by apply (respects_lift _ anything)|]. intros d2 _.
      eapply respects_bind; [by apply (respects_lift _ anything)|]. intros d3 _.
      eapply respects_bind; [by apply (respects_lift _ anything)|]. intros d4 _.
      eapply respects_bind; [apply respects_load_reports|]. intros reports _.
      eapply respects_bind; [apply respects_print|]. intros _ _.
      eapply respects_bind; [apply respects_analyze_implementations|].
      intros analysis_results _.
      eapply respects_bind; [apply respects_update_metadata|]. intros _ _.
      apply respects_print. }
    match goal with
    | |- context [(?rest w1).2] => destruct (rest w1) as [out2 w2] eqn:Hrun
    end.
    destruct (Hrest _ _ _ Hrun) as (Hfiles2 & Hspawned2 & _). simpl.
    split; [congruence|]. intros p Hp.
    destruct (decide (P p)) as [Hpath|Hother]; [by exists text, fields, jira_id|].
    destruct Hp. by rewrite (Hfiles2 p Hother), (Hfiles p Hother).
  - rewrite (bind_raise _ _ w w1 e) by done. simpl. split; [done|]. intros p Hp.
    destruct Hcases as [[Hsame _]|(text & fields & jira_id & Hfile & Hloads & Hjira
                                    & Hfiles & _)];
      [by rewrite Hsame in Hp|].
    destruct (decide (p = os_path_join (os_path_join "tasks" jira_id) "metadata.json"))
      as [Hpath|Hother]; [by exists text, fields, jira_id|].
    destruct Hp. by apply Hfiles.
Qed.

End Footprint.

(** ** The whole run *)

Section WholeRun.
Context `{Platform}.

Lemma getitem_key_ok (d : dict) (k : string) (v : json) :
  dict_get d k = Some v → getitem (JObj d) (SKey k) = Ok v.
Proof. intros Hk. simpl. by rewrite Hk. Qed.

(** X18: steps 1 to 4 of [main] (lines 353-377) as a whole.  When the six
    commands succeed and leave the task definition, the template and the
    four reports in place, the ticket identifier is a plain name, and the
    model returns a reply that decodes, the steps end normally: the task
    folder exists, the metadata file holds the merge of the decoded reply
    into the freshly filled template, five lines were printed after the
    commands' own, and nothing else changed. *)
Theorem pipeline_evaluates_task (fields : dict)
    (text jira_id template_text t1 t2 t3 t4 prompt reply : string)
    (template seeded reread results merged pd d1 d2 d3 d4 : json)
    (w w1 : world) :
  let task_folder := os_path_join "tasks" jira_id in
  let metadata_path := os_path_join task_folder "metadata.json" in
  for_each commands run_command w = (Ok tt, w1) →
  files w1 !! "automation_tool/task_data.json" = Some text →
  json_loads text = Decoded (JObj fields) →
  dict_get fields "jira_id" = Some (JStr jira_id) →
  plain_name jira_id = true → "tasks" ∈ dirs w1 →
  files w1 !! task_folder = None → metadata_path ∉ dirs w1 →
  files w1 !! "tasks/metadata_base.json" = Some template_text →
  json_loads template_text = Decoded template →
  populate template (JObj fields) (uuid4 (nonce w1)) = Ok seeded →
  dict_get fields "pr_description" = Some pd →
  dict_get fields "diff_1" = Some d1 → dict_get fields "diff_2" = Some d2 →
  dict_get fields "diff_3" = Some d3 → dict_get fields "diff_4" = Some d4 →
  files w1 !! report_path "code-evaluation/analysis" 1 = Some t1 →
  files w1 !! report_path "code-evaluation/analysis" 2 = Some t2 →
  files w1 !! report_path "code-evaluation/analysis" 3 = Some t3 →
  files w1 !! report_path "code-evaluation/analysis" 4 = Some t4 →
  (∀ p, In p ["automation_tool/task_data.json";
              report_path "code-evaluation/analysis" 1;
              report_path "code-evaluation/analysis" 2;
              report_path "code-evaluation/analysis" 3;
              report_path "code-evaluation/analysis" 4] → metadata_path ≠ p) →
  user_prompt pd [("impl_1", t1); ("impl_2", t2); ("impl_3", t3); ("impl_4", t4)]
    [d1; d2; d3; d4] false = Ok prompt →
  llm_invoke [SystemMessage system_message; HumanMessage prompt] = Ok reply →
  json_loads (json_text reply) = Decoded results →
  json_loads (json_dumps seeded) = Decoded reread →
  merge_results reread results = Ok merged →
  run_steps true commands "automation_tool/task_data.json"
    "code-evaluation/analysis" false w
  = (Ok tt,
     World (<[metadata_path := json_dumps merged]> (files w1))
       ({[task_folder]} ∪ dirs w1)
       (stdout w1
        ++ ["Created folder: " +:+ task_folder;
            "Copied metadata_base.json to " +:+ task_folder;
            "Updated metadata.json in " +:+ task_folder +:+ " with task_id: "
              +:+ uuid4 (nonce w1);
            "Analysis reports in progress!";
            "Metadata updated successfully!"])
       (spawned w1) (S (nonce w1))).
Proof.
  intros task_folder metadata_path Hcommands Hfile Hloads Hjira Hplain Htasks
    Hnofile Hnodir Htmpl Htemplate Hpopulate Hpd Hd1 Hd2 Hd3 Hd4 Hr1 Hr2 Hr3 Hr4
    Hpaths Hprompt Hllm Hreply Hreread Hmerge.
  unfold run_steps.
  rewrite (bind_ok _ _ w w1 tt) by exact Hcommands.
  unfold evaluate_task.
  set (w2 := World (<[metadata_path := json_dumps seeded]> (files w1))
               ({[task_folder]} ∪ dirs w1)
               (stdout w1
                ++ ["Created folder: " +:+ task_folder;
                    "Copied metadata_base.json to " +:+ task_folder;
                    "Updated metadata.json in " +:+ task_folder
                      +:+ " with task_id: " +:+ uuid4 (nonce w1)])
               (spawned w1) (S (nonce w1))).
  rewrite (bind_ok _ _ w1 w2 task_folder).
  2:{ rewrite (bootstrapper_copies_template _ text jira_id template_text fields
                 template) by done.
      fold task_folder. fold metadata_path.
      set (w0 := World _ _ _ _ _).
      rewrite (bind_ok _ _ w0 w0 seeded) by (unfold lift; by rewrite Hpopulate).
      set (w0' := World (<[metadata_path := json_dumps seeded]> (files w1))
                    (dirs w0) (stdout w0) (spawned w1) (S (nonce w1))).
      rewrite (bind_ok _ _ w0 w0' tt).
      2:{ unfold json_dump. rewrite write_text_ok.
          - unfold w0', w0. simpl. by rewrite insert_insert_eq.
          - unfold w0. simpl. intros [Hin|Hin]%elem_of_union; [|done].
            apply elem_of_singleton in Hin. by apply os_path_join_file_ne in Hin. }
      unfold bind, M_bind, print, ret, w2, w0', w0. simpl.
      by rewrite <- !app_assoc. }
  assert (Hkept : ∀ p x, In p ["automation_tool/task_data.json";
                               report_path "code-evaluation/analysis" 1;
                               report_path "code-evaluation/analysis" 2;
                               report_path "code-evaluation/analysis" 3;
                               report_path "code-evaluation/analysis" 4] →
                         files w1 !! p = Some x → files w2 !! p = Some x).
  { intros p x Hp Hx. simpl. rewrite lookup_insert_ne; [done|]. by apply Hpaths. }
  rewrite (bind_ok _ _ w2 w2 (JObj fields)).
  2:{ apply (json_load_ok _ text); [|done]. apply Hkept; [simpl; tauto | done]. }
  rewrite (bind_ok _ _ w2 w2 pd) by (unfold lift; by rewrite (getitem_key_ok _ _ _ Hpd)).
  rewrite (bind_ok _ _ w2 w2 d1) by (unfold lift; by rewrite (getitem_key_ok _ _ _ Hd1)).
  rewrite (bind_ok _ _ w2 w2 d2) by (unfold lift; by rewrite (getitem_key_ok _ _ _ Hd2)).
  rewrite (bind_ok _ _ w2 w2 d3) by (unfold lift; by rewrite (getitem_key_ok _ _ _ Hd3)).
  rewrite (bind_ok _ _ w2 w2 d4) by (unfold lift; by rewrite (getitem_key_ok _ _ _ Hd4)).
  rewrite (bind_ok _ _ w2 w2
             [("impl_1", t1); ("impl_2", t2); ("impl_3", t3); ("impl_4", t4)]).
  2:{ unfold load_implementation_reports. cbn [load_reports].
      rewrite (bind_ok _ _ w2 w2 t1)
        by (apply read_text_ok, Hkept; [simpl; tauto | done]).
      rewrite (bind_ok _ _ w2 w2 t2)
        by (apply read_text_ok, Hkept; [simpl; tauto | done]).
      rewrite (bind_ok _ _ w2 w2 t3)
        by (apply read_text_ok, Hkept; [simpl; tauto | done]).
      rewrite (bind_ok _ _ w2 w2 t4)
        by (apply read_text_ok, Hkept; [simpl; tauto | done]).
      reflexivity. }
  set (w3 := World (files w2) (dirs w2)
               (stdout w2 ++ ["Analysis reports in progress!"])
               (spawned w1) (S (nonce w1))).
  rewrite (bind_ok _ _ w2 w3 tt) by done.
  rewrite (bind_ok _ _ w3 w3 results).
  2:{ rewrite (analyze_implementations_parse _ _ _ _ prompt reply) by done.
      by rewrite parse_reply_json_text, Hreply. }
  set (w4 := World (<[metadata_path := json_dumps merged]> (files w1))
               (dirs w2) (stdout w3) (spawned w1) (S (nonce w1))).
  rewrite (bind_ok _ _ w3 w4 tt).
  2:{ unfold update_metadata. fold metadata_path.
      rewrite (bind_ok _ _ w3 w3 reread).
      2:{ apply (json_load_ok _ (json_dumps seeded)); [|done].
          simpl. apply lookup_insert_eq. }
      rewrite (bind_ok _ _ w3 w3 merged) by (unfold lift; by rewrite Hmerge).
      unfold json_dump. rewrite write_text_ok.
      - unfold w4, w3, w2. simpl. by rewrite insert_insert_eq.
      - simpl. intros [Hin|Hin]%elem_of_union; [|done].
        apply elem_of_singleton in Hin. by apply os_path_join_file_ne in Hin. }
  unfold print, w4, w3, w2. simpl. by rewrite <- !app_assoc.
Qed.

End WholeRun.

(** X20: [main] as it is written never gets to its first command: line
    340 reads the name [api_key], which nothing in the module binds, so the
    call ends with [NameError] before the client is built; nothing is
    printed, spawned or written. *)
Theorem main_stops_at_api_key `{Platform} (w : world) :
  main w = (Raise (NameError "api_key"), w).
Proof.
  unfold main. apply bind_raise.
  unfold load_name.
  change (existsb (String.eqb "api_key") module_names) with false.
  reflexivity.
Qed.

Lemma pipeline_evaluates_task_witness :
  run_steps (H := SampleEndToEnd.host) true commands
    "automation_tool/task_data.json" "code-evaluation/analysis" false
    SampleEndToEnd.ready
  = (Ok tt,
     World (<[SampleTask.metadata_path := Reference.dumps SampleEndToEnd.evaluated]>
              (files SampleEndToEnd.after_commands))
       ({[SampleTask.task_folder]} ∪ dirs SampleEndToEnd.after_commands)
       (stdout SampleEndToEnd.after_commands
        ++ ["Created folder: tasks/PROJ-7";
            "Copied metadata_base.json to tasks/PROJ-7";
            "Updated metadata.json in tasks/PROJ-7 with task_id: task-0";
            "Analysis reports in progress!";
            "Metadata updated successfully!"])
       (spawned SampleEndToEnd.after_commands) 1).
Proof.
  apply (pipeline_evaluates_task (H := SampleEndToEnd.host)
           SampleEndToEnd.task_fields
           (Reference.dumps (JObj SampleEndToEnd.task_fields)) "PROJ-7"
           (Reference.dumps SampleTask.template)
           "report 1" "report 2" "report 3" "report 4"
           SampleEndToEnd.user_message SampleEndToEnd.reply
           SampleTask.template SampleEndToEnd.seeded
           SampleEndToEnd.seeded SampleMerge.results SampleEndToEnd.evaluated
           (JStr "Fix the retry loop")
           (JStr (SampleEndToEnd.diff "1")) (JStr (SampleEndToEnd.diff "2"))
           (JStr (SampleEndToEnd.diff "3")) (JStr (SampleEndToEnd.diff "4"))
           SampleEndToEnd.ready SampleEndToEnd.after_commands);
    try (vm_compute; reflexivity).
  - vm_compute. discriminate.
  - intros p Hp. simpl in Hp.
    destruct Hp as [<-|[<-|[<-|[<-|[<-|[]]]]]]; vm_compute; discriminate.
Defined.

(** ** Merging the fallback result *)

Lemma place_fallback (slot : json) :
  place [fallback_entry "impl_1"; fallback_entry "impl_2";
         fallback_entry "impl_3"; fallback_entry "impl_4"] slot
  = zeroed slot.
Proof.
  unfold place, zeroed, diff_keys. cbn [List.find existsb].
  change (matches (fallback_entry "impl_1") slot) with (has_key "diff_1" slot).
  change (matches (fallback_entry "impl_2") slot) with (has_key "diff_2" slot).
  change (matches (fallback_entry "impl_3") slot) with (has_key "diff_3" slot).
  change (matches (fallback_entry "impl_4") slot) with (has_key "diff_4" slot).
  destruct (has_key "diff_1" slot); [done|].
  destruct (has_key "diff_2" slot); [done|].
  destruct (has_key "diff_3" slot); [done|].
  by destruct (has_key "diff_4" slot).
Qed.

(** X19: the degraded path.  The fallback result always merges into a
    record whose slots are keyed by the diff keys and that has an
    evaluation dict: every slot that holds a diff key ends with both scores
    zero and the error comment, and the summary ends with best diff zero,
    the error rationale and an empty improved diff. *)
Theorem fallback_merge_zeroes (d : dict) (slots : list json) (summary : dict) :
  dict_get d "implementations" = Some (JArr slots) →
  keyed slots →
  dict_get d "evaluation" = Some (JObj summary) →
  ∃ metadata',
    merge_results (JObj d) fallback = Ok metadata'
    ∧ field metadata' "implementations" = Some (JArr (zeroed <$> slots))
    ∧ summary_field metadata' "best_diff" = Some (JInt 0)
    ∧ summary_field metadata' "preference_rationale"
      = Some (JStr "Error parsing LLM response")
    ∧ summary_field metadata' "improved_diff" = Some (JStr "").
Proof.
  intros Hd Hkeyed Hsummary.
  set (entries := [fallback_entry "impl_1"; fallback_entry "impl_2";
                   fallback_entry "impl_3"; fallback_entry "impl_4"]).
  assert (Hentries : Forall complete entries).
  { repeat constructor; vm_compute; eauto. }
  assert (Hnodup : NoDup (omap entry_diff_key entries)).
  { vm_compute. repeat (apply NoDup_cons_2; [not_among|]). apply NoDup_nil_2. }
  assert (Hloop := merge_implementations_keyed entries d slots Hd Hkeyed
                     Hentries Hnodup).
  rewrite (list_fmap_ext (place entries) zeroed slots) in Hloop
    by (intros i s _; apply place_fallback).
  set (d1 := dict_set d "implementations" (JArr (zeroed <$> slots))) in Hloop.
  assert (Hsummary1 : field (JObj d1) "evaluation" = Some (JObj summary)).
  { simpl. unfold d1. by rewrite dict_get_set_ne. }
  destruct (merge_evaluation_succeeds (JObj d1) fallback summary
              [("best_diff", JInt 0);
               ("preference_rationale", JStr "Error parsing LLM response");
               ("improved_diff", JStr "")] Hsummary1 eq_refl)
    as [metadata' Heval].
  assert (Hmerge : merge_results (JObj d) fallback = Ok metadata').
  { unfold merge_results.
    change (getitem fallback (SKey "implementations")) with (Ok (JArr entries)).
    rewrite bind_Ok_l. change (iterate (JArr entries)) with (Ok entries).
    by rewrite bind_Ok_l, Hloop, bind_Ok_l. }
  exists metadata'. split; [done|]. split.
  { rewrite (merge_evaluation_field _ _ _ "implementations" Heval) by done.
    simpl. unfold d1. apply dict_get_set_eq. }
  split; [|split].
  - by rewrite (merge_evaluation_summary _ _ _ "best_diff" Heval ltac:(simpl; tauto)).
  - by rewrite (merge_evaluation_summary _ _ _ "preference_rationale" Heval
                  ltac:(simpl; tauto)).
  - by rewrite (merge_evaluation_summary _ _ _ "improved_diff" Heval
                  ltac:(simpl; tauto)).
Qed.

Lemma fallback_merge_zeroes_witness :
  ∃ metadata',
    merge_results SampleTask.evaluated fallback = Ok metadata'
    ∧ field metadata' "implementations"
      = Some (JArr [SampleTask.scored_slot "diff_1" "diff 1" 0 0
                      "Error parsing LLM response";
                    SampleTask.scored_slot "diff_2" "diff 2" 0 0
                      "Error parsing LLM response";
                    SampleTask.scored_slot "diff_3" "diff 3" 0 0
                      "Error parsing LLM response";
                    SampleTask.scored_slot "diff_4" "diff 4" 0 0
                      "Error parsing LLM response"])
    ∧ summary_field metadata' "best_diff" = Some (JInt 0)
    ∧ summary_field metadata' "preference_rationale"
      = Some (JStr "Error parsing LLM response")
    ∧ summary_field metadata' "improved_diff" = Some (JStr "").
Proof.
  apply (fallback_merge_zeroes
           (match SampleTask.evaluated with JObj d => d | _ => [] end)
           [SampleTask.scored_slot "diff_1" "diff 1" 4 5 "clean";
            SampleTask.scored_slot "diff_2" "diff 2" 2 3 "partial";
            SampleTask.scored_slot "diff_3" "diff 3" 5 5 "best";
            SampleTask.scored_slot "diff_4" "diff 4" 1 2 "broken"]
           [("best_diff", JInt 3); ("preference_rationale", JStr "third wins");
            ("improved_diff", JStr "")]).
  - reflexivity.
  - split; [repeat constructor|]. split.
    + repeat (apply List.Forall_cons; [vm_compute; lia|]). apply List.Forall_nil.
    + vm_compute. repeat (apply NoDup_cons_2; [not_among|]). apply NoDup_nil_2.
  - reflexivity.
Defined.
